(** * submod: shifting the time fields of .srt and .vtt subtitle files

    A shallow embedding of [src/python/submod.py] and the properties of its
    specification that concern the time codec ([process_time]), the line
    transformer ([process_line]), the two stream converters ([convert_vtt],
    [convert_srt]) and the output namer ([name_output]).

    Modelling choices.
    - A Python [str] is a [string]; every character is one [ascii], so the
      development covers text whose code points are below 256 (there the
      regular expression class [\d] is exactly [0-9]).
    - A Python [float] is an IEEE 754 binary64 number, kept as a sign, a
      magnitude [m * 2^e] and the two special values.  Every arithmetic
      operation computes the exact rational result and rounds it once to the
      nearest binary64 number, ties to even ([nearest]).
    - [datetime.timedelta] is an integer count of microseconds, built from a
      float the way CPython's constructor does it.
    - A call that raises in Python returns [None] (or [Raise e] where the
      exception matters).  [py_int2] and [py_float] read the numerals of the
      fixed-width fields and of the tag; on other text they return [None],
      also where Python would still read a number.
    - Files are opened in text mode.  The loop of a converter reads the lines
      of the input with every line ending handed over as [\n], and the
      output is the list of the chunks written, in order, in which [\n]
      becomes the line separator of the platform.  What the operating
      system answers (which paths are files, which can be opened, which lead
      to the same file) is a parameter, [platform]. *)

From Stdlib Require Import ZArith List Bool Ascii String Lia.
Import ListNotations.
Open Scope Z_scope.

(* ================================================================= *)
(** ** Strings as Python uses them *)

Definition LF : string := String (ascii_of_nat 10) EmptyString.

(** [s[a:b]] for [0 <= a <= b]: clipped at the end of [s]. *)
Definition py_slice (a b : nat) (s : string) : string := substring a (b - a) s.

(** [s[n:]]. *)
Fixpoint drop (n : nat) (s : string) : string :=
  match n, s with
  | O, _ => s
  | S n', EmptyString => EmptyString
  | S n', String _ s' => drop n' s'
  end.

(** [s.replace(old, new)] for one-character [old] and [new]. *)
Fixpoint str_replace (old new : ascii) (s : string) : string :=
  match s with
  | EmptyString => EmptyString
  | String c s' =>
      String (if Ascii.eqb c old then new else c) (str_replace old new s')
  end.

Definition is_digit (c : ascii) : bool :=
  let n := N_of_ascii c in (48 <=? n)%N && (n <=? 57)%N.

Definition digit_char (d : Z) : ascii := ascii_of_N (Z.to_N (48 + d)).

Definition digit_val (c : ascii) : Z := Z.of_N (N_of_ascii c) - 48.

(** The longest prefix of digits, and what follows it. *)
Fixpoint split_digits (s : string) : string * string :=
  match s with
  | EmptyString => (EmptyString, EmptyString)
  | String c s' =>
      if is_digit c
      then let (ds, rest) := split_digits s' in (String c ds, rest)
      else (EmptyString, s)
  end.

Fixpoint all_digits (s : string) : bool :=
  match s with
  | EmptyString => true
  | String c s' => is_digit c && all_digits s'
  end.

(** The number written by a string of digits, most significant first. *)
Fixpoint digits_val (acc : Z) (s : string) : Z :=
  match s with
  | EmptyString => acc
  | String c s' => digits_val (10 * acc + digit_val c) s'
  end.

(** The decimal digits of [n >= 0] without leading zeros ([str(n)]). *)
Fixpoint render_digits (fuel : nat) (n : Z) (acc : string) : string :=
  let acc' := String (digit_char (n mod 10)) acc in
  match fuel with
  | O => acc'
  | S fuel' => if n <? 10 then acc' else render_digits fuel' (n / 10) acc'
  end.

Definition render_nat (n : Z) : string :=
  render_digits (Z.to_nat (Z.log2 n)) n EmptyString.

(** Exactly [p] digits of [r], most significant first. *)
Fixpoint fixed_digits (p : nat) (r : Z) : string :=
  match p with
  | O => EmptyString
  | S p' => (fixed_digits p' (r / 10) ++ String (digit_char (r mod 10)) EmptyString)%string
  end.

Fixpoint zeros (n : nat) : string :=
  match n with
  | O => EmptyString
  | S n' => String "0"%char (zeros n')
  end.

(** Left padding with ['0'] up to [width] characters. *)
Definition zero_pad (width : nat) (s : string) : string :=
  (zeros (width - String.length s) ++ s)%string.

(* ================================================================= *)
(** ** Python floats: IEEE 754 binary64 *)

Inductive float : Type :=
| Fnan
| Finf (neg : bool)
| Ffin (neg : bool) (m : Z) (e : Z).   (* (-1)^neg * m * 2^e, with 0 <= m *)

(** Exponent of the least significant bit of the subnormal numbers. *)
Definition emin : Z := -1074.

(** The magnitude of a finite float as the fraction [fnum m e / fden e]. *)
Definition fnum (m e : Z) : Z := Z.shiftl m (Z.max 0 e).
Definition fden (e : Z) : Z := Z.shiftl 1 (Z.max 0 (- e)).

(** The integer nearest to [p / q], ties to the even one ([0 <= p], [0 < q]). *)
Definition round_half_even (p q : Z) : Z :=
  let n := p / q in
  match 2 * (p mod q) ?= q with
  | Lt => n
  | Gt => n + 1
  | Eq => if Z.even n then n else n + 1
  end.

(** [floor (log2 (a / b))] for [0 < a] and [0 < b]. *)
Definition binade (a b : Z) : Z :=
  let t := Z.log2 a - Z.log2 b in
  if Z.shiftl b (Z.max 0 t) <=? Z.shiftl a (Z.max 0 (- t)) then t else t - 1.

(** The binary64 number nearest to [a / b] (ties to even), with the given
    sign: 53 significant bits, gradual underflow below [2^-1022], infinity
    from [2^1024] on. *)
Definition nearest (neg : bool) (a b : Z) : float :=
  if a =? 0 then Ffin neg 0 emin
  else
    let e := Z.max emin (binade a b - 52) in
    let m := round_half_even (Z.shiftl a (Z.max 0 (- e))) (Z.shiftl b (Z.max 0 e)) in
    if 1024 <=? Z.log2 m + e then Finf neg else Ffin neg m e.

(** The same for a signed numerator; [zneg] is the sign of an exact zero. *)
Definition nearest_signed (zneg : bool) (a b : Z) : float :=
  if a =? 0 then Ffin zneg 0 emin else nearest (a <? 0) (Z.abs a) b.

Definition sgn (neg : bool) (z : Z) : Z := if neg then - z else z.

(** An integer as a float (exact for the small integers of this program). *)
Definition float_of_Z (z : Z) : float := Ffin (z <? 0) (Z.abs z) 0.

Definition fl_zero : float := float_of_Z 0.
Definition fl_half : float := Ffin false 1 (-1).

Definition fl_opp (x : float) : float :=
  match x with
  | Fnan => Fnan
  | Finf s => Finf (negb s)
  | Ffin s m e => Ffin (negb s) m e
  end.

Definition fl_abs (x : float) : float :=
  match x with
  | Fnan => Fnan
  | Finf _ => Finf false
  | Ffin _ m e => Ffin false m e
  end.

Definition fl_add (x y : float) : float :=
  match x, y with
  | Fnan, _ | _, Fnan => Fnan
  | Finf s, Finf s' => if Bool.eqb s s' then Finf s else Fnan
  | Finf s, Ffin _ _ _ => Finf s
  | Ffin _ _ _, Finf s => Finf s
  | Ffin sx mx ex, Ffin sy my ey =>
      nearest_signed (sx && sy)
        (sgn sx (fnum mx ex) * fden ey + sgn sy (fnum my ey) * fden ex)
        (fden ex * fden ey)
  end.

Definition fl_sub (x y : float) : float := fl_add x (fl_opp y).

Definition fl_mul (x y : float) : float :=
  match x, y with
  | Fnan, _ | _, Fnan => Fnan
  | Finf s, Finf s' => Finf (xorb s s')
  | Finf s, Ffin s' m _ | Ffin s' m _, Finf s =>
      if m =? 0 then Fnan else Finf (xorb s s')
  | Ffin sx mx ex, Ffin sy my ey =>
      nearest (xorb sx sy) (fnum mx ex * fnum my ey) (fden ex * fden ey)
  end.

Definition fl_div (x y : float) : float :=
  match x, y with
  | Fnan, _ | _, Fnan => Fnan
  | Finf _, Finf _ => Fnan
  | Finf s, Ffin s' _ _ => Finf (xorb s s')
  | Ffin s _ _, Finf s' => Ffin (xorb s s') 0 emin
  | Ffin sx mx ex, Ffin sy my ey =>
      if my =? 0
      then (if mx =? 0 then Fnan else Finf (xorb sx sy))
      else nearest (xorb sx sy) (fnum mx ex * fden ey) (fden ex * fnum my ey)
  end.

(** Comparison; [None] when one side is not a number. *)
Definition fl_compare (x y : float) : option comparison :=
  match x, y with
  | Fnan, _ | _, Fnan => None
  | Finf s, Finf s' =>
      Some (if Bool.eqb s s' then Eq else if s then Lt else Gt)
  | Finf s, Ffin _ _ _ => Some (if s then Lt else Gt)
  | Ffin _ _ _, Finf s => Some (if s then Gt else Lt)
  | Ffin sx mx ex, Ffin sy my ey =>
      Some (sgn sx (fnum mx ex) * fden ey ?= sgn sy (fnum my ey) * fden ex)
  end.

Definition fl_eqb (x y : float) : bool :=
  match fl_compare x y with Some Eq => true | _ => false end.
Definition fl_ltb (x y : float) : bool :=
  match fl_compare x y with Some Lt => true | _ => false end.
Definition fl_gtb (x y : float) : bool :=
  match fl_compare x y with Some Gt => true | _ => false end.
Definition fl_geb (x y : float) : bool :=
  match fl_compare x y with Some Gt | Some Eq => true | _ => false end.

(** C's [modf]: the fractional and the integral part, both with the sign of
    the argument and both exact. *)
Definition modf (x : float) : float * float :=
  match x with
  | Fnan => (Fnan, Fnan)
  | Finf s => (Ffin s 0 emin, Finf s)
  | Ffin s m e =>
      (Ffin s (fnum m e mod fden e) (Z.min e 0), Ffin s (fnum m e / fden e) 0)
  end.

(** C's [fmod]: exact, with the sign of the first argument. *)
Definition fmod (x y : float) : float :=
  match x, y with
  | Fnan, _ | _, Fnan => Fnan
  | Finf _, _ => Fnan
  | Ffin _ _ _, Finf _ => x
  | Ffin sx mx ex, Ffin _ my ey =>
      if my =? 0 then Fnan
      else Ffin sx ((fnum mx ex * fden ey) mod (fnum my ey * fden ex))
                (Z.min ex 0 + Z.min ey 0)
  end.

(** C's [floor]. *)
Definition c_floor (x : float) : float :=
  match x with
  | Ffin s m e =>
      let q := fnum m e / fden e in
      if s && negb (fnum m e mod fden e =? 0) then Ffin true (q + 1) 0
      else Ffin s q 0
  | _ => x
  end.

(** C's [round]: to the nearest integer, halves away from zero. *)
Definition c_round (x : float) : float :=
  match x with
  | Ffin s m e => Ffin s ((2 * fnum m e + fden e) / (2 * fden e)) 0
  | _ => x
  end.

Definition copysign (x y : float) : float :=
  let s := match y with Ffin s _ _ | Finf s => s | Fnan => false end in
  match x with
  | Fnan => Fnan
  | Finf _ => Finf s
  | Ffin _ m e => Ffin s m e
  end.

(** [int(x)], also C's conversion of a float to an integer: truncation; it
    raises on infinities and on NaN. *)
Definition int_of_float (x : float) : option Z :=
  match x with
  | Ffin s m e => Some (sgn s (fnum m e / fden e))
  | _ => None
  end.

(** CPython's [_float_div_mod] for a divisor that is not zero: the pair
    [(vx // wx, vx % wx)]. *)
Definition float_div_mod (vx wx : float) : float * float :=
  let mod0 := fmod vx wx in
  let div0 := fl_div (fl_sub vx mod0) wx in
  let '(div1, mod1) :=
    if negb (fl_eqb mod0 fl_zero) then
      if negb (Bool.eqb (fl_ltb wx fl_zero) (fl_ltb mod0 fl_zero))
      then (fl_sub div0 (float_of_Z 1), fl_add mod0 wx)
      else (div0, mod0)
    else (div0, copysign fl_zero wx) in
  let floordiv :=
    if negb (fl_eqb div1 fl_zero) then
      let fd := c_floor div1 in
      if fl_gtb (fl_sub div1 fd) fl_half then fl_add fd (float_of_Z 1) else fd
    else copysign fl_zero (fl_div vx wx) in
  (floordiv, mod1).

(** [x // n] and [x % n] for a float [x] and an integer [n <> 0]. *)
Definition py_floordiv (x : float) (n : Z) : float := fst (float_div_mod x (float_of_Z n)).
Definition py_mod (x : float) (n : Z) : float := snd (float_div_mod x (float_of_Z n)).

(** [float(s)] on the numerals this program meets: an optional sign, digits,
    a period, digits.  The result is the correctly rounded value.  [None] on
    any other text: Python raises [ValueError] there, except for the laxer
    numerals it also reads (white space around, exponents, underscores, a
    missing integer or fractional part), which are outside this model. *)
Definition strip_sign (s : string) : bool * string :=
  match s with
  | String c r =>
      if Ascii.eqb c "+" then (false, r)
      else if Ascii.eqb c "-" then (true, r)
      else (false, s)
  | EmptyString => (false, s)
  end.

Definition is_empty (s : string) : bool :=
  match s with EmptyString => true | String _ _ => false end.

Definition py_float (s : string) : option float :=
  let (neg, body) := strip_sign s in
  let (ip, rest) := split_digits body in
  match rest with
  | String c fp =>
      if Ascii.eqb c "." && negb (is_empty ip) && negb (is_empty fp) && all_digits fp
      then Some (nearest neg (digits_val 0 (ip ++ fp)%string)
                         (10 ^ Z.of_nat (String.length fp)))
      else None
  | EmptyString => None
  end.

(** [int(s)] on a field of exactly two digits; [None] on any other text
    (Python raises [ValueError] there, except for the laxer numerals it also
    reads, which are outside this model). *)
Definition py_int2 (s : string) : option Z :=
  match s with
  | String a (String b EmptyString) =>
      if is_digit a && is_digit b then Some (10 * digit_val a + digit_val b) else None
  | _ => None
  end.

Definition sign_str (neg : bool) : string := if neg then "-"%string else EmptyString.

(** [format(x, '.pf')] for [p >= 1]: correctly rounded, ties to even. *)
Definition fmt_fixed (p : nat) (x : float) : string * string :=
  match x with
  | Fnan => (EmptyString, "nan"%string)
  | Finf s => (sign_str s, "inf"%string)
  | Ffin s m e =>
      let n := round_half_even (fnum m e * 10 ^ Z.of_nat p) (fden e) in
      (sign_str s,
       (render_nat (n / 10 ^ Z.of_nat p) ++ "." ++ fixed_digits p (n mod 10 ^ Z.of_nat p))%string)
  end.

(** ['{:.2f}'] *)
Definition fmt_2f (x : float) : string :=
  let (s, body) := fmt_fixed 2 x in (s ++ body)%string.

(** ['{:06.3f}']: zeros between the sign and the digits up to six characters. *)
Definition fmt_06_3f (x : float) : string :=
  let (s, body) := fmt_fixed 3 x in
  (s ++ zero_pad (6 - String.length s) body)%string.

(** ['{:02d}'] *)
Definition fmt_02d (n : Z) : string :=
  if n <? 0 then ("-" ++ zero_pad 1 (render_nat (- n)))%string
  else zero_pad 2 (render_nat n).

(* ================================================================= *)
(** ** datetime.timedelta *)

(** A [timedelta] is its total number of microseconds.  The constructor
    follows CPython's [delta_new]: every keyword is accumulated by [accum],
    a float is split into its integral and fractional part, and the
    fractional microseconds left over are rounded half to even at the end. *)

Definition us_per_second : Z := 1000000.
Definition us_per_minute : Z := 60000000.
Definition us_per_hour : Z := 3600000000.
Definition us_per_day : Z := 86400000000.
Definition max_delta_days : Z := 999999999.

Definition accum_int (sofar num factor : Z) : Z := sofar + num * factor.

Definition accum_float (sofar : Z) (num : float) (factor : Z) (leftover : float)
  : option (Z * float) :=
  let (fracpart, intpart) := modf num in
  match int_of_float intpart with
  | None => None
  | Some x =>
      let sum := sofar + x * factor in
      if fl_eqb fracpart fl_zero then Some (sum, leftover)
      else
        let dnum := fl_mul (float_of_Z factor) fracpart in
        let (fracpart', intpart') := modf dnum in
        match int_of_float intpart' with
        | None => None
        | Some x' => Some (sum + x', fl_add leftover fracpart')
        end
  end.

Definition round_leftover (x : Z) (leftover_us : float) : option Z :=
  if fl_eqb leftover_us fl_zero then Some x
  else
    let whole_us := c_round leftover_us in
    let whole_us' :=
      if fl_eqb (fl_abs (fl_sub whole_us leftover_us)) fl_half then
        let x_is_odd := float_of_Z (Z.land x 1) in
        fl_sub (fl_mul (float_of_Z 2)
                       (c_round (fl_mul (fl_add leftover_us x_is_odd) fl_half)))
               x_is_odd
      else whole_us in
    match int_of_float whole_us' with
    | None => None
    | Some w => Some (x + w)
    end.

(** The range check of a new [timedelta]: [OverflowError] outside it. *)
Definition microseconds_to_delta (us : Z) : option Z :=
  if Z.abs (us / us_per_day) <=? max_delta_days then Some us else None.

(** [timedelta(hours=hrs, minutes=mins, seconds=secs)], [hrs] and [mins]
    integers and [secs] a float. *)
Definition timedelta_hms (hrs mins : Z) (secs : float) : option Z :=
  match accum_float 0 secs us_per_second fl_zero with
  | None => None
  | Some (x, leftover) =>
      let x := accum_int x mins us_per_minute in
      let x := accum_int x hrs us_per_hour in
      match round_leftover x leftover with
      | None => None
      | Some us => microseconds_to_delta us
      end
  end.

(** [timedelta(seconds=incr)] for a float [incr]. *)
Definition timedelta_seconds (incr : float) : option Z :=
  match accum_float 0 incr us_per_second fl_zero with
  | None => None
  | Some (x, leftover) =>
      match round_leftover x leftover with
      | None => None
      | Some us => microseconds_to_delta us
      end
  end.

(** [a + b] on timedeltas. *)
Definition timedelta_add (a b : Z) : option Z := microseconds_to_delta (a + b).

(** [td.total_seconds()]: the correctly rounded quotient by [10**6]. *)
Definition total_seconds (us : Z) : float := nearest_signed false us us_per_second.

(* ================================================================= *)
(** ** process_time and process_line *)

Definition DELETED : string := ("(DELETED)" ++ LF ++ LF)%string.

Definition bind {A B : Type} (x : option A) (f : A -> option B) : option B :=
  match x with Some a => f a | None => None end.

Notation "x <- c ;; k" := (bind c (fun x => k))
  (at level 61, c at next level, right associativity).

(** The branch [time >= 0] of [process_time]: the three fields and the
    format string ['{0:02d}:{1:02d}:{2:06.3f}']. *)
Definition format_time (time : float) : option string :=
  hrs <- int_of_float (py_floordiv time 3600) ;;
  mins <- int_of_float (py_floordiv (py_mod time 3600) 60) ;;
  let secs := py_mod (py_mod time 3600) 60 in
  Some (fmt_02d hrs ++ ":" ++ fmt_02d mins ++ ":" ++ fmt_06_3f secs)%string.

Definition process_time (time_string : string) (incr : float) : option string :=
  hrs <- py_int2 (py_slice 0 2 time_string) ;;
  mins <- py_int2 (py_slice 3 5 time_string) ;;
  secs <- py_float (py_slice 6 12 time_string) ;;
  time <- timedelta_hms hrs mins secs ;;
  incr <- timedelta_seconds incr ;;
  time <- timedelta_add time incr ;;
  let time := total_seconds time in
  if fl_geb time (float_of_Z 0) then format_time time
  else Some DELETED.

Definition process_line (line : string) (seconds : float) : option string :=
  start <- process_time (py_slice 0 12 line) seconds ;;
  end_ <- process_time (py_slice 17 29 line) seconds ;;
  if String.eqb start DELETED then
    if String.eqb end_ DELETED then Some DELETED
    else Some ("00:00:00.000 --> " ++ end_ ++ LF)%string
  else Some (start ++ " --> " ++ end_ ++ LF)%string.

(* ================================================================= *)
(** ** The regular expressions of the program *)

(** The patterns of the program use literals, [\d], [[+-]] and [\d+].  Every
    [\d+] in them is followed by a character that is not a digit, so the
    longest run of digits is the only split a backtracking matcher can
    succeed with. *)
Inductive atom : Type :=
| Lit (c : ascii)
| Digit
| Sign
| Digits.

Definition is_sign (c : ascii) : bool := Ascii.eqb c "+" || Ascii.eqb c "-".

(** [re.match]: the length of the match at the start of [s]. *)
Fixpoint re_match (r : list atom) (s : string) : option nat :=
  match r with
  | [] => Some O
  | Lit c :: r' =>
      match s with
      | String c' s' => if Ascii.eqb c' c then option_map S (re_match r' s') else None
      | EmptyString => None
      end
  | Digit :: r' =>
      match s with
      | String c' s' => if is_digit c' then option_map S (re_match r' s') else None
      | EmptyString => None
      end
  | Sign :: r' =>
      match s with
      | String c' s' => if is_sign c' then option_map S (re_match r' s') else None
      | EmptyString => None
      end
  | Digits :: r' =>
      let (ds, rest) := split_digits s in
      match ds with
      | EmptyString => None
      | _ => option_map (Nat.add (String.length ds)) (re_match r' rest)
      end
  end.

(** [re.search]: position and length of the leftmost match. *)
Fixpoint re_search (r : list atom) (s : string) (pos : nat) : option (nat * nat) :=
  match re_match r s with
  | Some n => Some (pos, n)
  | None =>
      match s with
      | EmptyString => None
      | String _ s' => re_search r s' (S pos)
      end
  end.

(** [re.sub(r, repl, s, 1)] for a replacement without backslashes. *)
Definition re_sub1 (r : list atom) (repl s : string) : string :=
  match re_search r s O with
  | Some (i, n) => (substring 0 i s ++ repl ++ drop (i + n) s)%string
  | None => s
  end.

Definition lits (s : string) : list atom := map Lit (list_ascii_of_string s).

(** ['\d\d:\d\d:\d\d\.\d\d\d'] and ['\d\d:\d\d:\d\d,\d\d\d'] *)
Definition time_line (sep : ascii) : list atom :=
  [Digit; Digit; Lit ":"; Digit; Digit; Lit ":"; Digit; Digit; Lit sep;
   Digit; Digit; Digit].

(** ['\{[+-]\d+\.\d+_Sec\}_'] *)
Definition proc_regex : list atom :=
  [Lit "{"; Sign; Digits; Lit "."; Digits] ++ lits "_Sec}_".

(** ['[+-]\d+\.\d+'] *)
Definition number_regex : list atom := [Sign; Digits; Lit "."; Digits].

(* ================================================================= *)
(** ** str.format with one float argument *)

Inductive exn : Type := ValueError | KeyError | IndexError | AttributeError.

(** [Ok s]: the call returns [s]; [Raise e]: it raises [e]; [Unmodelled]:
    the template uses a replacement field this model does not evaluate. *)
Inductive outcome : Type :=
| Ok (s : string)
| Raise (e : exn)
| Unmodelled.

Definition is_field_special (c : ascii) : bool :=
  existsb (Ascii.eqb c) (list_ascii_of_string "!:.[]{}").

Fixpoint no_special (s : string) : bool :=
  match s with
  | EmptyString => true
  | String c s' => negb (is_field_special c) && no_special s'
  end.

(** What a replacement field [{f}] gives once the field [{0:.2f}] has been
    met (numbering is manual from then on): the argument formatted, or the
    exception of a name or index that [format(x)] cannot resolve. *)
Definition field_result (f : string) (arg : float) : outcome :=
  if String.eqb f "0:.2f" then Ok (fmt_2f arg)
  else match f with
  | EmptyString => Raise ValueError
  | _ =>
      if all_digits f then
        (if digits_val 0 f =? 0 then Unmodelled else Raise IndexError)
      else if no_special f then Raise KeyError
      else Unmodelled
  end.

Inductive fstate : Type :=
| Txt                                  (* literal text *)
| Open                                 (* a '{' was read *)
| Close                                (* a '}' was read in literal text *)
| Field (depth : nat) (acc : string).  (* inside a replacement field *)

Definition snoc (s : string) (c : ascii) : string := (s ++ String c EmptyString)%string.

(** One pass over the template; [out] is the text produced so far. *)
Fixpoint format_scan (t : string) (st : fstate) (out : string) (arg : float) : outcome :=
  match t with
  | EmptyString =>
      match st with
      | Txt => Ok out
      | _ => Raise ValueError
      end
  | String c t' =>
      match st with
      | Txt =>
          if Ascii.eqb c "{" then format_scan t' Open out arg
          else if Ascii.eqb c "}" then format_scan t' Close out arg
          else format_scan t' Txt (snoc out c) arg
      | Open =>
          if Ascii.eqb c "{" then format_scan t' Txt (snoc out c) arg
          else if Ascii.eqb c "}" then
            match field_result EmptyString arg with
            | Ok s => format_scan t' Txt (out ++ s)%string arg
            | r => r
            end
          else format_scan t' (Field O (String c EmptyString)) out arg
      | Close =>
          if Ascii.eqb c "}" then format_scan t' Txt (snoc out c) arg
          else Raise ValueError
      | Field depth acc =>
          if Ascii.eqb c "{" then format_scan t' (Field (S depth) (snoc acc c)) out arg
          else if Ascii.eqb c "}" then
            match depth with
            | S d => format_scan t' (Field d (snoc acc c)) out arg
            | O =>
                match field_result acc arg with
                | Ok s => format_scan t' Txt (out ++ s)%string arg
                | r => r
                end
            end
          else format_scan t' (Field depth (snoc acc c)) out arg
      end
  end.

(** [template.format(arg)] *)
Definition py_format (template : string) (arg : float) : outcome :=
  format_scan template Txt EmptyString arg.

(* ================================================================= *)
(** ** name_output *)

Definition input_prefix : string := "{{{0:.2f}_Sec}}_".

Definition name_output (inputfile : string) (seconds : float) : outcome :=
  let state :=
    match re_match proc_regex inputfile with
    | Some _ =>
        match re_search number_regex inputfile O with
        | None => inl AttributeError
        | Some (i, n) =>
            match py_float (substring i n inputfile) with
            | None => inl ValueError
            | Some incr =>
                inr (fl_add incr seconds, re_sub1 proc_regex input_prefix inputfile)
            end
        end
    | None => inr (seconds, (input_prefix ++ inputfile)%string)
    end in
  match state with
  | inl e => Raise e
  | inr (incr, placeholder) =>
      let placeholder :=
        if fl_geb incr (float_of_Z 0) then ("{{+" ++ drop 2 placeholder)%string
        else placeholder in
      py_format placeholder incr
  end.

(* ================================================================= *)
(** ** convert_vtt and convert_srt *)

(** The state of the loop over the lines of the input file: the two local
    variables and the chunks written to the output file so far. *)
Record conv : Type := mkConv {
  deleted_subs : Z;
  skip : bool;
  written : list string
}.

Definition conv_init : conv := mkConv 0 false [].

Definition write (st : conv) (s : string) : conv :=
  mkConv (deleted_subs st) (skip st) (written st ++ [s]).

Definition is_match (r : list atom) (s : string) : bool :=
  match re_match r s with Some _ => true | None => false end.

(** The lines that are not time lines: dropped while [skip] is set, copied
    otherwise. *)
Definition other_line (st : conv) (line : string) : conv :=
  if skip st then
    (if String.eqb line LF then mkConv (deleted_subs st) false (written st) else st)
  else write st line.

Definition vtt_step (seconds : float) (st : conv) (line : string) : option conv :=
  if is_match (time_line ".") line then
    new_line <- process_line line seconds ;;
    let st' :=
      if String.eqb new_line DELETED
      then mkConv (deleted_subs st + 1) true (written st)
      else st in
    Some (write st' new_line)
  else Some (other_line st line).

Definition srt_step (seconds : float) (st : conv) (line : string) : option conv :=
  if is_match (time_line ",") line then
    let line := str_replace "," "." line in
    new_line <- process_line line seconds ;;
    if String.eqb new_line DELETED
    then Some (write (mkConv (deleted_subs st + 1) true (written st)) new_line)
    else Some (write st (str_replace "." "," new_line))
  else Some (other_line st line).

Fixpoint run (step : conv -> string -> option conv) (st : conv) (lines : list string)
  : option conv :=
  match lines with
  | [] => Some st
  | line :: rest => st' <- step st line ;; run step st' rest
  end.

(** *** Text files as [open] gives them *)

Definition lf : ascii := ascii_of_nat 10.
Definition cr : ascii := ascii_of_nat 13.

(** Reading in text mode: [open(path, 'r')] hands every line ending of the
    file, [\r\n], a lone [\r] or [\n], to the program as [\n]. *)
Fixpoint universal_newlines (s : string) : string :=
  match s with
  | EmptyString => EmptyString
  | String c rest =>
      if Ascii.eqb c cr then
        String lf
          match rest with
          | String c' rest' =>
              if Ascii.eqb c' lf then universal_newlines rest'
              else universal_newlines rest
          | EmptyString => EmptyString
          end
      else String c (universal_newlines rest)
  end.

(** The lines that [for line in input] yields: each one up to and with its
    [\n]; the last one lacks it when the text does not end in one. *)
Fixpoint split_lines (s : string) : list string :=
  match s with
  | EmptyString => []
  | String c rest =>
      if Ascii.eqb c lf then String c EmptyString :: split_lines rest
      else match split_lines rest with
           | [] => [String c EmptyString]
           | line :: lines => String c line :: lines
           end
  end.

Definition read_lines (text : string) : list string :=
  split_lines (universal_newlines text).

(** Writing in text mode: every [\n] that is written becomes [os.linesep]. *)
Fixpoint newlines_out (linesep s : string) : string :=
  match s with
  | EmptyString => EmptyString
  | String c rest =>
      if Ascii.eqb c lf then (linesep ++ newlines_out linesep rest)%string
      else String c (newlines_out linesep rest)
  end.

Fixpoint join_chunks (chunks : list string) : string :=
  match chunks with
  | [] => EmptyString
  | chunk :: rest => (chunk ++ join_chunks rest)%string
  end.

(** What the program sees of the operating system.  Files are numbered: two
    paths lead to the same file exactly when they give the same number. *)
Record platform : Type := mkPlatform {
  isfile : string -> bool;        (* [os.path.isfile(path)] *)
  open_r : string -> option Z;    (* [open(path, 'r')]: the file; [None] where it raises *)
  open_w : string -> option Z;    (* [open(path, 'w')]: the file, created or emptied;
                                     [None] where it raises, as for a missing directory *)
  text_of : Z -> option string;   (* the characters of a file, decoded; [None] where
                                     reading raises *)
  linesep : string                (* [os.linesep] *)
}.

(** The [with] statement of the converters, up to the lines that the loop
    reads.  The output file is opened, and emptied, before the first line is
    read: when both paths lead to the same file nothing is left to read. *)
Definition opened_lines (sys : platform) (inputfile outputfile : string)
  : option (list string) :=
  i <- open_r sys inputfile ;;
  o <- open_w sys outputfile ;;
  text <- (if i =? o then Some EmptyString else text_of sys i) ;;
  Some (read_lines text).

(** The characters in the output file once the chunks have been written. *)
Definition written_text (sys : platform) (chunks : list string) : string :=
  newlines_out (linesep sys) (join_chunks chunks).

(** The converters: the number of deleted subtitles and the chunks passed to
    [output.write], in order; [None] where [open] or a line raises (what was
    written until then is not kept). *)
Definition convert_vtt (sys : platform) (inputfile outputfile : string) (seconds : float)
  : option (Z * list string) :=
  input <- opened_lines sys inputfile outputfile ;;
  st <- run (vtt_step seconds) conv_init input ;;
  Some (deleted_subs st, written st).

Definition convert_srt (sys : platform) (inputfile outputfile : string) (seconds : float)
  : option (Z * list string) :=
  input <- opened_lines sys inputfile outputfile ;;
  st <- run (srt_step seconds) conv_init input ;;
  Some (deleted_subs st, written st).

(** The decimal numeral [n / 10^d] as the float Python reads it. *)
Definition dec (n : Z) (d : nat) : float := nearest_signed false n (10 ^ Z.of_nat d).

(* ================================================================= *)
(** ** Vocabulary of the properties *)

(** The largest and the smallest [timedelta], in microseconds. *)
Definition max_us : Z := 86399999999999999999.
Definition min_us : Z := -86399999913600000000.

Definition in_delta_range (us : Z) : bool := (min_us <=? us) && (us <=? max_us).

(** The fixed-width time field [HH:MM:SS.mmm] ([sep] is the decimal mark). *)
Definition stamp (sep : ascii) (h m s f : Z) : string :=
  (fixed_digits 2 h ++ ":" ++ fixed_digits 2 m ++ ":" ++ fixed_digits 2 s
   ++ String sep (fixed_digits 3 f))%string.

(** The four numbers a fixed-width field can show. *)
Definition valid_fields (h m s f : Z) : Prop :=
  0 <= h < 100 /\ 0 <= m < 100 /\ 0 <= s < 100 /\ 0 <= f < 1000.

(** The time a field stands for, in microseconds. *)
Definition stamp_us (h m s f : Z) : Z :=
  h * us_per_hour + m * us_per_minute + (1000 * s + f) * 1000.

(** The field that shows [k] milliseconds. *)
Definition stamp_of_ms (sep : ascii) (k : Z) : string :=
  stamp sep (k / 3600000) (k mod 3600000 / 60000) (k mod 60000 / 1000) (k mod 1000).

(** A time line [START --> END] followed by [rest]. *)
Definition range_line (sep : ascii) (h1 m1 s1 f1 h2 m2 s2 f2 : Z) (rest : string) : string :=
  (stamp sep h1 m1 s1 f1 ++ " --> " ++ stamp sep h2 m2 s2 f2 ++ rest)%string.

(** The two formats, which [submod] tells apart by the extension of the file. *)
Inductive subtitle_format : Type := VTT | SRT.

Definition separator (fmt : subtitle_format) : ascii :=
  match fmt with VTT => "."%char | SRT => ","%char end.

Definition step (fmt : subtitle_format) : float -> conv -> string -> option conv :=
  match fmt with VTT => vtt_step | SRT => srt_step end.

Definition to_canonical (fmt : subtitle_format) (line : string) : string :=
  match fmt with VTT => line | SRT => str_replace "," "." line end.

Definition from_canonical (fmt : subtitle_format) (line : string) : string :=
  match fmt with VTT => line | SRT => str_replace "." "," line end.

Fixpoint has_char (c : ascii) (s : string) : bool :=
  match s with
  | EmptyString => false
  | String c' s' => Ascii.eqb c' c || has_char c s'
  end.

Definition no_brace (s : string) : bool := negb (has_char "{" s) && negb (has_char "}" s).

(** The tag that [name_output] writes for the cumulative offset [x]. *)
Definition offset_tag (x : float) : string :=
  ("{" ++ (if fl_geb x (float_of_Z 0) then "+" else "") ++ fmt_2f x ++ "_Sec}_")%string.

(** The text of a tag: a sign, the digits of the integral part and the
    digits of the fraction. *)
Definition tag_number (sg : ascii) (ip fp : string) : string :=
  String sg (ip ++ String "." fp).

Definition tag_text (sg : ascii) (ip fp : string) : string :=
  (String "{" (tag_number sg ip fp) ++ "_Sec}_")%string.

(** A check of [f] on every integer from 0 below [n]. *)
Fixpoint all_below (f : Z -> bool) (n : nat) : bool :=
  match n with
  | O => true
  | S n' => f (Z.of_nat n') && all_below f n'
  end.

(* ================================================================= *)
(** ** status and submod *)

(** [str(n)] for an integer. *)
Definition py_str (n : Z) : string :=
  if n <? 0 then ("-" ++ render_nat (- n))%string else render_nat n.

(** [status]: the text that the two calls of [print] send to the standard
    output. *)
Definition status (deleted_subs : Z) (outputfile : string) : string :=
  let text :=
    if 0 <? deleted_subs then
      if deleted_subs =? 1
      then ("Success." ++ LF ++ "One subtitle was deleted at the beginning of the file.")%string
      else ("Success." ++ LF ++ py_str deleted_subs
            ++ " subtitles were deleted at the beginning of the file.")%string
    else "Success."%string in
  (text ++ LF ++ "Filename = " ++ outputfile ++ LF)%string.

(** [s.endswith(suffix)] *)
Definition ends_with (s suffix : string) : bool :=
  (String.length suffix <=? String.length s)%nat
  && String.eqb (drop (String.length s - String.length suffix) s) suffix.

(** The format [submod] chooses from the name of the input file; [None]
    where it prints its message about the extension and exits. *)
Definition format_of_name (inputfile : string) : option subtitle_format :=
  if ends_with inputfile ".srt" then Some SRT
  else if ends_with inputfile ".vtt" then Some VTT
  else None.

(** The loop of the converter of a format on the lines that the file object
    yields: the number of deleted subtitles and the chunks written; [None]
    where a line raises. *)
Definition convert (fmt : subtitle_format) (input : list string) (seconds : float)
  : option (Z * list string) :=
  st <- run (step fmt seconds) conv_init input ;;
  Some (deleted_subs st, written st).

(** The converter that [submod] calls for a format. *)
Definition convert_file (fmt : subtitle_format) (sys : platform)
           (inputfile outputfile : string) (seconds : float) : option (Z * list string) :=
  match fmt with
  | VTT => convert_vtt sys inputfile outputfile seconds
  | SRT => convert_srt sys inputfile outputfile seconds
  end.

(** What a call of [submod] does.  [Exited msg]: it prints [msg] and leaves
    through [sys.exit()] before any file is opened.  [Completed]: the name of
    the output file, the chunks written to it and the text printed.
    [NoResult]: [name_output] or the converter raises (or meets text outside
    this model); nothing is printed. *)
Inductive submod_result : Type :=
| Exited (message : string)
| NoResult
| Completed (outputfile : string) (written : list string) (printed : string).

Definition submod (sys : platform) (inputfile : string) (seconds : float)
  : submod_result :=
  if negb (isfile sys inputfile) then Exited "Please specify an existing file as input."
  else
    match format_of_name inputfile with
    | None => Exited "Please specify either an .srt or .vtt file as input."
    | Some fmt =>
        match name_output inputfile seconds with
        | Ok outputfile =>
            match convert_file fmt sys inputfile outputfile seconds with
            | Some (deleted, out) => Completed outputfile out (status deleted outputfile)
            | None => NoResult
            end
        | _ => NoResult
        end
    end.

(** A line of a well-formed file: a time line of the format, or a line that
    the pattern of the format does not match. *)
Inductive file_line (fmt : subtitle_format) : string -> Prop :=
| time_range (h1 m1 s1 f1 h2 m2 s2 f2 : Z) (rest : string) :
    valid_fields h1 m1 s1 f1 -> valid_fields h2 m2 s2 f2 ->
    file_line fmt (range_line (separator fmt) h1 m1 s1 f1 h2 m2 s2 f2 rest)
| other_text (line : string) :
    is_match (time_line (separator fmt)) line = false -> file_line fmt line.

(** A line as the program itself writes it: minutes and seconds below 60 and
    the newline right behind the end time. *)
Inductive canonical_line (fmt : subtitle_format) : string -> Prop :=
| canonical_range (h1 m1 s1 f1 h2 m2 s2 f2 : Z) :
    0 <= h1 < 100 -> 0 <= m1 < 60 -> 0 <= s1 < 60 -> 0 <= f1 < 1000 ->
    0 <= h2 < 100 -> 0 <= m2 < 60 -> 0 <= s2 < 60 -> 0 <= f2 < 1000 ->
    canonical_line fmt (range_line (separator fmt) h1 m1 s1 f1 h2 m2 s2 f2 LF)
| canonical_text (line : string) :
    is_match (time_line (separator fmt)) line = false -> canonical_line fmt line.

(** The number of chunks of [out] that are the marker text. *)
Fixpoint count_markers (out : list string) : Z :=
  match out with
  | [] => 0
  | chunk :: rest => (if String.eqb chunk DELETED then 1 else 0) + count_markers rest
  end.

(** A string in which [\n] stands at the end only, as in every line read
    from a file. *)
Fixpoint one_line (s : string) : bool :=
  match s with
  | EmptyString => true
  | String c rest => if Ascii.eqb c lf then is_empty rest else one_line rest
  end.


(* ================================================================= *)
(** * Properties *)

(** ** Rounding to the nearest integer *)

Lemma shiftl_pow (a n : Z) : 0 <= n -> Z.shiftl a n = a * 2 ^ n.
Proof. intros; now apply Z.shiftl_mul_pow2. Qed.

Lemma fnum_neg (m E : Z) : 0 <= E -> fnum m (- E) = m.
Proof.
  intros H. unfold fnum. replace (Z.max 0 (- E)) with 0 by lia. apply Z.shiftl_0_r.
Qed.

Lemma fden_neg (E : Z) : 0 <= E -> fden (- E) = 2 ^ E.
Proof.
  intros H. unfold fden. replace (Z.max 0 (- - E)) with E by lia.
  rewrite shiftl_pow by lia. lia.
Qed.

Lemma pow2_pos (n : Z) : 0 <= n -> 0 < 2 ^ n.
Proof. intros; apply Z.pow_pos_nonneg; lia. Qed.

Section Rhe.
Variables p q : Z.
Hypothesis Hq : 0 < q.

Lemma rhe_cases :
  exists n r, p = q * n + r /\ 0 <= r < q /\
    (round_half_even p q = n /\ 2 * r <= q \/ round_half_even p q = n + 1 /\ q <= 2 * r).
Proof.
  exists (p / q), (p mod q).
  pose proof (Z.div_mod p q ltac:(lia)) as Hdm.
  pose proof (Z.mod_pos_bound p q Hq) as Hb.
  split; [exact Hdm|]. split; [exact Hb|].
  unfold round_half_even.
  destruct (Z.compare_spec (2 * (p mod q)) q) as [E|E|E].
  - destruct (Z.even (p / q)); [left|right]; split; auto; lia.
  - left; split; auto; lia.
  - right; split; auto; lia.
Qed.

Lemma rhe_bounds : - q <= 2 * (round_half_even p q * q - p) <= q.
Proof.
  destruct rhe_cases as (n & r & Hp & Hr & [[-> H]|[-> H]]); subst p; nia.
Qed.

Lemma rhe_ge (n : Z) : n * q <= p -> n <= round_half_even p q.
Proof.
  intros H. destruct rhe_cases as (k & r & Hp & Hr & [[-> H']|[-> H']]); subst p; nia.
Qed.

Lemma rhe_le (n : Z) : p <= n * q -> round_half_even p q <= n.
Proof.
  intros H. destruct rhe_cases as (k & r & Hp & Hr & [[-> H']|[-> H']]); subst p.
  - nia.
  - assert (k < n) by nia. lia.
Qed.

Lemma rhe_near (n : Z) : 2 * Z.abs (p - n * q) < q -> round_half_even p q = n.
Proof.
  intros H. destruct rhe_cases as (k & r & Hp & Hr & [[-> H']|[-> H']]); subst p; nia.
Qed.
End Rhe.

Lemma rhe_exact (n q : Z) : 0 < q -> round_half_even (n * q) q = n.
Proof. intros. apply rhe_near; auto. replace (n * q - n * q) with 0 by ring. simpl. lia. Qed.

(** ** The binade and the rounding to binary64 *)

Lemma pow2_add (a b : Z) : 0 <= a -> 0 <= b -> 2 ^ (a + b) = 2 ^ a * 2 ^ b.
Proof. intros; apply Z.pow_add_r; lia. Qed.

Lemma pow2_le (a b : Z) : 0 <= a <= b -> 2 ^ a <= 2 ^ b.
Proof. intros; apply Z.pow_le_mono_r; lia. Qed.

Lemma pow2_split (a b : Z) : 0 <= a <= b -> 2 ^ b = 2 ^ a * 2 ^ (b - a).
Proof. intros. rewrite <- pow2_add by lia. f_equal. lia. Qed.

(** [2^(binade a b) <= a / b], with the power of two moved to the side where
    its exponent is not negative. *)
Lemma binade_low (a b : Z) :
  0 < a -> 0 < b ->
  b * 2 ^ Z.max 0 (binade a b) <= a * 2 ^ Z.max 0 (- binade a b).
Proof.
  intros Ha Hb. unfold binade.
  set (t := Z.log2 a - Z.log2 b).
  destruct (Z.leb_spec (Z.shiftl b (Z.max 0 t)) (Z.shiftl a (Z.max 0 (- t)))) as [H|H].
  - rewrite !shiftl_pow in H by lia. exact H.
  - clear H.
    destruct (Z.log2_spec a Ha) as [La Ua].
    destruct (Z.log2_spec b Hb) as [Lb Ub].
    pose proof (Z.log2_nonneg a) as Na. pose proof (Z.log2_nonneg b) as Nb.
    replace (Z.succ (Z.log2 b)) with (Z.log2 b + 1) in Ub by lia.
    destruct (Z_le_gt_dec 1 t) as [Ht|Ht].
    + replace (Z.max 0 (t - 1)) with (t - 1) by lia.
      replace (Z.max 0 (- (t - 1))) with 0 by lia.
      assert (E : 2 ^ Z.log2 a = 2 ^ (Z.log2 b + 1) * 2 ^ (t - 1)).
      { rewrite <- pow2_add by lia. f_equal. unfold t. lia. }
      pose proof (pow2_pos (t - 1) ltac:(lia)). nia.
    + replace (Z.max 0 (t - 1)) with 0 by lia.
      replace (Z.max 0 (- (t - 1))) with (1 - t) by lia.
      assert (E : 2 ^ (Z.log2 b + 1) = 2 ^ Z.log2 a * 2 ^ (1 - t)).
      { rewrite <- pow2_add by lia. f_equal. unfold t. lia. }
      pose proof (pow2_pos (1 - t) ltac:(lia)). nia.
Qed.

Lemma nearest_fin (neg : bool) (a b E0 : Z) :
  0 <= a -> 0 < b -> 0 <= E0 <= 1074 -> a * 2 ^ E0 < b * 2 ^ 53 ->
  exists E, E0 <= E <= 1074 /\
    nearest neg a b = Ffin neg (round_half_even (a * 2 ^ E) b) (- E) /\
    (0 < a -> b <= a * 2 ^ 1074 -> b <= a * 2 ^ E).
Proof.
  intros Ha Hb HE0 Hlt. unfold nearest.
  destruct (Z.eqb_spec a 0) as [->|Hne].
  { exists 1074. split; [lia|]. split; [|lia].
    unfold emin. f_equal. rewrite Z.mul_0_l.
    symmetry. apply (rhe_exact 0 b Hb). }
  assert (Hapos : 0 < a) by lia.
  pose proof (binade_low a b Hapos Hb) as LP.
  set (L := binade a b) in *.
  assert (HL : L <= 52 - E0).
  { destruct (Z_le_gt_dec L (52 - E0)) as [|Hgt]; [assumption|exfalso].
    destruct (Z_le_gt_dec 0 L) as [HL0|HL0].
    - replace (Z.max 0 L) with L in LP by lia.
      replace (Z.max 0 (- L)) with 0 in LP by lia.
      rewrite Z.pow_0_r, Z.mul_1_r in LP.
      assert (2 ^ 53 <= 2 ^ (L + E0)) by (apply pow2_le; lia).
      rewrite pow2_add in H by lia.
      pose proof (pow2_pos L HL0). pose proof (pow2_pos E0 ltac:(lia)). nia.
    - replace (Z.max 0 L) with 0 in LP by lia.
      replace (Z.max 0 (- L)) with (- L) in LP by lia.
      rewrite Z.pow_0_r, Z.mul_1_r in LP.
      assert (Hs : 2 ^ E0 = 2 ^ 53 * 2 ^ (E0 - 53)) by (apply pow2_split; lia).
      assert (2 ^ (- L) <= 2 ^ (E0 - 53)) by (apply pow2_le; lia).
      pose proof (pow2_pos (- L) ltac:(lia)). pose proof (pow2_pos 53 ltac:(lia)). nia. }
  set (e := Z.max emin (L - 52)).
  assert (He : emin <= e <= - E0) by (unfold e, emin in *; lia).
  replace (Z.max 0 (- e)) with (- e) by lia.
  replace (Z.max 0 e) with 0 by lia.
  rewrite Z.shiftl_0_r, shiftl_pow by lia.
  set (m := round_half_even (a * 2 ^ (- e)) b).
  assert (Hm0 : 0 <= m).
  { apply rhe_ge; auto. pose proof (pow2_pos (- e) ltac:(lia)). nia. }
  assert (Hm : m <= 2 ^ (53 - e - E0)).
  { apply rhe_le; auto.
    assert (Hs : 2 ^ (- e) = 2 ^ E0 * 2 ^ (- e - E0)) by (apply pow2_split; lia).
    replace (53 - e - E0) with (53 + (- e - E0)) by lia.
    rewrite pow2_add by lia.
    pose proof (pow2_pos (- e - E0) ltac:(lia)). nia. }
  assert (Hlog : Z.log2 m + e < 1024).
  { assert (Z.log2 m <= 53 - e - E0).
    { etransitivity; [apply Z.log2_le_mono; exact Hm|].
      rewrite Z.log2_pow2 by lia. lia. }
    lia. }
  destruct (Z.leb_spec 1024 (Z.log2 m + e)) as [Hbad|_]; [lia|].
  exists (- e). split; [unfold emin in *; lia|]. split.
  - rewrite Z.opp_involutive. reflexivity.
  - intros _ Hsub. unfold e, emin in *.
    destruct (Z_le_gt_dec (L - 52) (-1074)) as [Hc|Hc].
    + replace (- Z.max (-1074) (L - 52)) with 1074 by lia. exact Hsub.
    + replace (- Z.max (-1074) (L - 52)) with (52 - L) by lia.
      destruct (Z_le_gt_dec 0 L) as [HL0|HL0].
      * replace (Z.max 0 L) with L in LP by lia.
        replace (Z.max 0 (- L)) with 0 in LP by lia.
        rewrite Z.pow_0_r, Z.mul_1_r in LP.
        pose proof (pow2_pos L HL0). pose proof (pow2_pos (52 - L) ltac:(lia)). nia.
      * replace (Z.max 0 L) with 0 in LP by lia.
        replace (Z.max 0 (- L)) with (- L) in LP by lia.
        rewrite Z.pow_0_r, Z.mul_1_r in LP.
        assert (2 ^ (- L) <= 2 ^ (52 - L)) by (apply pow2_le; lia). nia.
Qed.

(** An integer below [2^53] is a binary64 number: rounding returns it. *)
Lemma nearest_int (neg : bool) (n b : Z) :
  0 <= n < 2 ^ 53 -> 0 < b ->
  exists E, 0 <= E <= 1074 /\ nearest neg (n * b) b = Ffin neg (n * 2 ^ E) (- E).
Proof.
  intros Hn Hb.
  destruct (nearest_fin neg (n * b) b 0) as (E & HE & Heq & _); try lia; try nia.
  exists E. split; [lia|]. rewrite Heq. f_equal.
  replace (n * b * 2 ^ E) with (n * 2 ^ E * b) by ring. now apply rhe_exact.
Qed.

Lemma nearest_shape (neg : bool) (a b : Z) :
  (exists m e, nearest neg a b = Ffin neg m e) \/ nearest neg a b = Finf neg.
Proof.
  unfold nearest. destruct (a =? 0); [left; eauto|].
  match goal with |- context [if ?c then _ else _] => destruct c end; [right|left]; eauto.
Qed.

Lemma fl_opp_nearest (neg : bool) (a b : Z) :
  fl_opp (nearest neg a b) = nearest (negb neg) a b.
Proof.
  unfold nearest. destruct (a =? 0); [reflexivity|].
  match goal with |- context [if ?c then _ else _] => destruct c end; reflexivity.
Qed.

(** ** The float operations on the shapes the program meets *)

Lemma fnum_0 (m : Z) : fnum m 0 = m.
Proof. unfold fnum. simpl. apply Z.shiftl_0_r. Qed.

Lemma fden_0 : fden 0 = 1.
Proof. reflexivity. Qed.

Lemma fl_zero_eq : fl_zero = Ffin false 0 0.
Proof. reflexivity. Qed.

Lemma float_of_Z_pos (w : Z) : 0 <= w -> float_of_Z w = Ffin false w 0.
Proof.
  intros H. unfold float_of_Z. rewrite Z.abs_eq by lia.
  destruct (Z.ltb_spec w 0); [lia|reflexivity].
Qed.

Lemma fnum_nonneg (m e : Z) : 0 <= m -> 0 <= fnum m e.
Proof.
  intros H. unfold fnum. rewrite shiftl_pow by lia.
  pose proof (pow2_pos (Z.max 0 e) ltac:(lia)). nia.
Qed.

Lemma fnum_zero_iff (m e : Z) : fnum m e = 0 <-> m = 0.
Proof.
  unfold fnum. rewrite shiftl_pow by lia.
  pose proof (pow2_pos (Z.max 0 e) ltac:(lia)). nia.
Qed.

Lemma fden_pos (e : Z) : 0 < fden e.
Proof. unfold fden. rewrite shiftl_pow by lia. pose proof (pow2_pos (Z.max 0 (- e)) ltac:(lia)). lia. Qed.

Lemma sgn_zero_iff (s : bool) (z : Z) : sgn s z = 0 <-> z = 0.
Proof. destruct s; simpl; lia. Qed.

(** [x == 0.0] *)
Lemma fl_eqb_zero (s : bool) (m e : Z) : fl_eqb (Ffin s m e) fl_zero = (m =? 0).
Proof.
  unfold fl_eqb, fl_compare, fl_zero, float_of_Z. simpl Z.abs. simpl (0 <? 0).
  rewrite fden_0, fnum_0. simpl (sgn false 0). rewrite Z.mul_1_r, Z.mul_0_l.
  destruct (Z.compare_spec (sgn s (fnum m e)) 0) as [H|H|H];
    destruct (Z.eqb_spec m 0) as [Hm|Hm]; try reflexivity; exfalso.
  - apply Hm. apply (fnum_zero_iff m e). now apply (sgn_zero_iff s).
  - subst m. assert (fnum 0 e = 0) by now apply fnum_zero_iff.
    rewrite H0 in H. destruct s; simpl in H; lia.
  - subst m. assert (fnum 0 e = 0) by now apply fnum_zero_iff.
    rewrite H0 in H. destruct s; simpl in H; lia.
Qed.

(** [x < 0.0] is false for a float without the sign bit. *)
Lemma fl_ltb_zero_pos (m e : Z) : 0 <= m -> fl_ltb (Ffin false m e) fl_zero = false.
Proof.
  intros Hm. unfold fl_ltb, fl_compare, fl_zero, float_of_Z. simpl Z.abs. simpl (0 <? 0).
  rewrite fden_0, fnum_0. simpl sgn. rewrite Z.mul_1_r, Z.mul_0_l.
  pose proof (fnum_nonneg m e Hm).
  destruct (Z.compare_spec (fnum m e) 0); try reflexivity; lia.
Qed.

Lemma fmod_pos (s : bool) (M E w : Z) :
  0 <= E -> 0 < w ->
  fmod (Ffin s M (- E)) (Ffin false w 0) = Ffin s (M mod (w * 2 ^ E)) (- E).
Proof.
  intros HE Hw. unfold fmod.
  destruct (Z.eqb_spec w 0); [lia|].
  rewrite fnum_neg, fden_0, fnum_0, fden_neg by lia.
  rewrite Z.mul_1_r. f_equal. lia.
Qed.

(** The difference of two floats with the same exponent, when it is an
    integer below [2^53]. *)
Lemma fl_sub_int (M M' E n : Z) :
  0 <= E -> 0 <= n < 2 ^ 53 -> M - M' = n * 2 ^ E ->
  exists E1, 0 <= E1 <= 1074 /\
    fl_sub (Ffin false M (- E)) (Ffin false M' (- E)) = Ffin false (n * 2 ^ E1) (- E1).
Proof.
  intros HE Hn Hd. unfold fl_sub, fl_opp, fl_add. simpl negb. simpl andb.
  rewrite !fnum_neg, !fden_neg by lia. simpl sgn.
  pose proof (pow2_pos E HE) as HP.
  replace (M * 2 ^ E + - M' * 2 ^ E) with (n * (2 ^ E * 2 ^ E)) by nia.
  unfold nearest_signed.
  destruct (Z.eqb_spec (n * (2 ^ E * 2 ^ E)) 0) as [Hz|Hz].
  - exists 1074. split; [lia|]. assert (n = 0) by nia. subst n. reflexivity.
  - assert (0 < n) by nia.
    destruct (Z.ltb_spec (n * (2 ^ E * 2 ^ E)) 0); [nia|].
    rewrite Z.abs_eq by nia.
    apply nearest_int; nia.
Qed.

(** The quotient of an integer multiple by its divisor. *)
Lemma fl_div_int (q w E1 : Z) :
  0 <= E1 -> 0 <= q < 2 ^ 53 -> 0 < w ->
  exists E2, 0 <= E2 <= 1074 /\
    fl_div (Ffin false (w * q * 2 ^ E1) (- E1)) (Ffin false w 0) = Ffin false (q * 2 ^ E2) (- E2).
Proof.
  intros HE Hq Hw. unfold fl_div.
  destruct (Z.eqb_spec w 0); [lia|].
  rewrite fnum_neg, fden_0, fnum_0, fden_neg by lia. simpl xorb.
  replace (w * q * 2 ^ E1 * 1) with (q * (2 ^ E1 * w)) by ring.
  apply nearest_int; auto. pose proof (pow2_pos E1 HE). nia.
Qed.

Lemma c_floor_int (q E : Z) :
  0 <= E -> c_floor (Ffin false (q * 2 ^ E) (- E)) = Ffin false q 0.
Proof.
  intros HE. unfold c_floor. simpl andb. cbv iota.
  rewrite fnum_neg, fden_neg by lia.
  rewrite Z.div_mul by (pose proof (pow2_pos E HE); lia). reflexivity.
Qed.

Lemma fl_sub_floor (q E : Z) :
  0 <= E ->
  fl_sub (Ffin false (q * 2 ^ E) (- E)) (Ffin false q 0) = Ffin false 0 emin.
Proof.
  intros HE. unfold fl_sub, fl_opp, fl_add. simpl negb. simpl andb.
  rewrite fnum_neg, fden_neg, fnum_0, fden_0 by lia. simpl sgn.
  replace (q * 2 ^ E * 1 + - q * 2 ^ E) with 0 by ring.
  reflexivity.
Qed.

Lemma copysign_zero_nearest (a b : Z) :
  copysign fl_zero (nearest false a b) = Ffin false 0 0.
Proof.
  destruct (nearest_shape false a b) as [(m & e & ->)| ->]; reflexivity.
Qed.

Lemma float_div_mod_nonneg (M E w : Z) :
  0 <= M -> 0 <= E -> 0 < w -> M < 2 ^ 53 * 2 ^ E ->
  float_div_mod (Ffin false M (- E)) (float_of_Z w) =
    (Ffin false (M / (w * 2 ^ E)) 0,
     if M mod (w * 2 ^ E) =? 0 then Ffin false 0 0
     else Ffin false (M mod (w * 2 ^ E)) (- E)).
Proof.
  intros HM HE Hw Hlt.
  pose proof (pow2_pos E HE) as HP.
  assert (HwP : 0 < w * 2 ^ E) by nia.
  pose proof (Z.div_mod M (w * 2 ^ E) ltac:(lia)) as Hdm.
  pose proof (Z.mod_pos_bound M (w * 2 ^ E) HwP) as Hmod.
  set (q := M / (w * 2 ^ E)) in *. set (M1 := M mod (w * 2 ^ E)) in *.
  assert (Hq0 : 0 <= q) by (apply Z.div_pos; lia).
  assert (Hwq : 0 <= w * q < 2 ^ 53) by nia.
  assert (Hq : 0 <= q < 2 ^ 53) by nia.
  unfold float_div_mod. rewrite (float_of_Z_pos w) by lia.
  rewrite (fmod_pos false M E w HE Hw). fold M1.
  destruct (fl_sub_int M M1 E (w * q) HE Hwq ltac:(nia)) as (E1 & HE1 & ->).
  destruct (fl_div_int q w E1 ltac:(lia) Hq Hw) as (E2 & HE2 & ->).
  rewrite (fl_eqb_zero false M1 (- E)).
  rewrite (fl_ltb_zero_pos w 0) by lia.
  rewrite (fl_ltb_zero_pos M1 (- E)) by lia.
  simpl (Bool.eqb false false). simpl (negb true).
  assert (Hcp : copysign fl_zero (Ffin false w 0) = Ffin false 0 0) by reflexivity.
  rewrite Hcp. clear Hcp.
  destruct (M1 =? 0); simpl negb;
  cbv beta iota zeta;
  rewrite (fl_eqb_zero false (q * 2 ^ E2) (- E2));
  (f_equal;
  pose proof (pow2_pos E2 ltac:(lia)) as HP2;
  destruct (Z.eqb_spec (q * 2 ^ E2) 0) as [Hz|Hz]; simpl negb; cbv iota;
  [ assert (Hq00 : q = 0) by nia; rewrite Hq00;
    unfold fl_div; destruct (Z.eqb_spec w 0); [lia|];
    simpl xorb; apply copysign_zero_nearest
  | rewrite (c_floor_int q E2) by lia; rewrite (fl_sub_floor q E2) by lia;
    reflexivity ]).
Qed.

(** ** A float that is a whole number of milliseconds, as a timedelta *)

Lemma modf_neg_exp (s : bool) (M E : Z) :
  0 <= E -> modf (Ffin s M (- E)) = (Ffin s (M mod 2 ^ E) (- E), Ffin s (M / 2 ^ E) 0).
Proof.
  intros HE. unfold modf. rewrite fnum_neg, fden_neg by lia.
  replace (Z.min (- E) 0) with (- E) by lia. reflexivity.
Qed.

Lemma int_of_float_int (s : bool) (q : Z) : int_of_float (Ffin s q 0) = Some (sgn s q).
Proof. unfold int_of_float. rewrite fnum_0, fden_0, Z.div_1_r. reflexivity. Qed.

Lemma nearest_signed_sgn (z s : bool) (l b : Z) :
  0 < l -> nearest_signed z (sgn s l) b = nearest s l b.
Proof.
  intros Hl. unfold nearest_signed.
  destruct (Z.eqb_spec (sgn s l) 0) as [H|H].
  - apply sgn_zero_iff in H. lia.
  - destruct s; simpl.
    + destruct (Z.ltb_spec (- l) 0); [|lia]. now rewrite Z.abs_opp, Z.abs_eq by lia.
    + destruct (Z.ltb_spec l 0); [lia|]. now rewrite Z.abs_eq by lia.
Qed.

Lemma fl_add_zero_l (s : bool) (l E : Z) :
  0 <= E -> fl_add fl_zero (Ffin s l (- E)) = nearest_signed false (sgn s l) (2 ^ E).
Proof.
  intros HE. rewrite fl_zero_eq. unfold fl_add. simpl andb.
  rewrite fnum_0, fden_0, fnum_neg, fden_neg by lia. simpl (sgn false 0).
  f_equal; ring.
Qed.

(** A value of at most [2^-10] is not one half after rounding. *)
Lemma small_not_half (s : bool) (a b : Z) :
  0 <= a -> 0 < b -> a * 2 ^ 10 <= b ->
  fl_eqb (fl_abs (nearest s a b)) fl_half = false.
Proof.
  intros Ha Hb Hs.
  destruct (nearest_fin s a b 61) as (E & HE & -> & _); try lia.
  set (m := round_half_even (a * 2 ^ E) b).
  assert (Hm : m <= 2 ^ (E - 10)).
  { apply rhe_le; auto. rewrite (pow2_split 10 E) by lia.
    pose proof (pow2_pos (E - 10) ltac:(lia)). nia. }
  unfold fl_abs, fl_eqb, fl_compare, fl_half.
  rewrite fnum_neg, fden_neg by lia.
  change (fden (-1)) with 2. change (fnum 1 (-1)) with 1. simpl sgn.
  assert (2 ^ E = 2 ^ 10 * 2 ^ (E - 10)) by (apply pow2_split; lia).
  pose proof (pow2_pos (E - 10) ltac:(lia)).
  destruct (Z.compare_spec (m * 2) (1 * 2 ^ E)); try reflexivity; exfalso; lia.
Qed.

(** The test for a tie in [round_leftover] fails when the leftover is within
    [2^-10] of the integer [w] it is rounded to. *)
Lemma not_tie (neg : bool) (w M3 E3 : Z) :
  0 <= E3 -> Z.abs (w * 2 ^ E3 - M3) * 2 ^ 10 <= 2 ^ E3 ->
  fl_eqb (fl_abs (fl_sub (Ffin neg w 0) (Ffin neg M3 (- E3)))) fl_half = false.
Proof.
  intros HE Hd. unfold fl_sub, fl_opp, fl_add.
  rewrite fnum_0, fden_0, fnum_neg, fden_neg by lia.
  pose proof (pow2_pos E3 HE) as HP.
  replace (sgn neg w * 2 ^ E3 + sgn (negb neg) M3 * 1) with (sgn neg (w * 2 ^ E3 - M3))
    by (destruct neg; simpl; ring).
  rewrite Z.mul_1_l.
  set (D := w * 2 ^ E3 - M3) in *.
  destruct (Z.eq_dec D 0) as [->|HD].
  - destruct neg; reflexivity.
  - unfold nearest_signed.
    destruct (Z.eqb_spec (sgn neg D) 0) as [H0|H0]; [apply sgn_zero_iff in H0; lia|].
    apply small_not_half; try lia.
    replace (Z.abs (sgn neg D)) with (Z.abs D) by (destruct neg; simpl; lia). exact Hd.
Qed.

(** The two integer facts behind the conversion. *)
Lemma split_ms (n M P : Z) :
  0 <= n -> 1000 < P -> Z.abs (1000 * M - n * P) <= 500 ->
  M / P = n / 1000 /\ Z.abs (1000 * (M mod P) - (n mod 1000) * P) <= 500.
Proof.
  intros Hn HP Hb.
  pose proof (Z.div_mod n 1000 ltac:(lia)) as Hdm.
  pose proof (Z.mod_pos_bound n 1000 ltac:(lia)) as Hf.
  set (s := n / 1000) in *. set (f := n mod 1000) in *.
  assert (Hs : 0 <= s) by (apply Z.div_pos; lia).
  assert (Hlo : P * s <= M) by nia.
  assert (Hhi : M < P * s + P) by nia.
  assert (Hq : M / P = s).
  { symmetry. apply (Z.div_unique M P s (M - P * s)); [left; lia|ring]. }
  assert (Hr : M mod P = M - P * s).
  { symmetry. apply (Z.mod_unique M P s (M - P * s)); [left; lia|ring]. }
  split; [exact Hq|]. rewrite Hr. nia.
Qed.

Lemma split_us (f fm P M2 P2 : Z) :
  0 <= f < 1000 -> 2 ^ 30 <= P -> 2 ^ 33 <= P2 -> 0 <= fm ->
  Z.abs (1000 * fm - f * P) <= 500 ->
  2 * Z.abs (M2 * P - 1000000 * fm * P2) <= P ->
  let q2 := M2 / P2 in let l := M2 mod P2 in
  (q2 = 1000 * f /\ l * 2 ^ 10 <= P2) \/
  (q2 = 1000 * f - 1 /\ (P2 - l) * 2 ^ 10 <= P2).
Proof.
  intros Hf HP HP2 Hfm H1 H2.
  change (2 ^ 30) with 1073741824 in HP. change (2 ^ 33) with 8589934592 in HP2.
  change (2 ^ 10) with 1024.
  pose proof (Z.div_mod M2 P2 ltac:(lia)) as Hdm.
  pose proof (Z.mod_pos_bound M2 P2 ltac:(lia)) as Hl.
  set (q2 := M2 / P2) in *. set (l := M2 mod P2) in *. cbv zeta.
  set (j := 1000 * f) in *.
  set (d1 := 1000 * fm - f * P) in *.
  assert (Hd1 : -500 <= d1 <= 500) by lia.
  set (d2 := M2 * P - 1000000 * fm * P2) in *.
  assert (Hd2 : - P <= 2 * d2 <= P) by lia.
  assert (Heq : (q2 - j) * (P * P2) + l * P = 1000 * d1 * P2 + d2).
  { unfold d2, d1, j. rewrite Hdm. ring. }
  assert (HPP : 1073741824 * P2 <= P * P2) by nia.
  assert (HPP' : 8589934592 * P <= P * P2) by nia.
  assert (HlP : 0 <= l * P) by nia.
  assert (HlP' : l * P < P * P2) by nia.
  assert (Hd1P : -500 * P2 <= d1 * P2 <= 500 * P2) by nia.
  assert (Hq : q2 = j \/ q2 = j - 1).
  { assert (q2 - j < 1) by nia. assert (-2 < q2 - j) by nia. lia. }
  destruct Hq as [Hq|Hq]; [left|right]; (split; [exact Hq|]).
  - replace (q2 - j) with 0 in Heq by lia.
    assert (l * P * 1024 <= P * P2) by nia. nia.
  - replace (q2 - j) with (-1) in Heq by lia.
    assert ((P2 - l) * P * 1024 <= P * P2) by nia. nia.
Qed.

Lemma sgn_add (s : bool) (a b : Z) : sgn s a + sgn s b = sgn s (a + b).
Proof. destruct s; unfold sgn; lia. Qed.

Lemma sgn_mul (s : bool) (a b : Z) : sgn s a * b = sgn s (a * b).
Proof. destruct s; unfold sgn; lia. Qed.

Lemma c_round_neg_exp (s : bool) (M E : Z) :
  0 <= E -> c_round (Ffin s M (- E)) = Ffin s ((2 * M + 2 ^ E) / (2 * 2 ^ E)) 0.
Proof. intros HE. unfold c_round. now rewrite fnum_neg, fden_neg by lia. Qed.

(** The leftover fraction of a microsecond, rounded: the case where it is
    within [2^-10] of the integer [w], which is 0 or 1. *)
Lemma round_leftover_near (neg : bool) (x w l P2 : Z) (E2 : Z) :
  0 <= E2 <= 1074 -> P2 = 2 ^ E2 -> 0 < l < P2 -> (w = 0 \/ w = 1) ->
  Z.abs (w * P2 - l) * 2 ^ 10 <= P2 ->
  round_leftover x (nearest neg l P2) = Some (x + sgn neg w).
Proof.
  intros HE2 HP2 Hl Hw Hnear.
  pose proof (pow2_pos E2 ltac:(lia)) as HP2pos. rewrite <- HP2 in HP2pos.
  destruct (nearest_fin neg l P2 53) as (E3 & HE3 & Heq & Hpos); try lia.
  rewrite Heq.
  set (M3 := round_half_even (l * 2 ^ E3) P2) in *.
  pose proof (pow2_pos E3 ltac:(lia)) as HP3.
  assert (HM3 : 1 <= M3).
  { apply rhe_ge; [lia|]. rewrite Z.mul_1_l. apply Hpos; [lia|].
    assert (2 ^ E2 <= 2 ^ 1074) by (apply pow2_le; lia). subst P2. nia. }
  assert (Hs : 2 ^ E3 = 2 ^ 10 * 2 ^ (E3 - 10)) by (apply pow2_split; lia).
  pose proof (pow2_pos (E3 - 10) ltac:(lia)) as HP3'.
  change (2 ^ 10) with 1024 in *.
  assert (Hclose : Z.abs (w * 2 ^ E3 - M3) * 1024 <= 2 ^ E3).
  { destruct Hw as [-> | ->].
    - assert (M3 <= 2 ^ (E3 - 10)) by (apply rhe_le; [lia|]; nia).
      rewrite Z.mul_0_l, Z.sub_0_l, Z.abs_opp, Z.abs_eq by lia. lia.
    - assert (M3 <= 2 ^ E3) by (apply rhe_le; [lia|]; nia).
      assert (2 ^ E3 - 2 ^ (E3 - 10) <= M3) by (apply rhe_ge; [lia|]; nia).
      rewrite Z.mul_1_l, Z.abs_eq by lia. lia. }
  unfold round_leftover.
  rewrite fl_eqb_zero. destruct (Z.eqb_spec M3 0) as [|_]; [lia|].
  cbv zeta.
  rewrite (c_round_neg_exp neg M3 E3) by lia.
  assert (Hdiv : (2 * M3 + 2 ^ E3) / (2 * 2 ^ E3) = w).
  { symmetry. apply (Z.div_unique _ _ w (2 * M3 + 2 ^ E3 - 2 * 2 ^ E3 * w)); [left|ring].
    destruct Hw as [-> | ->]; lia. }
  rewrite Hdiv.
  rewrite (not_tie neg w M3 E3) by (change (2 ^ 10) with 1024; lia).
  rewrite int_of_float_int. reflexivity.
Qed.

Lemma accum_ms (neg : bool) (n : Z) :
  0 <= n < 1000 * 2 ^ 23 ->
  exists x l,
    accum_float 0 (nearest neg n 1000) us_per_second fl_zero = Some (x, l) /\
    forall c, round_leftover (x + c) l = Some (sgn neg (1000 * n) + c).
Proof.
  intros Hn.
  destruct (nearest_fin neg n 1000 30) as (E & HE & Heq & _); try lia.
  rewrite Heq. clear Heq.
  set (M := round_half_even (n * 2 ^ E) 1000).
  pose proof (rhe_bounds (n * 2 ^ E) 1000 ltac:(lia)) as HM. fold M in HM.
  assert (HP : 2 ^ 30 <= 2 ^ E) by (apply pow2_le; lia).
  set (P := 2 ^ E) in *.
  assert (HM0 : 0 <= M) by (apply rhe_ge; [lia|]; nia).
  destruct (split_ms n M P) as [Hq Hr]; try lia.
  pose proof (Z.div_mod n 1000 ltac:(lia)) as Hdm.
  pose proof (Z.mod_pos_bound n 1000 ltac:(lia)) as Hf.
  pose proof (Z.mod_pos_bound M P ltac:(lia)) as Hfm.
  set (s := n / 1000) in *. set (f := n mod 1000) in *. set (fm := M mod P) in *.
  unfold accum_float. rewrite (modf_neg_exp neg M E) by lia. fold P. fold fm.
  rewrite Hq, int_of_float_int, fl_eqb_zero.
  destruct (Z.eqb_spec fm 0) as [Hz|Hz].
  - eexists; eexists; split; [reflexivity|].
    intros c. unfold round_leftover.
    change (fl_eqb fl_zero fl_zero) with true. cbv iota.
    f_equal. assert (Hfp : f * P <= 500) by lia.
    assert (f = 0).
    { destruct (Z.eq_dec f 0) as [|Hf0]; [assumption|exfalso].
      assert (1 * P <= f * P) by (apply Z.mul_le_mono_nonneg_r; lia). lia. }
    unfold us_per_second.
    rewrite sgn_mul. destruct neg; unfold sgn; lia.
  - change (float_of_Z us_per_second) with (Ffin false 1000000 0).
    unfold fl_mul. rewrite fnum_0, fden_0, fnum_neg, fden_neg by lia. fold P.
    simpl xorb.
    destruct (nearest_fin neg (1000000 * fm) (1 * P) 33) as (E2 & HE2 & Heq2 & _); try lia.
    rewrite Heq2. clear Heq2.
    set (M2 := round_half_even (1000000 * fm * 2 ^ E2) (1 * P)).
    pose proof (rhe_bounds (1000000 * fm * 2 ^ E2) (1 * P) ltac:(lia)) as HM2. fold M2 in HM2.
    assert (HP2 : 2 ^ 33 <= 2 ^ E2) by (apply pow2_le; lia).
    rewrite (modf_neg_exp neg M2 E2) by lia.
    rewrite int_of_float_int, fl_add_zero_l by lia.
    set (P2 := 2 ^ E2) in *.
    eexists; eexists; split; [reflexivity|].
    intros c.
    pose proof (split_us f fm P M2 P2 Hf HP HP2 ltac:(lia) ltac:(lia) ltac:(lia)) as Hus.
    cbv zeta in Hus.
    pose proof (Z.mod_pos_bound M2 P2 ltac:(lia)) as Hl.
    set (q2 := M2 / P2) in *. set (l := M2 mod P2) in *.
    change (2 ^ 10) with 1024 in Hus.
    assert (Hsum : forall w, 0 + sgn neg s * us_per_second + sgn neg q2 + c + sgn neg w
                          = sgn neg (s * 1000000 + q2 + w) + c).
    { intros w. unfold us_per_second. destruct neg; unfold sgn; lia. }
    destruct (Z.eq_dec l 0) as [Hl0|Hl0].
    + rewrite Hl0.
      replace (nearest_signed false (sgn neg 0) P2) with (Ffin false 0 emin)
        by (destruct neg; reflexivity).
      unfold round_leftover. rewrite fl_eqb_zero. cbv iota. simpl (0 =? 0). cbv iota.
      f_equal. specialize (Hsum 0). simpl (sgn neg 0) in Hsum.
      replace (sgn neg 0) with 0 in Hsum by (destruct neg; reflexivity).
      rewrite Z.add_0_r in Hsum. rewrite Hsum. f_equal. f_equal.
      destruct Hus as [[Hq2 _]|[_ Hbad]]; lia.
    + rewrite (nearest_signed_sgn false neg l P2) by lia.
      destruct Hus as [[Hq2 Hc]|[Hq2 Hc]].
      * rewrite (round_leftover_near neg _ 0 l P2 E2); try lia; try reflexivity.
        rewrite Hsum. f_equal. f_equal. f_equal. lia.
      * rewrite (round_leftover_near neg _ 1 l P2 E2); try lia; try reflexivity.
        rewrite Hsum. f_equal. f_equal. f_equal. lia.
Qed.

(** ** timedelta *)

Lemma microseconds_to_delta_in (us : Z) :
  min_us <= us <= max_us -> microseconds_to_delta us = Some us.
Proof.
  unfold min_us, max_us, microseconds_to_delta, us_per_day, max_delta_days. intros H.
  destruct (Z.leb_spec (Z.abs (us / 86400000000)) 999999999) as [|Hbad]; [reflexivity|].
  exfalso. revert Hbad. Z.to_euclidean_division_equations. lia.
Qed.

Lemma microseconds_to_delta_some (us t : Z) :
  microseconds_to_delta us = Some t -> t = us /\ min_us <= us <= max_us.
Proof.
  unfold min_us, max_us, microseconds_to_delta, us_per_day, max_delta_days.
  destruct (Z.leb_spec (Z.abs (us / 86400000000)) 999999999) as [H|H]; [|discriminate].
  intros [= <-]. split; [reflexivity|].
  revert H. Z.to_euclidean_division_equations. lia.
Qed.

Lemma timedelta_seconds_range (S : float) (d : Z) :
  timedelta_seconds S = Some d -> min_us <= d <= max_us.
Proof.
  unfold timedelta_seconds.
  destruct (accum_float 0 S us_per_second fl_zero) as [[x l]|]; [|discriminate].
  destruct (round_leftover x l) as [us|]; [|discriminate].
  intros H. apply microseconds_to_delta_some in H. destruct H as [-> H]. exact H.
Qed.

Lemma timedelta_seconds_ms (neg : bool) (n : Z) :
  0 <= n < 1000 * 2 ^ 23 ->
  timedelta_seconds (nearest neg n 1000) = Some (sgn neg (1000 * n)).
Proof.
  intros Hn. destruct (accum_ms neg n Hn) as (x & l & Hacc & Hr).
  unfold timedelta_seconds. rewrite Hacc.
  specialize (Hr 0). rewrite !Z.add_0_r in Hr. rewrite Hr.
  apply microseconds_to_delta_in. unfold min_us, max_us.
  destruct neg; unfold sgn; lia.
Qed.

Lemma timedelta_hms_ms (h m n : Z) :
  0 <= h < 100 -> 0 <= m < 100 -> 0 <= n < 100000 ->
  timedelta_hms h m (nearest false n 1000)
  = Some (h * us_per_hour + m * us_per_minute + 1000 * n).
Proof.
  intros Hh Hm Hn. destruct (accum_ms false n ltac:(lia)) as (x & l & Hacc & Hr).
  unfold timedelta_hms. rewrite Hacc. unfold accum_int.
  specialize (Hr (m * us_per_minute + h * us_per_hour)).
  replace (x + m * us_per_minute + h * us_per_hour)
    with (x + (m * us_per_minute + h * us_per_hour)) by ring.
  rewrite Hr. unfold sgn.
  replace (1000 * n + (m * us_per_minute + h * us_per_hour))
    with (h * us_per_hour + m * us_per_minute + 1000 * n) by ring.
  apply microseconds_to_delta_in. unfold min_us, max_us, us_per_hour, us_per_minute. lia.
Qed.

(** ** total_seconds *)

Lemma total_seconds_shape (us : Z) :
  min_us <= us <= max_us ->
  exists E M, 6 <= E <= 1074 /\
    total_seconds us = Ffin (us <? 0) M (- E) /\
    M = round_half_even (Z.abs us * 2 ^ E) 1000000 /\
    0 <= M < 2 ^ 53 * 2 ^ E /\ (us <> 0 -> 0 < M).
Proof.
  unfold min_us, max_us. intros H. unfold total_seconds, nearest_signed, us_per_second.
  destruct (Z.eqb_spec us 0) as [->|Hne].
  - exists 1074, 0. split; [lia|]. split; [reflexivity|].
    split; [symmetry; apply (rhe_exact 0 1000000); lia|].
    split; [|congruence]. pose proof (pow2_pos 1074 ltac:(lia)). lia.
  - destruct (nearest_fin (us <? 0) (Z.abs us) 1000000 6) as (E & HE & Heq & Hpos); try lia.
    exists E, (round_half_even (Z.abs us * 2 ^ E) 1000000).
    split; [lia|]. split; [exact Heq|]. split; [reflexivity|].
    pose proof (pow2_pos E ltac:(lia)) as HP.
    assert (H1 : 1 <= round_half_even (Z.abs us * 2 ^ E) 1000000).
    { apply rhe_ge; [lia|]. rewrite Z.mul_1_l. apply Hpos; [lia|].
      pose proof (pow2_pos 1074 ltac:(lia)).
      assert (1 * 2 ^ 1074 <= Z.abs us * 2 ^ 1074) by (apply Z.mul_le_mono_nonneg_r; lia).
      assert (1000000 <= 2 ^ 1074).
      { change 1000000 with (1000000 * 1). transitivity (2 ^ 20); [lia|]. apply pow2_le; lia. }
      lia. }
    assert (H2 : round_half_even (Z.abs us * 2 ^ E) 1000000 <= 2 ^ 47 * 2 ^ E).
    { apply rhe_le; [lia|].
      assert (Z.abs us * 2 ^ E <= (2 ^ 47 * 1000000) * 2 ^ E)
        by (apply Z.mul_le_mono_nonneg_r; lia).
      lia. }
    split; [|intros _; lia].
    assert (2 ^ 47 * 2 ^ E < 2 ^ 53 * 2 ^ E) by (apply Z.mul_lt_mono_pos_r; lia).
    lia.
Qed.

(** [x >= 0] *)
Lemma fl_geb_zero (s : bool) (M e : Z) :
  0 <= M -> fl_geb (Ffin s M e) (float_of_Z 0) = negb s || (M =? 0).
Proof.
  intros HM. change (float_of_Z 0) with (Ffin false 0 0).
  unfold fl_geb, fl_compare. rewrite fden_0, fnum_0. simpl (sgn false 0).
  rewrite Z.mul_1_r, Z.mul_0_l.
  pose proof (fnum_nonneg M e HM) as Hn. pose proof (fnum_zero_iff M e) as Hz.
  destruct (Z.eqb_spec M 0) as [HM0|HM0]; destruct s; unfold sgn; simpl negb; simpl orb;
    destruct (Z.compare_spec (- fnum M e) 0); destruct (Z.compare_spec (fnum M e) 0);
    try reflexivity; exfalso; lia.
Qed.

Lemma total_seconds_geb (us : Z) :
  min_us <= us <= max_us ->
  fl_geb (total_seconds us) (float_of_Z 0) = (0 <=? us).
Proof.
  intros H. destruct (total_seconds_shape us H) as (E & M & HE & -> & _ & HM & Hpos).
  rewrite fl_geb_zero by lia.
  destruct (Z.ltb_spec us 0); destruct (Z.leb_spec 0 us); try lia; simpl;
    try reflexivity.
Qed.

(** ** format_time on a float that is not negative *)

Lemma fmt_06_3f_zero (e : Z) : fmt_06_3f (Ffin false 0 e) = "00.000"%string.
Proof.
  unfold fmt_06_3f, fmt_fixed.
  assert (H : fnum 0 e = 0) by now apply fnum_zero_iff.
  rewrite H, Z.mul_0_l.
  replace (round_half_even 0 (fden e)) with 0
    by (symmetry; apply (rhe_exact 0 (fden e)); apply fden_pos).
  reflexivity.
Qed.

Lemma mod_mod_mul (a b c : Z) : 0 < b -> 0 < c -> (a mod (c * b)) mod b = a mod b.
Proof.
  intros Hb Hc. apply Z.mod_mod_divide. exists c. ring.
Qed.

Lemma format_time_nonneg (M E : Z) :
  0 <= M -> 0 <= E -> M < 2 ^ 53 * 2 ^ E ->
  format_time (Ffin false M (- E)) =
  Some (fmt_02d (M / (3600 * 2 ^ E)) ++ ":" ++
        fmt_02d (M mod (3600 * 2 ^ E) / (60 * 2 ^ E)) ++ ":" ++
        fmt_06_3f (Ffin false (M mod (60 * 2 ^ E)) (- E)))%string.
Proof.
  intros HM HE Hlt.
  pose proof (pow2_pos E HE) as HP.
  unfold format_time, py_floordiv, py_mod.
  rewrite (float_div_mod_nonneg M E 3600) by lia.
  cbn [fst snd]. rewrite int_of_float_int. unfold bind at 1. unfold sgn at 1.
  pose proof (Z.mod_pos_bound M (3600 * 2 ^ E) ltac:(lia)) as HM1.
  assert (Hmm : (M mod (3600 * 2 ^ E)) mod (60 * 2 ^ E) = M mod (60 * 2 ^ E)).
  { replace (3600 * 2 ^ E) with (60 * (60 * 2 ^ E)) by ring. apply mod_mod_mul; lia. }
  set (M1 := M mod (3600 * 2 ^ E)) in *.
  destruct (Z.eqb_spec M1 0) as [Hz|Hz].
  - change (float_div_mod (Ffin false 0 0) (float_of_Z 60))
      with (Ffin false 0 0, Ffin false 0 0).
    cbn [fst snd]. rewrite int_of_float_int. unfold bind, sgn.
    rewrite Hz in *. rewrite Z.div_0_l by lia.
    rewrite <- Hmm. rewrite Z.mod_0_l by lia.
    rewrite !fmt_06_3f_zero. reflexivity.
  - rewrite (float_div_mod_nonneg M1 E 60) by lia.
    cbn [fst snd]. rewrite int_of_float_int. unfold bind, sgn.
    rewrite Hmm.
    destruct (Z.eqb_spec (M mod (60 * 2 ^ E)) 0) as [Hz2|Hz2].
    + rewrite Hz2. rewrite !fmt_06_3f_zero. reflexivity.
    + reflexivity.
Qed.

(** [format_time] never returns the text of the deletion marker. *)
Lemma render_digits_head (fuel : nat) (n : Z) (acc : string) :
  exists k r, render_digits fuel n acc = String (digit_char (k mod 10)) r.
Proof.
  revert n acc. induction fuel as [|fuel IH]; intros n acc; simpl.
  - eauto.
  - destruct (n <? 10); [eauto|]. apply IH.
Qed.

Lemma digit_char_code (d : Z) : 0 <= d <= 9 -> N_of_ascii (digit_char d) = Z.to_N (48 + d).
Proof.
  intros H. unfold digit_char. apply N_ascii_embedding. lia.
Qed.

Lemma is_digit_digit_char (d : Z) : 0 <= d <= 9 -> is_digit (digit_char d) = true.
Proof.
  intros H. unfold is_digit. rewrite digit_char_code by lia.
  apply andb_true_intro. split; apply N.leb_le; lia.
Qed.

Lemma digit_val_digit_char (d : Z) : 0 <= d <= 9 -> digit_val (digit_char d) = d.
Proof.
  intros H. unfold digit_val. rewrite digit_char_code by lia. lia.
Qed.

Lemma mod10_digit (k : Z) : 0 <= k mod 10 <= 9.
Proof. pose proof (Z.mod_pos_bound k 10 ltac:(lia)). lia. Qed.

Lemma fmt_02d_head (n : Z) :
  exists c r, fmt_02d n = String c r /\ (c = "-"%char \/ is_digit c = true).
Proof.
  unfold fmt_02d. destruct (n <? 0).
  - exists "-"%char. eexists. split; [reflexivity|]. now left.
  - unfold zero_pad, render_nat.
    destruct (render_digits_head (Z.to_nat (Z.log2 n)) n EmptyString) as (k & r & ->).
    destruct (2 - String.length (String (digit_char (k mod 10)) r))%nat as [|w]; simpl.
    + eexists; eexists; split; [reflexivity|]. right. apply is_digit_digit_char, mod10_digit.
    + eexists; eexists; split; [reflexivity|]. right. reflexivity.
Qed.

Lemma format_time_not_deleted (x : float) : format_time x <> Some DELETED.
Proof.
  unfold format_time, bind.
  destruct (int_of_float (py_floordiv x 3600)) as [h|]; [|discriminate].
  destruct (int_of_float (py_floordiv (py_mod x 3600) 60)) as [m|]; [|discriminate].
  destruct (fmt_02d_head h) as (c & r & -> & Hc).
  intros H. injection H as H1 _.
  destruct Hc as [->| Hc]; [discriminate|]. subst c. discriminate.
Qed.

Lemma all_below_spec (f : Z -> bool) (n : nat) :
  all_below f n = true -> forall z, 0 <= z < Z.of_nat n -> f z = true.
Proof.
  induction n as [|n IH]; intros H z Hz; [lia|].
  simpl in H. apply andb_true_iff in H. destruct H as [H1 H2].
  destruct (Z.eq_dec z (Z.of_nat n)) as [->|Hne]; [exact H1|].
  apply IH; [exact H2|lia].
Qed.

(** ** Fixed-width fields *)

Lemma fixed_digits_2 (h : Z) :
  fixed_digits 2 h = String (digit_char (h / 10 mod 10)) (String (digit_char (h mod 10)) EmptyString).
Proof. reflexivity. Qed.

Lemma fixed_digits_3 (f : Z) :
  fixed_digits 3 f =
  String (digit_char (f / 10 / 10 mod 10))
    (String (digit_char (f / 10 mod 10)) (String (digit_char (f mod 10)) EmptyString)).
Proof. reflexivity. Qed.

Lemma py_int2_fixed (h : Z) : 0 <= h < 100 -> py_int2 (fixed_digits 2 h) = Some h.
Proof.
  intros H. rewrite fixed_digits_2. unfold py_int2.
  rewrite !is_digit_digit_char, !digit_val_digit_char by apply mod10_digit.
  simpl andb. cbv iota. f_equal. Z.to_euclidean_division_equations. lia.
Qed.

Lemma digit_neq (c c' : ascii) : is_digit c = true -> is_digit c' = false -> Ascii.eqb c c' = false.
Proof.
  intros H H'. destruct (Ascii.eqb_spec c c') as [->|]; [congruence|reflexivity].
Qed.

Lemma py_float_fixed (s f : Z) :
  0 <= s < 100 -> 0 <= f < 1000 ->
  py_float (fixed_digits 2 s ++ String "." (fixed_digits 3 f))
  = Some (nearest false (1000 * s + f) 1000).
Proof.
  intros Hs Hf. rewrite fixed_digits_2, fixed_digits_3.
  cbn [append]. unfold py_float, strip_sign.
  pose proof (is_digit_digit_char _ (mod10_digit (s / 10))) as D1.
  pose proof (is_digit_digit_char _ (mod10_digit s)) as D2.
  pose proof (is_digit_digit_char _ (mod10_digit (f / 10 / 10))) as D3.
  pose proof (is_digit_digit_char _ (mod10_digit (f / 10))) as D4.
  pose proof (is_digit_digit_char _ (mod10_digit f)) as D5.
  rewrite (digit_neq _ "+"%char D1 eq_refl), (digit_neq _ "-"%char D1 eq_refl).
  cbn [split_digits]. rewrite D1, D2.
  change (is_digit ".") with false. cbv iota beta.
  change (Ascii.eqb "." ".") with true.
  cbn [is_empty negb andb all_digits]. rewrite D3, D4, D5. cbn [andb]. cbv iota.
  cbn [append digits_val String.length].
  rewrite !digit_val_digit_char by apply mod10_digit.
  change (10 ^ Z.of_nat 3) with 1000.
  f_equal. f_equal. Z.to_euclidean_division_equations. lia.
Qed.

Lemma stamp_slices (h m s f : Z) (rest : string) :
  let t := (stamp "." h m s f ++ rest)%string in
  py_slice 0 2 t = fixed_digits 2 h /\
  py_slice 3 5 t = fixed_digits 2 m /\
  py_slice 6 12 t = (fixed_digits 2 s ++ String "." (fixed_digits 3 f))%string /\
  py_slice 0 12 t = stamp "." h m s f.
Proof.
  assert (H0 : substring 0 0 rest = EmptyString) by (destruct rest; reflexivity).
  repeat split; try reflexivity;
    unfold py_slice, stamp; cbn [Nat.sub]; rewrite !fixed_digits_2, !fixed_digits_3;
    cbn [append substring]; rewrite H0; reflexivity.
Qed.

(** ** process_time on a well-formed time field *)

Lemma microseconds_to_delta_spec (us : Z) :
  microseconds_to_delta us = if in_delta_range us then Some us else None.
Proof.
  unfold in_delta_range.
  destruct (Z.leb_spec min_us us); destruct (Z.leb_spec us max_us); simpl;
    try (apply microseconds_to_delta_in; lia);
    destruct (microseconds_to_delta us) as [t|] eqn:E; try reflexivity;
    apply microseconds_to_delta_some in E; lia.
Qed.

Lemma process_time_stamp (h m s f : Z) (S : float) (d : Z) :
  0 <= h < 100 -> 0 <= m < 100 -> 0 <= s < 100 -> 0 <= f < 1000 ->
  timedelta_seconds S = Some d ->
  process_time (stamp "." h m s f) S =
    if in_delta_range (stamp_us h m s f + d) then
      if 0 <=? stamp_us h m s f + d
      then format_time (total_seconds (stamp_us h m s f + d))
      else Some DELETED
    else None.
Proof.
  intros Hh Hm Hs Hf Hd. unfold process_time.
  destruct (stamp_slices h m s f EmptyString) as (S1 & S2 & S3 & _).
  cbv zeta in S1, S2, S3.
  assert (Hnil : (stamp "." h m s f ++ "")%string = stamp "." h m s f) by reflexivity.
  rewrite Hnil in S1, S2, S3. rewrite S1, S2, S3.
  rewrite !py_int2_fixed, py_float_fixed by lia. cbn [bind].
  rewrite timedelta_hms_ms by lia. cbn [bind]. rewrite Hd. cbn [bind].
  unfold timedelta_add.
  replace (h * us_per_hour + m * us_per_minute + 1000 * (1000 * s + f))
    with (stamp_us h m s f) by (unfold stamp_us; ring).
  rewrite microseconds_to_delta_spec.
  destruct (in_delta_range (stamp_us h m s f + d)) eqn:Hr; [|reflexivity].
  cbn [bind]. rewrite total_seconds_geb; [reflexivity|].
  unfold in_delta_range in Hr. lia.
Qed.

(** ** Formatting a whole number of milliseconds *)

Lemma div_scaled (k M P c : Z) :
  0 <= k -> 1000 < P -> -500 <= 1000 * M - k * P <= 500 -> 0 < c ->
  M / (c * P) = k / (1000 * c) /\
  -500 <= 1000 * (M mod (c * P)) - (k mod (1000 * c)) * P <= 500.
Proof.
  intros Hk HP Hb Hc.
  pose proof (Z.div_mod k (1000 * c) ltac:(lia)) as Hdm.
  pose proof (Z.mod_pos_bound k (1000 * c) ltac:(lia)) as Hr.
  set (H := k / (1000 * c)) in *. set (r := k mod (1000 * c)) in *.
  assert (HH : 0 <= H) by (apply Z.div_pos; lia).
  assert (HkP : k * P = 1000 * (c * P * H) + r * P) by (rewrite Hdm; ring).
  assert (HrP : 0 <= r * P) by nia.
  assert (HrP' : r * P <= 1000 * (c * P) - P) by nia.
  assert (HcP : 0 < c * P) by nia.
  assert (Hlo : c * P * H <= M) by lia.
  assert (Hhi : M < c * P * H + c * P) by lia.
  assert (Hq : M / (c * P) = H).
  { symmetry. apply (Z.div_unique M (c * P) H (M - c * P * H)); [left; lia|ring]. }
  assert (Hm : M mod (c * P) = M - c * P * H).
  { symmetry. apply (Z.mod_unique M (c * P) H (M - c * P * H)); [left; lia|ring]. }
  split; [exact Hq|]. rewrite Hm. lia.
Qed.

Lemma div_bounds (a b c : Z) : 0 < b -> 0 <= a < b * c -> 0 <= a / b < c.
Proof.
  intros Hb Ha. split; [apply Z.div_pos; lia|apply Z.div_lt_upper_bound; lia].
Qed.

Lemma fmt_02d_fixed (h : Z) : 0 <= h < 100 -> fmt_02d h = fixed_digits 2 h.
Proof.
  intros H. apply String.eqb_eq.
  apply (all_below_spec (fun z => String.eqb (fmt_02d z) (fixed_digits 2 z)) 100);
    [vm_compute; reflexivity|lia].
Qed.

Lemma render_nat_small (a : Z) :
  0 <= a < 100 ->
  render_nat a = if a <? 10 then String (digit_char a) EmptyString else fixed_digits 2 a.
Proof.
  intros H. apply String.eqb_eq.
  apply (all_below_spec
           (fun z => String.eqb (render_nat z)
                       (if z <? 10 then String (digit_char z) EmptyString
                        else fixed_digits 2 z)) 100);
    [vm_compute; reflexivity|lia].
Qed.

Lemma pad_seconds (a b : Z) :
  0 <= a < 100 ->
  zero_pad 6 (render_nat a ++ "." ++ fixed_digits 3 b)
  = (fixed_digits 2 a ++ String "." (fixed_digits 3 b))%string.
Proof.
  intros H. rewrite render_nat_small by lia. rewrite fixed_digits_3.
  destruct (Z.ltb_spec a 10) as [Hlt|Hge].
  - rewrite fixed_digits_2. rewrite (Z.div_small a 10), (Z.mod_0_l 10), (Z.mod_small a 10) by lia.
    reflexivity.
  - reflexivity.
Qed.

Lemma fmt_06_3f_ms (M2 E r2 : Z) :
  0 <= E -> 1000 < 2 ^ E -> 0 <= r2 < 100000 ->
  -500 <= 1000 * M2 - r2 * 2 ^ E <= 500 ->
  fmt_06_3f (Ffin false M2 (- E))
  = (fixed_digits 2 (r2 / 1000) ++ String "." (fixed_digits 3 (r2 mod 1000)))%string.
Proof.
  intros HE HP Hr Hb. unfold fmt_06_3f, fmt_fixed.
  rewrite fnum_neg, fden_neg by lia.
  change (10 ^ Z.of_nat 3) with 1000.
  rewrite (rhe_near (M2 * 1000) (2 ^ E) ltac:(lia) r2) by lia.
  cbn [sign_str String.length Nat.sub append].
  apply pad_seconds. apply div_bounds; lia.
Qed.

Lemma format_time_ms (k : Z) :
  0 <= k < 360000000 ->
  format_time (total_seconds (1000 * k)) = Some (stamp_of_ms "." k).
Proof.
  intros Hk. destruct (Z.eq_dec k 0) as [->|Hk0]; [vm_compute; reflexivity|].
  unfold total_seconds, nearest_signed, us_per_second.
  destruct (Z.eqb_spec (1000 * k) 0); [lia|].
  destruct (Z.ltb_spec (1000 * k) 0); [lia|].
  rewrite Z.abs_eq by lia.
  destruct (nearest_fin false (1000 * k) 1000000 34) as (E & HE & -> & _); try lia.
  set (M := round_half_even (1000 * k * 2 ^ E) 1000000).
  pose proof (rhe_bounds (1000 * k * 2 ^ E) 1000000 ltac:(lia)) as HM. fold M in HM.
  assert (HP : 2 ^ 34 <= 2 ^ E) by (apply pow2_le; lia).
  set (P := 2 ^ E) in *.
  assert (Hb : -500 <= 1000 * M - k * P <= 500) by lia.
  assert (HM0 : 0 <= M) by (apply rhe_ge; [lia|]; nia).
  assert (HMlt : M < 2 ^ 53 * P).
  { assert (M <= 2 ^ 19 * P) by (apply rhe_le; [lia|]; nia). lia. }
  rewrite (format_time_nonneg M E) by lia. fold P.
  destruct (div_scaled k M P 3600 ltac:(lia) ltac:(lia) Hb ltac:(lia)) as [Hq1 Hr1].
  destruct (div_scaled k M P 60 ltac:(lia) ltac:(lia) Hb ltac:(lia)) as [_ Hr2].
  change (1000 * 3600) with 3600000 in *. change (1000 * 60) with 60000 in *.
  pose proof (Z.mod_pos_bound k 3600000 ltac:(lia)) as Hk1.
  pose proof (Z.mod_pos_bound k 60000 ltac:(lia)) as Hk2.
  destruct (div_scaled (k mod 3600000) (M mod (3600 * P)) P 60 ltac:(lia) ltac:(lia) Hr1 ltac:(lia))
    as [Hq2 _].
  change (1000 * 60) with 60000 in *.
  rewrite Hq1, Hq2.
  rewrite (fmt_06_3f_ms (M mod (60 * P)) E (k mod 60000)) by (fold P; lia).
  rewrite (fmt_02d_fixed (k / 3600000)) by (apply div_bounds; lia).
  rewrite (fmt_02d_fixed (k mod 3600000 / 60000)) by (apply div_bounds; lia).
  unfold stamp_of_ms, stamp. f_equal.
  replace ((k mod 60000) mod 1000) with (k mod 1000)
    by (symmetry; apply Z.mod_mod_divide; exists 60; reflexivity).
  reflexivity.
Qed.

(** [process_time] with an offset of [d] milliseconds. *)
Lemma process_time_ms (h m s f d : Z) (S : float) :
  0 <= h < 100 -> 0 <= m < 100 -> 0 <= s < 100 -> 0 <= f < 1000 ->
  timedelta_seconds S = Some (1000 * d) ->
  let k := 3600000 * h + 60000 * m + 1000 * s + f + d in
  0 <= k < 360000000 ->
  process_time (stamp "." h m s f) S = Some (stamp_of_ms "." k).
Proof.
  intros Hh Hm Hs Hf Hd k Hk.
  rewrite (process_time_stamp h m s f S (1000 * d)) by assumption.
  assert (Ht : stamp_us h m s f + 1000 * d = 1000 * k).
  { unfold stamp_us, us_per_hour, us_per_minute, k. ring. }
  rewrite Ht.
  assert (Hr : in_delta_range (1000 * k) = true).
  { unfold in_delta_range, min_us, max_us. lia. }
  rewrite Hr. destruct (Z.leb_spec 0 (1000 * k)); [|lia].
  now apply format_time_ms.
Qed.

Lemma stamp_of_ms_stamp (sep : ascii) (h m s f : Z) :
  0 <= h -> 0 <= m < 60 -> 0 <= s < 60 -> 0 <= f < 1000 ->
  stamp_of_ms sep (3600000 * h + 60000 * m + 1000 * s + f) = stamp sep h m s f.
Proof.
  intros Hh Hm Hs Hf. unfold stamp_of_ms.
  set (k := 3600000 * h + 60000 * m + 1000 * s + f).
  assert (H1 : k / 3600000 = h) by (unfold k; Z.to_euclidean_division_equations; lia).
  assert (H2 : k mod 3600000 / 60000 = m) by (unfold k; Z.to_euclidean_division_equations; lia).
  assert (H3 : k mod 60000 / 1000 = s) by (unfold k; Z.to_euclidean_division_equations; lia).
  assert (H4 : k mod 1000 = f) by (unfold k; Z.to_euclidean_division_equations; lia).
  now rewrite H1, H2, H3, H4.
Qed.

(** ** Offsets that are a whole number of milliseconds *)

Lemma timedelta_seconds_dec3 (d : Z) :
  Z.abs d < 1000 * 2 ^ 23 -> timedelta_seconds (dec d 3) = Some (1000 * d).
Proof.
  intros Hd. unfold dec, nearest_signed. change (10 ^ Z.of_nat 3) with 1000.
  destruct (Z.eqb_spec d 0) as [->|Hne]; [vm_compute; reflexivity|].
  rewrite timedelta_seconds_ms by lia. f_equal.
  destruct (Z.ltb_spec d 0); unfold sgn; lia.
Qed.

Lemma timedelta_seconds_opp_dec3 (d : Z) :
  Z.abs d < 1000 * 2 ^ 23 -> timedelta_seconds (fl_opp (dec d 3)) = Some (1000 * - d).
Proof.
  intros Hd. unfold dec, nearest_signed. change (10 ^ Z.of_nat 3) with 1000.
  destruct (Z.eqb_spec d 0) as [->|Hne]; [vm_compute; reflexivity|].
  rewrite fl_opp_nearest, timedelta_seconds_ms by lia. f_equal.
  destruct (Z.ltb_spec d 0); unfold sgn, negb; lia.
Qed.

Lemma ms_fields (k : Z) :
  0 <= k < 360000000 ->
  0 <= k / 3600000 < 100 /\ 0 <= k mod 3600000 / 60000 < 60 /\
  0 <= k mod 60000 / 1000 < 60 /\ 0 <= k mod 1000 < 1000 /\
  3600000 * (k / 3600000) + 60000 * (k mod 3600000 / 60000)
    + 1000 * (k mod 60000 / 1000) + k mod 1000 = k.
Proof.
  intros Hk.
  pose proof (Z.mod_pos_bound k 3600000 ltac:(lia)) as H1.
  pose proof (Z.mod_pos_bound k 60000 ltac:(lia)) as H2.
  pose proof (Z.mod_pos_bound k 1000 ltac:(lia)) as H3.
  pose proof (div_bounds k 3600000 100 ltac:(lia) ltac:(lia)) as B1.
  pose proof (div_bounds (k mod 3600000) 60000 60 ltac:(lia) ltac:(lia)) as B2.
  pose proof (div_bounds (k mod 60000) 1000 60 ltac:(lia) ltac:(lia)) as B3.
  pose proof (Z.div_mod k 3600000 ltac:(lia)) as E1.
  pose proof (Z.div_mod (k mod 3600000) 60000 ltac:(lia)) as E2.
  pose proof (Z.div_mod (k mod 60000) 1000 ltac:(lia)) as E3.
  assert (E4 : (k mod 3600000) mod 60000 = k mod 60000)
    by (apply Z.mod_mod_divide; exists 60; reflexivity).
  assert (E5 : (k mod 60000) mod 1000 = k mod 1000)
    by (apply Z.mod_mod_divide; exists 60; reflexivity).
  rewrite E4 in E2. rewrite E5 in E3.
  split; [exact B1|]. split; [exact B2|]. split; [exact B3|]. split; [exact H3|]. lia.
Qed.

Lemma process_time_survives (h m s f : Z) (S : float) (d : Z) :
  0 <= h < 100 -> 0 <= m < 100 -> 0 <= s < 100 -> 0 <= f < 1000 ->
  timedelta_seconds S = Some d ->
  0 <= stamp_us h m s f + d <= max_us ->
  exists r, process_time (stamp "." h m s f) S = Some r /\ r <> DELETED.
Proof.
  intros Hh Hm Hs Hf Hd Ht.
  rewrite (process_time_stamp h m s f S d) by assumption.
  set (t := stamp_us h m s f + d) in *.
  assert (Hr : in_delta_range t = true) by (unfold in_delta_range, min_us; lia).
  rewrite Hr. destruct (Z.leb_spec 0 t); [|lia].
  destruct (total_seconds_shape t ltac:(unfold min_us; lia)) as (E & M & HE & Heq & _ & HM & _).
  destruct (Z.ltb_spec t 0); [lia|].
  rewrite Heq, format_time_nonneg by lia.
  eexists. split; [reflexivity|].
  intros Hbad.
  apply (format_time_not_deleted (Ffin false M (- E))).
  rewrite format_time_nonneg by lia. now f_equal.
Qed.

Lemma process_time_negative (h m s f : Z) (S : float) (d : Z) :
  0 <= h < 100 -> 0 <= m < 100 -> 0 <= s < 100 -> 0 <= f < 1000 ->
  timedelta_seconds S = Some d ->
  stamp_us h m s f + d < 0 ->
  process_time (stamp "." h m s f) S = Some DELETED.
Proof.
  intros Hh Hm Hs Hf Hd Ht.
  rewrite (process_time_stamp h m s f S d) by assumption.
  pose proof (timedelta_seconds_range S d Hd) as Hrange.
  assert (0 <= stamp_us h m s f) by (unfold stamp_us, us_per_hour, us_per_minute; lia).
  assert (Hr : in_delta_range (stamp_us h m s f + d) = true)
    by (unfold in_delta_range, max_us in *; lia).
  rewrite Hr. destruct (Z.leb_spec 0 (stamp_us h m s f + d)); [lia|reflexivity].
Qed.

Lemma line_slices (h1 m1 s1 f1 h2 m2 s2 f2 : Z) (rest : string) :
  let line := (stamp "." h1 m1 s1 f1 ++ " --> " ++ stamp "." h2 m2 s2 f2 ++ rest)%string in
  py_slice 0 12 line = stamp "." h1 m1 s1 f1 /\
  py_slice 17 29 line = stamp "." h2 m2 s2 f2.
Proof.
  assert (H0 : substring 0 0 rest = EmptyString) by (destruct rest; reflexivity).
  split; [reflexivity|].
  unfold py_slice, stamp; cbn [Nat.sub]; rewrite !fixed_digits_2, !fixed_digits_3;
    cbn [append substring]; rewrite H0; reflexivity.
Qed.

(** ** The loop of the converters *)

Lemma step_time_line (fmt : subtitle_format) (seconds : float) (st : conv) (line : string) :
  is_match (time_line (separator fmt)) line = true ->
  step fmt seconds st line =
    match process_line (to_canonical fmt line) seconds with
    | None => None
    | Some r =>
        if String.eqb r DELETED
        then Some (mkConv (deleted_subs st + 1) true (written st ++ [DELETED]))
        else Some (mkConv (deleted_subs st) (skip st) (written st ++ [from_canonical fmt r]))
    end.
Proof.
  intros Hm. destruct fmt; cbn [step separator to_canonical from_canonical] in *.
  - unfold vtt_step. rewrite Hm. unfold bind, write.
    destruct (process_line line seconds) as [r|]; [|reflexivity].
    destruct (String.eqb_spec r DELETED) as [->|]; reflexivity.
  - unfold srt_step. rewrite Hm. unfold bind, write.
    destruct (process_line (str_replace "," "." line) seconds) as [r|]; [|reflexivity].
    destruct (String.eqb_spec r DELETED) as [->|]; reflexivity.
Qed.

Lemma step_other_line (fmt : subtitle_format) (seconds : float) (st : conv) (line : string) :
  is_match (time_line (separator fmt)) line = false ->
  step fmt seconds st line = Some (other_line st line).
Proof.
  intros Hm. destruct fmt; cbn [step separator] in *.
  - unfold vtt_step. now rewrite Hm.
  - unfold srt_step. now rewrite Hm.
Qed.

Lemma run_app (stp : conv -> string -> option conv) (l1 l2 : list string) (st : conv) :
  run stp st (l1 ++ l2) = bind (run stp st l1) (fun st' => run stp st' l2).
Proof.
  revert st. induction l1 as [|l l1 IH]; intros st; [reflexivity|].
  cbn [app run]. destruct (stp st l) as [st'|]; cbn [bind]; [apply IH|reflexivity].
Qed.

Lemma step_written (fmt : subtitle_format) (seconds : float) (st st' : conv) (line : string) :
  step fmt seconds st line = Some st' -> exists suf, written st' = written st ++ suf.
Proof.
  destruct (is_match (time_line (separator fmt)) line) eqn:Hm.
  - rewrite step_time_line by assumption.
    destruct (process_line (to_canonical fmt line) seconds) as [r|]; [|discriminate].
    destruct (String.eqb r DELETED); intros [= <-]; eexists; reflexivity.
  - rewrite step_other_line by assumption. unfold other_line, write.
    destruct (skip st); [destruct (String.eqb line LF)|]; intros [= <-]; cbn [written].
    + exists []. now rewrite app_nil_r.
    + exists []. now rewrite app_nil_r.
    + eexists; reflexivity.
Qed.

Lemma run_written (fmt : subtitle_format) (seconds : float) (lines : list string) (st st' : conv) :
  run (step fmt seconds) st lines = Some st' -> exists suf, written st' = written st ++ suf.
Proof.
  revert st. induction lines as [|l lines IH]; intros st; cbn [run].
  - intros [= <-]. exists []. now rewrite app_nil_r.
  - destruct (step fmt seconds st l) as [st1|] eqn:E; cbn [bind]; [|discriminate].
    intros H. destruct (step_written _ _ _ _ _ E) as (s1 & H1).
    destruct (IH _ H) as (s2 & H2). exists (s1 ++ s2). now rewrite H2, H1, app_assoc.
Qed.

(** The text lines of a deleted block are dropped up to the blank line. *)
Lemma run_suppressed (fmt : subtitle_format) (seconds : float) (texts : list string)
      (n : Z) (out : list string) :
  Forall (fun t => is_match (time_line (separator fmt)) t = false /\ t <> LF) texts ->
  run (step fmt seconds) (mkConv n true out) texts = Some (mkConv n true out).
Proof.
  induction 1 as [|t texts [Ht1 Ht2] _ IH]; [reflexivity|].
  cbn [run]. rewrite step_other_line by assumption. unfold other_line. cbn [skip bind].
  destruct (String.eqb_spec t LF); [contradiction|]. exact IH.
Qed.

(** ** Time lines in the two formats *)

Lemma sep_not_digit (fmt : subtitle_format) : is_digit (separator fmt) = false.
Proof. destruct fmt; reflexivity. Qed.

Lemma str_replace_stamp (a b : ascii) (h m s f : Z) (rest : string) :
  is_digit a = false -> Ascii.eqb ":" a = false ->
  str_replace a b (stamp a h m s f ++ rest) = (stamp b h m s f ++ str_replace a b rest)%string.
Proof.
  intros Ha Hc. unfold stamp. rewrite !fixed_digits_2, !fixed_digits_3.
  cbn [append str_replace].
  rewrite !(fun x => digit_neq _ a (is_digit_digit_char _ (mod10_digit x)) Ha).
  rewrite Hc, Ascii.eqb_refl. reflexivity.
Qed.

Lemma str_replace_arrow (a b : ascii) (rest : string) :
  Ascii.eqb " " a = false -> Ascii.eqb "-" a = false -> Ascii.eqb ">" a = false ->
  str_replace a b (" --> " ++ rest) = (" --> " ++ str_replace a b rest)%string.
Proof.
  intros H1 H2 H3. cbn [append str_replace]. now rewrite H1, H2, H3.
Qed.

Lemma to_canonical_range_line (fmt : subtitle_format) (h1 m1 s1 f1 h2 m2 s2 f2 : Z) (rest : string) :
  to_canonical fmt (range_line (separator fmt) h1 m1 s1 f1 h2 m2 s2 f2 rest)
  = range_line "." h1 m1 s1 f1 h2 m2 s2 f2 (to_canonical fmt rest).
Proof.
  destruct fmt; [reflexivity|]. cbn [to_canonical separator]. unfold range_line.
  rewrite str_replace_stamp by reflexivity.
  rewrite str_replace_arrow by reflexivity.
  rewrite str_replace_stamp by reflexivity. reflexivity.
Qed.

Lemma from_canonical_stamp (fmt : subtitle_format) (h m s f : Z) (rest : string) :
  from_canonical fmt (stamp "." h m s f ++ rest)
  = (stamp (separator fmt) h m s f ++ from_canonical fmt rest)%string.
Proof.
  destruct fmt; [reflexivity|]. cbn [from_canonical separator].
  now rewrite str_replace_stamp by reflexivity.
Qed.

Lemma is_match_range_line (sep : ascii) (h1 m1 s1 f1 h2 m2 s2 f2 : Z) (rest : string) :
  is_match (time_line sep) (range_line sep h1 m1 s1 f1 h2 m2 s2 f2 rest) = true.
Proof.
  unfold range_line, stamp. rewrite !fixed_digits_2, !fixed_digits_3.
  cbn [append]. unfold is_match, time_line. cbn [re_match].
  rewrite !(fun x => is_digit_digit_char _ (mod10_digit x)).
  change (Ascii.eqb ":" ":") with true. rewrite Ascii.eqb_refl.
  cbn [option_map]. reflexivity.
Qed.

Lemma str_replace_no_char (a b : ascii) (s : string) :
  Ascii.eqb b a = false -> has_char a (str_replace a b s) = false.
Proof.
  intros Hab. induction s as [|c s IH]; [reflexivity|].
  cbn [str_replace has_char]. rewrite IH.
  destruct (Ascii.eqb_spec c a) as [->|Hne].
  - now rewrite Hab.
  - destruct (Ascii.eqb_spec c a); [contradiction|reflexivity].
Qed.

(** ** process_line on a well-formed time line *)

Lemma process_line_range (h1 m1 s1 f1 h2 m2 s2 f2 : Z) (rest : string) (S : float) :
  process_line (range_line "." h1 m1 s1 f1 h2 m2 s2 f2 rest) S =
    match process_time (stamp "." h1 m1 s1 f1) S, process_time (stamp "." h2 m2 s2 f2) S with
    | Some a, Some b =>
        if String.eqb a DELETED then
          if String.eqb b DELETED then Some DELETED
          else Some ("00:00:00.000 --> " ++ b ++ LF)%string
        else Some (a ++ " --> " ++ b ++ LF)%string
    | _, _ => None
    end.
Proof.
  unfold process_line, range_line.
  destruct (line_slices h1 m1 s1 f1 h2 m2 s2 f2 rest) as [-> ->].
  destruct (process_time (stamp "." h1 m1 s1 f1) S) as [a|]; [|reflexivity].
  destruct (process_time (stamp "." h2 m2 s2 f2) S) as [b|]; reflexivity.
Qed.

(** The tag that [name_output] writes for the cumulative offset [x]. *)
(** ** Strings *)

Lemma sapp_assoc (a b c : string) : ((a ++ b) ++ c = a ++ (b ++ c))%string.
Proof. induction a as [|x a IH]; [reflexivity|]. cbn [append]. now rewrite IH. Qed.

Lemma sapp_nil_r (a : string) : (a ++ "" = a)%string.
Proof. induction a as [|x a IH]; [reflexivity|]. cbn [append]. now rewrite IH. Qed.

Lemma slength_app (a b : string) :
  String.length (a ++ b) = (String.length a + String.length b)%nat.
Proof. induction a as [|x a IH]; [reflexivity|]. cbn [append String.length]. now rewrite IH. Qed.

Lemma substring_prefix (p q : string) : substring 0 (String.length p) (p ++ q) = p.
Proof.
  induction p as [|x p IH]; cbn [append String.length substring].
  - destruct q; reflexivity.
  - now rewrite IH.
Qed.

Lemma drop_app (p q : string) : drop (String.length p) (p ++ q) = q.
Proof. induction p as [|x p IH]; [reflexivity|]. cbn [append String.length drop]. exact IH. Qed.

Lemma all_digits_app (a b : string) :
  all_digits (a ++ b) = all_digits a && all_digits b.
Proof.
  induction a as [|x a IH]; [reflexivity|]. cbn [append all_digits].
  now rewrite IH, andb_assoc.
Qed.

Lemma digits_val_app (a b : string) (acc : Z) :
  digits_val acc (a ++ b) = digits_val (digits_val acc a) b.
Proof. revert acc. induction a as [|x a IH]; intros acc; [reflexivity|]. cbn [append digits_val]. apply IH. Qed.

Lemma split_digits_app (ds : string) (c : ascii) (rest : string) :
  all_digits ds = true -> is_digit c = false ->
  split_digits (ds ++ String c rest) = (ds, String c rest).
Proof.
  intros Hd Hc. induction ds as [|x ds IH]; cbn [append split_digits].
  - now rewrite Hc.
  - cbn [all_digits] in Hd. apply andb_true_iff in Hd. destruct Hd as [Hx Hd].
    rewrite Hx, (IH Hd). reflexivity.
Qed.

(** ** Decimal digits *)

Lemma render_digits_spec (fuel : nat) (n : Z) (acc : string) :
  0 <= n < 10 ^ (Z.of_nat fuel + 1) ->
  exists ds, render_digits fuel n acc = (ds ++ acc)%string /\
    all_digits ds = true /\ ds <> EmptyString /\
    forall a, digits_val a ds = a * 10 ^ Z.of_nat (String.length ds) + n.
Proof.
  revert n acc. induction fuel as [|fuel IH]; intros n acc Hn.
  - cbn [render_digits]. change (10 ^ (Z.of_nat 0 + 1)) with 10 in Hn.
    exists (String (digit_char (n mod 10)) EmptyString).
    split; [reflexivity|]. split.
    { cbn [all_digits]. now rewrite is_digit_digit_char by apply mod10_digit. }
    split; [discriminate|]. intros a. cbn [digits_val String.length].
    rewrite digit_val_digit_char by apply mod10_digit.
    rewrite Z.mod_small by lia. change (10 ^ Z.of_nat 1) with 10. lia.
  - cbn [render_digits]. destruct (Z.ltb_spec n 10) as [Hlt|Hge].
    + exists (String (digit_char (n mod 10)) EmptyString).
      split; [reflexivity|]. split.
      { cbn [all_digits]. now rewrite is_digit_digit_char by apply mod10_digit. }
      split; [discriminate|]. intros a. cbn [digits_val String.length].
      rewrite digit_val_digit_char by apply mod10_digit.
      rewrite Z.mod_small by lia. change (10 ^ Z.of_nat 1) with 10. lia.
    + assert (Hn' : 0 <= n / 10 < 10 ^ (Z.of_nat fuel + 1)).
      { replace (Z.of_nat (S fuel) + 1) with (Z.of_nat fuel + 1 + 1) in Hn by lia.
        rewrite Z.pow_add_r in Hn by lia. change (10 ^ 1) with 10 in Hn.
        apply div_bounds; lia. }
      destruct (IH (n / 10) (String (digit_char (n mod 10)) acc) Hn')
        as (ds & Heq & Hall & Hne & Hval).
      exists (ds ++ String (digit_char (n mod 10)) EmptyString)%string.
      split; [rewrite Heq, sapp_assoc; reflexivity|]. split.
      { rewrite all_digits_app, Hall. cbn [all_digits].
        now rewrite is_digit_digit_char by apply mod10_digit. }
      split; [destruct ds; [contradiction|discriminate]|].
      intros a. rewrite digits_val_app, Hval. cbn [digits_val].
      rewrite digit_val_digit_char by apply mod10_digit.
      rewrite slength_app. cbn [String.length].
      replace (Z.of_nat (String.length ds + 1)) with (Z.of_nat (String.length ds) + 1) by lia.
      rewrite Z.pow_add_r by lia. change (10 ^ 1) with 10.
      pose proof (Z.div_mod n 10 ltac:(lia)). lia.
Qed.

Lemma render_nat_spec (n : Z) :
  0 <= n ->
  all_digits (render_nat n) = true /\ render_nat n <> EmptyString /\
  forall a, digits_val a (render_nat n) = a * 10 ^ Z.of_nat (String.length (render_nat n)) + n.
Proof.
  intros Hn. unfold render_nat.
  destruct (render_digits_spec (Z.to_nat (Z.log2 n)) n EmptyString) as (ds & Heq & H).
  - split; [lia|]. pose proof (Z.log2_nonneg n) as Hl.
    rewrite Z2Nat.id by lia.
    destruct (Z.eq_dec n 0) as [->|Hne]; [vm_compute; reflexivity|].
    destruct (Z.log2_spec n ltac:(lia)) as [_ Hu].
    replace (Z.succ (Z.log2 n)) with (Z.log2 n + 1) in Hu by lia.
    assert (2 ^ (Z.log2 n + 1) <= 10 ^ (Z.log2 n + 1)) by (apply Z.pow_le_mono_l; lia).
    lia.
  - rewrite sapp_nil_r in Heq. rewrite Heq. exact H.
Qed.

(** ** Formatting and reading back a whole number of centiseconds *)




(** The text of a tag: a sign, the digits of the integral part and the two
    digits of the fraction. *)
(** ** str.format on the templates of name_output *)

Lemma format_scan_plain (p t out : string) (x : float) :
  no_brace p = true ->
  format_scan (p ++ t) Txt out x = format_scan t Txt (out ++ p) x.
Proof.
  revert out. induction p as [|c p IH]; intros out Hp.
  - now rewrite sapp_nil_r.
  - unfold no_brace in Hp. cbn [has_char] in Hp.
    apply andb_true_iff in Hp. destruct Hp as [H1 H2].
    apply negb_true_iff, orb_false_iff in H1. apply negb_true_iff, orb_false_iff in H2.
    destruct H1 as [H1 H1']. destruct H2 as [H2 H2'].
    cbn [append format_scan]. rewrite H1, H2.
    rewrite IH by (unfold no_brace; now rewrite H1', H2').
    unfold snoc. now rewrite sapp_assoc.
Qed.

Lemma format_template (sg t : string) (x : float) :
  no_brace sg = true -> no_brace t = true ->
  py_format ("{{" ++ sg ++ "{0:.2f}_Sec}}_" ++ t) x
  = Ok ("{" ++ sg ++ fmt_2f x ++ "_Sec}_" ++ t)%string.
Proof.
  intros Hsg Ht. unfold py_format.
  change (format_scan ("{{" ++ sg ++ "{0:.2f}_Sec}}_" ++ t) Txt "" x)
    with (format_scan (sg ++ "{0:.2f}_Sec}}_" ++ t) Txt "{" x).
  rewrite format_scan_plain by assumption.
  change (format_scan ("{0:.2f}_Sec}}_" ++ t) Txt ("{" ++ sg) x)
    with (format_scan ("_Sec" ++ "}}_" ++ t) Txt (("{" ++ sg) ++ fmt_2f x) x).
  rewrite format_scan_plain by reflexivity.
  change (format_scan ("}}_" ++ t) Txt ((("{" ++ sg) ++ fmt_2f x) ++ "_Sec") x)
    with (format_scan ("_" ++ t) Txt (snoc ((("{" ++ sg) ++ fmt_2f x) ++ "_Sec") "}") x).
  rewrite format_scan_plain by reflexivity.
  replace t with (t ++ "")%string at 1 by apply sapp_nil_r.
  rewrite format_scan_plain by assumption.
  cbn [format_scan]. f_equal. unfold snoc.
  rewrite !sapp_assoc. reflexivity.
Qed.

(** ** The regular expressions on a tagged name *)

Lemma re_match_digits (r : list atom) (ds : string) (c : ascii) (rest : string) :
  all_digits ds = true -> ds <> EmptyString -> is_digit c = false ->
  re_match (Digits :: r) (ds ++ String c rest)
  = option_map (Nat.add (String.length ds)) (re_match r (String c rest)).
Proof.
  intros Hd Hne Hc. cbn [re_match]. rewrite split_digits_app by assumption.
  destruct ds; [contradiction|reflexivity].
Qed.

Lemma re_match_lit (r : list atom) (c : ascii) (s : string) :
  re_match (Lit c :: r) (String c s) = option_map S (re_match r s).
Proof. cbn [re_match]. now rewrite Ascii.eqb_refl. Qed.

Lemma re_match_sign (r : list atom) (c : ascii) (s : string) :
  is_sign c = true -> re_match (Sign :: r) (String c s) = option_map S (re_match r s).
Proof. intros H. cbn [re_match]. now rewrite H. Qed.

Section Tagged.
Variables (sg : ascii) (ip fp : string) (F : string).
Hypothesis Hsg : is_sign sg = true.
Hypothesis Hip : all_digits ip = true.
Hypothesis Hip' : ip <> EmptyString.
Hypothesis Hfp : all_digits fp = true.
Hypothesis Hfp' : fp <> EmptyString.

Lemma tag_text_app :
  (tag_text sg ip fp ++ F)%string
  = String "{" (String sg (ip ++ String "." (fp ++ String "_" ("Sec}_" ++ F)))).
Proof.
  unfold tag_text, tag_number. cbn [append]. rewrite !sapp_assoc. reflexivity.
Qed.

Lemma re_match_number_tail :
  re_match number_regex (String sg (ip ++ String "." (fp ++ String "_" ("Sec}_" ++ F))))
  = Some (String.length (tag_number sg ip fp)).
Proof.
  unfold number_regex. rewrite re_match_sign by assumption.
  rewrite re_match_digits by (auto; reflexivity).
  rewrite re_match_lit.
  rewrite re_match_digits by (auto; reflexivity).
  cbn [re_match option_map]. f_equal.
  unfold tag_number. cbn [String.length]. rewrite slength_app. cbn [String.length]. lia.
Qed.

Lemma re_match_proc :
  re_match proc_regex (tag_text sg ip fp ++ F) = Some (String.length (tag_text sg ip fp)).
Proof.
  rewrite tag_text_app. unfold proc_regex. cbn [app lits map list_ascii_of_string].
  rewrite re_match_lit, re_match_sign by assumption.
  rewrite re_match_digits by (auto; reflexivity).
  rewrite re_match_lit.
  rewrite re_match_digits by (auto; reflexivity).
  cbn [append]. rewrite !re_match_lit.
  cbn [re_match option_map]. f_equal.
  unfold tag_text, tag_number. cbn [append String.length].
  rewrite !slength_app. cbn [String.length]. lia.
Qed.

Lemma re_search_number :
  re_search number_regex (tag_text sg ip fp ++ F) O
  = Some (1%nat, String.length (tag_number sg ip fp)).
Proof.
  rewrite tag_text_app. cbn [re_search].
  assert (H0 : forall s, re_match number_regex (String "{" s) = None) by reflexivity.
  rewrite H0. now rewrite re_match_number_tail.
Qed.

Lemma tag_number_slice :
  substring 1 (String.length (tag_number sg ip fp)) (tag_text sg ip fp ++ F)
  = tag_number sg ip fp.
Proof.
  unfold tag_text. cbn [append substring]. rewrite sapp_assoc. apply substring_prefix.
Qed.

Lemma re_sub1_proc :
  re_sub1 proc_regex input_prefix (tag_text sg ip fp ++ F) = (input_prefix ++ F)%string.
Proof.
  unfold re_sub1.
  assert (Hs : re_search proc_regex (tag_text sg ip fp ++ F) O
               = Some (O, String.length (tag_text sg ip fp))).
  { destruct (tag_text sg ip fp ++ F)%string eqn:E; cbn [re_search];
      rewrite <- E, re_match_proc; reflexivity. }
  rewrite Hs. cbn [Nat.add]. rewrite drop_app.
  destruct (tag_text sg ip fp ++ F)%string; reflexivity.
Qed.

Lemma py_float_tag :
  py_float (tag_number sg ip fp)
  = Some (nearest (Ascii.eqb sg "-") (digits_val 0 (ip ++ fp))
                  (10 ^ Z.of_nat (String.length fp))).
Proof.
  unfold py_float, tag_number, strip_sign.
  assert (Hs : (if Ascii.eqb sg "+" then (false, (ip ++ String "." fp)%string)
                else if Ascii.eqb sg "-" then (true, (ip ++ String "." fp)%string)
                else (false, String sg (ip ++ String "." fp)))
               = (Ascii.eqb sg "-", (ip ++ String "." fp)%string)).
  { unfold is_sign in Hsg. destruct (Ascii.eqb_spec sg "+") as [->|]; [reflexivity|].
    cbn [orb] in Hsg. now rewrite Hsg. }
  rewrite Hs. rewrite split_digits_app by (auto; reflexivity).
  change (Ascii.eqb "." ".") with true. rewrite Hfp.
  destruct ip; [contradiction|]. destruct fp; [contradiction|]. reflexivity.
Qed.
End Tagged.

(** ** name_output *)

Lemma name_output_fresh (F : string) (x : float) :
  re_match proc_regex F = None -> no_brace F = true ->
  name_output F x = Ok (offset_tag x ++ F)%string.
Proof.
  intros Hfresh Hb. unfold name_output. rewrite Hfresh. unfold offset_tag.
  destruct (fl_geb x (float_of_Z 0)).
  - change ("{{+" ++ drop 2 (input_prefix ++ F))%string
      with ("{{" ++ "+" ++ "{0:.2f}_Sec}}_" ++ F)%string.
    rewrite format_template by (auto; reflexivity).
    f_equal. rewrite !sapp_assoc. reflexivity.
  - change (input_prefix ++ F)%string with ("{{" ++ "" ++ "{0:.2f}_Sec}}_" ++ F)%string.
    rewrite format_template by (auto; reflexivity).
    f_equal. rewrite !sapp_assoc. reflexivity.
Qed.

Lemma name_output_tagged (sg : ascii) (ip fp F : string) (x : float) :
  is_sign sg = true -> all_digits ip = true -> ip <> EmptyString ->
  all_digits fp = true -> fp <> EmptyString ->
  re_match proc_regex F = None ->
  name_output (tag_text sg ip fp ++ F) x
  = name_output F (fl_add (nearest (Ascii.eqb sg "-") (digits_val 0 (ip ++ fp))
                                   (10 ^ Z.of_nat (String.length fp))) x).
Proof.
  intros Hsg Hip Hip' Hfp Hfp' Hfresh.
  unfold name_output at 1.
  rewrite re_match_proc, re_search_number, tag_number_slice, py_float_tag, re_sub1_proc
    by assumption.
  unfold name_output. rewrite Hfresh. reflexivity.
Qed.


(** ** What process_time returns *)
Lemma stamp_us_nonneg (h m s f : Z) :
  valid_fields h m s f -> 0 <= stamp_us h m s f < 400000000000.
Proof. unfold valid_fields, stamp_us, us_per_hour, us_per_minute. lia. Qed.

Lemma format_time_head (x : float) (r : string) :
  format_time x = Some r -> exists c r', r = String c r' /\ c <> "("%char.
Proof.
  unfold format_time, bind.
  destruct (int_of_float (py_floordiv x 3600)) as [h|]; [|discriminate].
  destruct (int_of_float (py_floordiv (py_mod x 3600) 60)) as [m|]; [|discriminate].
  destruct (fmt_02d_head h) as (c & r' & -> & Hc).
  intros [= <-]. cbn [append]. eexists; eexists; split; [reflexivity|].
  destruct Hc as [->|Hc]; [discriminate|]. intros ->. discriminate.
Qed.

(** What [process_time] returns is the marker or starts like a number. *)
Lemma process_time_head (t : string) (S : float) (r : string) :
  process_time t S = Some r ->
  r = DELETED \/ exists c r', r = String c r' /\ c <> "("%char.
Proof.
  unfold process_time, bind.
  destruct (py_int2 (py_slice 0 2 t)); [|discriminate].
  destruct (py_int2 (py_slice 3 5 t)); [|discriminate].
  destruct (py_float (py_slice 6 12 t)); [|discriminate].
  destruct (timedelta_hms z z0 f); [|discriminate].
  destruct (timedelta_seconds S); [|discriminate].
  destruct (timedelta_add z1 z2); [|discriminate].
  destruct (fl_geb (total_seconds z3) (float_of_Z 0)).
  - intros H. right. now apply (format_time_head _ _ H).
  - intros [= <-]. now left.
Qed.

(** ** process_time for any offset *)

Lemma fmt_06_3f_round (M2 E : Z) :
  0 <= E -> 0 <= M2 <= 60 * 2 ^ E ->
  0 <= round_half_even (M2 * 1000) (2 ^ E) <= 60000 /\
  fmt_06_3f (Ffin false M2 (- E))
  = (fixed_digits 2 (round_half_even (M2 * 1000) (2 ^ E) / 1000)
     ++ String "." (fixed_digits 3 (round_half_even (M2 * 1000) (2 ^ E) mod 1000)))%string.
Proof.
  intros HE HM. pose proof (pow2_pos E HE) as HP.
  set (n := round_half_even (M2 * 1000) (2 ^ E)).
  assert (Hn : 0 <= n <= 60000).
  { split; [apply rhe_ge|apply rhe_le]; lia. }
  split; [exact Hn|].
  unfold fmt_06_3f, fmt_fixed. rewrite fnum_neg, fden_neg by lia.
  change (10 ^ Z.of_nat 3) with 1000. fold n.
  cbn [sign_str String.length Nat.sub append].
  apply pad_seconds. apply div_bounds; lia.
Qed.

Lemma format_time_rounds (us : Z) :
  0 <= us < 1000000 * 2 ^ 33 ->
  exists H Mi n,
    format_time (total_seconds us)
    = Some (fmt_02d H ++ ":" ++ fixed_digits 2 Mi ++ ":" ++ fixed_digits 2 (n / 1000)
            ++ String "." (fixed_digits 3 (n mod 1000)))%string /\
    0 <= H /\ 0 <= Mi < 60 /\ 0 <= n <= 60000 /\
    Z.abs (1000 * (3600000 * H + 60000 * Mi + n) - us) <= 500.
Proof.
  intros Hus. destruct (Z.eq_dec us 0) as [->|Hne].
  { exists 0, 0, 0. split; [vm_compute; reflexivity|]. lia. }
  unfold total_seconds, nearest_signed, us_per_second.
  destruct (Z.eqb_spec us 0); [lia|].
  destruct (Z.ltb_spec us 0); [lia|]. rewrite Z.abs_eq by lia.
  destruct (nearest_fin false us 1000000 20) as (E & HE & -> & _); try lia.
  set (M := round_half_even (us * 2 ^ E) 1000000).
  pose proof (rhe_bounds (us * 2 ^ E) 1000000 ltac:(lia)) as HM. fold M in HM.
  assert (HP : 2 ^ 20 <= 2 ^ E) by (apply pow2_le; lia).
  set (P := 2 ^ E) in *.
  assert (HM0 : 0 <= M) by (apply rhe_ge; [lia|]; nia).
  assert (HMlt : M < 2 ^ 53 * P).
  { assert (M <= 2 ^ 33 * P) by (apply rhe_le; [lia|]; nia). lia. }
  rewrite (format_time_nonneg M E) by lia. fold P.
  pose proof (Z.div_mod M (3600 * P) ltac:(lia)) as D1.
  pose proof (Z.mod_pos_bound M (3600 * P) ltac:(lia)) as B1.
  pose proof (Z.div_mod (M mod (3600 * P)) (60 * P) ltac:(lia)) as D2.
  pose proof (Z.mod_pos_bound (M mod (3600 * P)) (60 * P) ltac:(lia)) as B2.
  assert (Hmm : (M mod (3600 * P)) mod (60 * P) = M mod (60 * P)).
  { replace (3600 * P) with (60 * (60 * P)) by ring. apply mod_mod_mul; lia. }
  rewrite Hmm in D2, B2.
  set (Hr := M / (3600 * P)) in *. set (M1 := M mod (3600 * P)) in *.
  set (Mi := M1 / (60 * P)) in *. set (M2 := M mod (60 * P)) in *.
  assert (HH : 0 <= Hr) by (apply Z.div_pos; lia).
  assert (HMi : 0 <= Mi < 60) by (apply div_bounds; lia).
  destruct (fmt_06_3f_round M2 E ltac:(lia) ltac:(fold P; lia)) as (Hn & Hfmt).
  fold P in Hn, Hfmt. rewrite Hfmt.
  pose proof (rhe_bounds (M2 * 1000) P ltac:(lia)) as Hnb.
  set (ms := round_half_even (M2 * 1000) P) in *.
  exists Hr, Mi, ms.
  rewrite (fmt_02d_fixed Mi) by lia.
  split; [reflexivity|]. split; [exact HH|]. split; [exact HMi|]. split; [exact Hn|].
  set (X := 1000 * (3600000 * Hr + 60000 * Mi + ms) - us).
  assert (HX : 2 * (P * X) = (2 * (M * 1000000 - us * P)) + 1000 * (2 * (ms * P - M2 * 1000))).
  { unfold X. rewrite D1 at 1. rewrite D2. ring. }
  assert (HPX : -1000 * P - 1000000 <= 2 * (P * X) <= 1000 * P + 1000000) by lia.
  change (2 ^ 20) with 1048576 in HP.
  destruct (Z_le_gt_dec (Z.abs X) 500) as [|Hbig]; [assumption|exfalso].
  assert (501 * P <= P * Z.abs X) by nia.
  assert (P * Z.abs X = Z.abs (P * X)) by (rewrite Z.abs_mul, (Z.abs_eq P); lia).
  lia.
Qed.

(** ** process_line and what follows the end time *)

Lemma is_match_stamp (sep : ascii) (h m s f : Z) (rest : string) :
  is_match (time_line sep) (stamp sep h m s f ++ rest) = true.
Proof.
  unfold stamp. rewrite !fixed_digits_2, !fixed_digits_3.
  cbn [append]. unfold is_match, time_line. cbn [re_match].
  rewrite !(fun x => is_digit_digit_char _ (mod10_digit x)).
  change (Ascii.eqb ":" ":") with true. rewrite Ascii.eqb_refl.
  cbn [option_map]. reflexivity.
Qed.

Lemma step_range_line (fmt : subtitle_format) (S : float) (st : conv)
      (h1 m1 s1 f1 h2 m2 s2 f2 : Z) (rest : string) :
  step fmt S st (range_line (separator fmt) h1 m1 s1 f1 h2 m2 s2 f2 rest) =
    match process_time (stamp "." h1 m1 s1 f1) S, process_time (stamp "." h2 m2 s2 f2) S with
    | Some a, Some b =>
        if String.eqb a DELETED then
          if String.eqb b DELETED
          then Some (mkConv (deleted_subs st + 1) true (written st ++ [DELETED]))
          else Some (mkConv (deleted_subs st) (skip st)
                       (written st ++ [from_canonical fmt ("00:00:00.000 --> " ++ b ++ LF)]))
        else Some (mkConv (deleted_subs st) (skip st)
                     (written st ++ [from_canonical fmt (a ++ " --> " ++ b ++ LF)]))
    | _, _ => None
    end.
Proof.
  rewrite step_time_line by apply is_match_range_line.
  rewrite to_canonical_range_line, process_line_range.
  destruct (process_time (stamp "." h1 m1 s1 f1) S) as [a|] eqn:Ha; [|reflexivity].
  destruct (process_time (stamp "." h2 m2 s2 f2) S) as [b|] eqn:Hb; [|reflexivity].
  destruct (String.eqb_spec a DELETED) as [->|Hna].
  - destruct (String.eqb_spec b DELETED) as [->|Hnb].
    + now rewrite String.eqb_refl.
    + change (String.eqb ("00:00:00.000 --> " ++ b ++ LF) DELETED) with false. reflexivity.
  - assert (Hne : (a ++ " --> " ++ b ++ LF)%string <> DELETED).
    { destruct (process_time_head _ _ _ Ha) as [|(c & a' & -> & Hc)]; [contradiction|].
      cbn [append]. intros [= Hbad _]. now apply Hc. }
    destruct (String.eqb_spec (a ++ " --> " ++ b ++ LF) DELETED); [contradiction|reflexivity].
Qed.

(** ** timedelta(seconds=x) for every finite x *)

Lemma binade_high (a b : Z) :
  0 < a -> 0 < b ->
  a * 2 ^ Z.max 0 (- binade a b) < 2 * (b * 2 ^ Z.max 0 (binade a b)).
Proof.
  intros Ha Hb. unfold binade.
  set (t := Z.log2 a - Z.log2 b).
  destruct (Z.log2_spec a Ha) as [La Ua].
  destruct (Z.log2_spec b Hb) as [Lb Ub].
  pose proof (Z.log2_nonneg a) as Na. pose proof (Z.log2_nonneg b) as Nb.
  replace (Z.succ (Z.log2 a)) with (Z.log2 a + 1) in Ua by lia.
  rewrite pow2_add in Ua by lia. change (2 ^ 1) with 2 in Ua.
  destruct (Z.leb_spec (Z.shiftl b (Z.max 0 t)) (Z.shiftl a (Z.max 0 (- t)))) as [_|H].
  - destruct (Z_le_gt_dec 0 t) as [Ht|Ht].
    + replace (Z.max 0 t) with t by lia. replace (Z.max 0 (- t)) with 0 by lia.
      assert (E : 2 ^ Z.log2 a = 2 ^ Z.log2 b * 2 ^ t).
      { rewrite <- pow2_add by lia. f_equal. unfold t. lia. }
      pose proof (pow2_pos t Ht). rewrite Z.pow_0_r. nia.
    + replace (Z.max 0 t) with 0 by lia. replace (Z.max 0 (- t)) with (- t) by lia.
      assert (E : 2 ^ Z.log2 b = 2 ^ Z.log2 a * 2 ^ (- t)).
      { rewrite <- pow2_add by lia. f_equal. unfold t. lia. }
      pose proof (pow2_pos (- t) ltac:(lia)). rewrite Z.pow_0_r. nia.
  - rewrite !shiftl_pow in H by lia.
    destruct (Z_le_gt_dec 1 t) as [Ht|Ht].
    + replace (Z.max 0 t) with t in H by lia. replace (Z.max 0 (- t)) with 0 in H by lia.
      replace (Z.max 0 (t - 1)) with (t - 1) by lia.
      replace (Z.max 0 (- (t - 1))) with 0 by lia.
      assert (E : 2 ^ t = 2 * 2 ^ (t - 1)).
      { replace t with (1 + (t - 1)) at 1 by lia. rewrite pow2_add by lia. reflexivity. }
      rewrite Z.pow_0_r in *. lia.
    + replace (Z.max 0 t) with 0 in H by lia. replace (Z.max 0 (- t)) with (- t) in H by lia.
      replace (Z.max 0 (t - 1)) with 0 by lia.
      replace (Z.max 0 (- (t - 1))) with (1 + - t) by lia.
      rewrite pow2_add by lia. change (2 ^ 1) with 2. rewrite Z.pow_0_r in *. lia.
Qed.

Lemma nearest_mantissa (neg neg' : bool) (a b m e : Z) :
  0 < a -> 0 < b -> nearest neg a b = Ffin neg' m e -> m <= 2 ^ 53.
Proof.
  intros Ha Hb. unfold nearest.
  destruct (Z.eqb_spec a 0) as [|_]; [lia|].
  pose proof (binade_low a b Ha Hb) as LP. pose proof (binade_high a b Ha Hb) as HP.
  set (L := binade a b) in *. set (e0 := Z.max emin (L - 52)).
  destruct (1024 <=? _); [discriminate|]. intros [= _ <- _].
  rewrite !shiftl_pow by lia.
  apply rhe_le; [pose proof (pow2_pos (Z.max 0 e0) ltac:(lia)); nia|].
  assert (He0 : L - 52 <= e0) by (unfold e0; lia).
  assert (He1 : e0 = L - 52 \/ (e0 = emin /\ L - 52 < emin)) by (unfold e0; lia).
  clearbody e0. unfold emin in *.
  destruct (Z_le_gt_dec 0 L) as [HL|HL].
  - replace (Z.max 0 L) with L in HP by lia. replace (Z.max 0 (- L)) with 0 in HP by lia.
    rewrite Z.pow_0_r, Z.mul_1_r in HP.
    assert (e0 = L - 52) by lia. subst e0.
    pose proof (pow2_pos L HL).
    destruct (Z_le_gt_dec 52 L) as [H52|H52].
    + replace (Z.max 0 (- (L - 52))) with 0 by lia.
      replace (Z.max 0 (L - 52)) with (L - 52) by lia.
      assert (2 ^ L = 2 ^ 52 * 2 ^ (L - 52)) by (apply pow2_split; lia).
      pose proof (pow2_pos (L - 52) ltac:(lia)). rewrite Z.pow_0_r. nia.
    + replace (Z.max 0 (- (L - 52))) with (52 - L) by lia.
      replace (Z.max 0 (L - 52)) with 0 by lia.
      assert (2 ^ 52 = 2 ^ L * 2 ^ (52 - L)) by (apply pow2_split; lia).
      pose proof (pow2_pos (52 - L) ltac:(lia)). rewrite Z.pow_0_r. nia.
  - replace (Z.max 0 L) with 0 in HP by lia. replace (Z.max 0 (- L)) with (- L) in HP by lia.
    rewrite Z.pow_0_r, Z.mul_1_r in HP.
    replace (Z.max 0 e0) with 0 by lia. replace (Z.max 0 (- e0)) with (- e0) by lia.
    assert (Hle : 2 ^ (- e0) <= 2 ^ (52 - L)) by (apply pow2_le; lia).
    assert (Hs : 2 ^ (52 - L) = 2 ^ 52 * 2 ^ (- L)).
    { replace (52 - L) with (52 + - L) by lia. apply pow2_add; lia. }
    pose proof (pow2_pos (- L) ltac:(lia)). pose proof (pow2_pos (- e0) ltac:(lia)).
    rewrite Z.pow_0_r. nia.
Qed.

(** A fraction [l / 2^k] below one with at most 53 significant bits is a
    float. *)
Lemma nearest_below_one (neg : bool) (l k : Z) :
  0 <= k <= 1074 -> 0 < l < 2 ^ k -> l <= 2 ^ 53 ->
  exists E M, 0 <= E <= 1074 /\ nearest neg l (2 ^ k) = Ffin neg M (- E) /\
              M * 2 ^ k = l * 2 ^ E /\ 0 < M <= 2 ^ 53.
Proof.
  intros Hk Hl H53. pose proof (pow2_pos k ltac:(lia)) as HP.
  assert (Hk1 : 1 <= k).
  { destruct (Z.eq_dec k 0) as [->|]; [change (2 ^ 0) with 1 in Hl|]; lia. }
  assert (Hk2 : 2 ^ k = 2 * 2 ^ (k - 1)).
  { replace k with (1 + (k - 1)) at 1 by lia. now rewrite pow2_add by lia. }
  pose proof (pow2_pos (k - 1) ltac:(lia)) as HP1.
  destruct (nearest_fin neg l (2 ^ k) (k - 1)) as (E & HE & Heq & _); try lia.
  { change (2 ^ 53) with (2 * 2 ^ 52). nia. }
  exists E, (round_half_even (l * 2 ^ E) (2 ^ k)).
  split; [lia|]. split; [exact Heq|].
  pose proof (nearest_mantissa neg neg l (2 ^ k) _ _ ltac:(lia) HP Heq) as Hm.
  assert (Hex : round_half_even (l * 2 ^ E) (2 ^ k) * 2 ^ k = l * 2 ^ E).
  { destruct (Z_le_gt_dec k E) as [HkE|HkE].
    - rewrite (pow2_split k E) by lia.
      replace (l * (2 ^ k * 2 ^ (E - k))) with (l * 2 ^ (E - k) * 2 ^ k) by ring.
      rewrite rhe_exact by assumption. reflexivity.
    - assert (E = k - 1) by lia. subst E.
      destruct (Z.eq_dec l (2 ^ 53)) as [->|Hne].
      + replace (2 ^ 53 * 2 ^ (k - 1)) with (2 ^ 52 * 2 ^ k)
          by (rewrite Hk2; change (2 ^ 53) with (2 * 2 ^ 52); ring).
        rewrite rhe_exact by assumption. reflexivity.
      + exfalso.
        destruct (nearest_fin neg l (2 ^ k) k) as (E' & HE' & Heq' & _); try lia.
        { assert (l < 2 ^ 53) by lia. nia. }
        rewrite Heq in Heq'. injection Heq' as _ HEE. lia. }
  split; [exact Hex|]. split; [|exact Hm].
  pose proof (pow2_pos E ltac:(lia)). nia.
Qed.

Lemma nearest_half (neg : bool) (k : Z) :
  1 <= k -> nearest neg (2 ^ (k - 1)) (2 ^ k) = Ffin neg (2 ^ 52) (-53).
Proof.
  intros Hk. pose proof (pow2_pos (k - 1) ltac:(lia)) as HP1.
  pose proof (pow2_pos k ltac:(lia)) as HP.
  assert (Hk2 : 2 ^ k = 2 * 2 ^ (k - 1)).
  { replace k with (1 + (k - 1)) at 1 by lia. now rewrite pow2_add by lia. }
  unfold nearest. destruct (Z.eqb_spec (2 ^ (k - 1)) 0) as [|_]; [lia|].
  assert (HB : binade (2 ^ (k - 1)) (2 ^ k) = -1).
  { unfold binade. rewrite !Z.log2_pow2 by lia.
    replace (k - 1 - k) with (-1) by lia. cbn [Z.max Z.opp Z.compare].
    change (Z.max 0 (-1)) with 0. change (Z.max 0 1) with 1.
    rewrite !shiftl_pow by lia. change (2 ^ 0) with 1. change (2 ^ 1) with 2.
    destruct (Z.leb_spec (2 ^ k * 1) (2 ^ (k - 1) * 2)); [reflexivity|lia]. }
  rewrite HB. change (Z.max emin (-1 - 52)) with (-53).
  change (Z.max 0 (- -53)) with 53. change (Z.max 0 (-53)) with 0.
  rewrite !shiftl_pow by lia. change (2 ^ 0) with 1. rewrite Z.mul_1_r.
  replace (2 ^ (k - 1) * 2 ^ 53) with (2 ^ 52 * 2 ^ k)
    by (rewrite Hk2; change (2 ^ 53) with (2 * 2 ^ 52); ring).
  rewrite rhe_exact by assumption. reflexivity.
Qed.

(** The test for a tie in [round_leftover]. *)
Lemma tie_test (neg : bool) (w M E : Z) :
  0 <= E <= 1074 -> 0 < M < 2 ^ E -> M <= 2 ^ 53 -> (w = 0 \/ (w = 1 /\ 2 ^ E <= 2 * M)) ->
  fl_eqb (fl_abs (fl_sub (Ffin neg w 0) (Ffin neg M (- E)))) fl_half
  = (2 * M =? 2 ^ E).
Proof.
  intros HE HM H53 Hw. unfold fl_sub, fl_opp, fl_add.
  rewrite fnum_0, fden_0, fnum_neg, fden_neg by lia.
  pose proof (pow2_pos E ltac:(lia)) as HP.
  replace (sgn neg w * 2 ^ E + sgn (negb neg) M * 1) with (sgn neg (w * 2 ^ E - M))
    by (destruct neg; simpl; ring).
  rewrite Z.mul_1_l.
  set (D := w * 2 ^ E - M).
  assert (HD : 0 < Z.abs D < 2 ^ E /\ Z.abs D <= 2 ^ 53 /\
               (2 * Z.abs D = 2 ^ E <-> 2 * M = 2 ^ E)).
  { unfold D. destruct Hw as [->|[-> Hge]]; [|change (2 ^ 53) with 9007199254740992 in *]; lia. }
  destruct HD as (HD1 & HD2 & HD3).
  unfold nearest_signed.
  destruct (Z.eqb_spec (sgn neg D) 0) as [H0|_]; [apply sgn_zero_iff in H0; lia|].
  replace (Z.abs (sgn neg D)) with (Z.abs D) by (destruct neg; unfold sgn; lia).
  destruct (nearest_below_one (sgn neg D <? 0) (Z.abs D) E HE HD1 HD2)
    as (E4 & M4 & HE4 & -> & Hex & HM4).
  unfold fl_abs, fl_eqb, fl_compare, fl_half.
  rewrite fnum_neg, fden_neg by lia.
  change (fden (-1)) with 2. change (fnum 1 (-1)) with 1. unfold sgn.
  pose proof (pow2_pos E4 ltac:(lia)) as HP4.
  destruct (Z.compare_spec (M4 * 2) (1 * 2 ^ E4)) as [Hc|Hc|Hc];
    destruct (Z.eqb_spec (2 * M) (2 ^ E)) as [He|He]; try reflexivity; exfalso.
  - apply He, HD3. nia.
  - apply HD3 in He. nia.
  - apply HD3 in He. nia.
Qed.

Lemma round_leftover_half (neg : bool) (x : Z) :
  exists w, (w = 0 \/ w = 1) /\
    round_leftover x (Ffin neg (2 ^ 52) (-53)) = Some (x + sgn neg w).
Proof.
  assert (Hland : Z.land x 1 = 0 \/ Z.land x 1 = 1).
  { assert (Hm : Z.land x 1 = x mod 2) by (apply (Z.land_ones x 1); lia).
    pose proof (Z.mod_pos_bound x 2 ltac:(lia)). lia. }
  unfold round_leftover.
  destruct Hland as [-> | ->]; destruct neg.
  - exists 0. split; [now left|]. vm_compute fl_eqb. cbv iota zeta.
    vm_compute fl_eqb. cbv iota. vm_compute int_of_float. reflexivity.
  - exists 0. split; [now left|]. vm_compute fl_eqb. cbv iota zeta.
    vm_compute fl_eqb. cbv iota. vm_compute int_of_float. reflexivity.
  - exists 1. split; [now right|]. vm_compute fl_eqb. cbv iota zeta.
    vm_compute fl_eqb. cbv iota. vm_compute int_of_float. reflexivity.
  - exists 1. split; [now right|]. vm_compute fl_eqb. cbv iota zeta.
    vm_compute fl_eqb. cbv iota. vm_compute int_of_float. reflexivity.
Qed.

Lemma round_leftover_any (neg : bool) (x l k : Z) :
  0 <= k <= 1074 -> 0 < l < 2 ^ k -> l <= 2 ^ 53 ->
  exists w, (w = 0 \/ w = 1) /\
    round_leftover x (nearest neg l (2 ^ k)) = Some (x + sgn neg w) /\
    2 * Z.abs (w * 2 ^ k - l) <= 2 ^ k.
Proof.
  intros Hk Hl H53. pose proof (pow2_pos k ltac:(lia)) as HP.
  destruct (Z.eq_dec (2 * l) (2 ^ k)) as [Htie|Hnt].
  - assert (Hk1 : 1 <= k).
    { destruct (Z.eq_dec k 0) as [->|]; [change (2 ^ 0) with 1 in Hl|]; lia. }
    assert (Hk2 : 2 ^ k = 2 * 2 ^ (k - 1)).
    { replace k with (1 + (k - 1)) at 1 by lia. now rewrite pow2_add by lia. }
    assert (Hl2 : l = 2 ^ (k - 1)) by lia.
    destruct (round_leftover_half neg x) as (w & Hw & Hr).
    exists w. split; [exact Hw|]. split.
    + rewrite Hl2 at 1. now rewrite nearest_half.
    + destruct Hw as [-> | ->]; lia.
  - destruct (nearest_below_one neg l k Hk Hl H53) as (E & M & HE & Heq & Hex & HM).
    pose proof (pow2_pos E ltac:(lia)) as HPE.
    assert (HME : M < 2 ^ E) by nia.
    assert (Hnt' : 2 * M <> 2 ^ E) by nia.
    rewrite Heq. unfold round_leftover.
    rewrite fl_eqb_zero. destruct (Z.eqb_spec M 0) as [|_]; [lia|].
    cbv zeta. rewrite (c_round_neg_exp neg M E) by lia.
    set (w := (2 * M + 2 ^ E) / (2 * 2 ^ E)).
    assert (Hw : (w = 0 /\ 2 * M < 2 ^ E) \/ (w = 1 /\ 2 ^ E < 2 * M)).
    { destruct (Z_lt_ge_dec (2 * M) (2 ^ E)) as [Hlt|Hge].
      - left. split; [|exact Hlt]. unfold w. apply Z.div_small. lia.
      - right. split; [|lia]. unfold w. symmetry.
        apply (Z.div_unique _ _ 1 (2 * M + 2 ^ E - 2 * 2 ^ E)); [left; lia|ring]. }
    assert (Hw' : w = 0 \/ (w = 1 /\ 2 ^ E <= 2 * M)) by lia.
    rewrite (tie_test neg w M E ltac:(lia) ltac:(lia) ltac:(lia) Hw').
    destruct (Z.eqb_spec (2 * M) (2 ^ E)) as [|_]; [contradiction|].
    rewrite int_of_float_int.
    exists w. split; [destruct Hw as [[-> _]|[-> _]]; auto|]. split; [reflexivity|].
    destruct Hw as [[-> Hlt]|[-> Hgt]].
    + rewrite Z.mul_0_l, Z.sub_0_l, Z.abs_opp, Z.abs_eq by lia. nia.
    + rewrite Z.mul_1_l, Z.abs_eq by lia. nia.
Qed.

Lemma timedelta_seconds_frac (s : bool) (M E : Z) :
  0 <= E -> 0 <= M < 2 ^ 33 * 2 ^ E ->
  exists d, timedelta_seconds (Ffin s M (- E)) = Some d /\
            Z.abs (d * 2 ^ E - sgn s (1000000 * M)) < 2 ^ E.
Proof.
  intros HE HM. pose proof (pow2_pos E HE) as HP. set (P := 2 ^ E) in *.
  pose proof (Z.div_mod M P ltac:(lia)) as Hdm.
  pose proof (Z.mod_pos_bound M P ltac:(lia)) as Hr.
  assert (Hq : 0 <= M / P < 2 ^ 33) by (apply div_bounds; lia).
  unfold timedelta_seconds, accum_float. rewrite (modf_neg_exp s M E) by lia. fold P.
  set (q := M / P) in *. set (r := M mod P) in *.
  rewrite int_of_float_int, fl_eqb_zero.
  change (2 ^ 33) with 8589934592 in *.
  destruct (Z.eqb_spec r 0) as [Hz|Hz].
  - unfold round_leftover. change (fl_eqb fl_zero fl_zero) with true. cbv iota.
    rewrite microseconds_to_delta_in
      by (unfold min_us, max_us, us_per_second; destruct s; unfold sgn; lia).
    eexists; split; [reflexivity|].
    replace ((0 + sgn s q * us_per_second) * P - sgn s (1000000 * M)) with 0
      by (unfold us_per_second; destruct s; unfold sgn; nia).
    simpl Z.abs. lia.
  - change (float_of_Z us_per_second) with (Ffin false 1000000 0).
    unfold fl_mul. rewrite fnum_0, fden_0, fnum_neg, fden_neg by lia. fold P.
    simpl xorb.
    destruct (nearest_fin s (1000000 * r) (1 * P) 33) as (E2 & HE2 & Heq2 & _); try lia.
    pose proof (nearest_mantissa s s (1000000 * r) (1 * P) _ _ ltac:(lia) ltac:(lia) Heq2)
      as HM2le.
    rewrite Heq2.
    pose proof (rhe_bounds (1000000 * r * 2 ^ E2) (1 * P) ltac:(lia)) as HM2.
    assert (HP2 : 2 ^ 33 <= 2 ^ E2) by (apply pow2_le; lia).
    change (2 ^ 33) with 8589934592 in HP2.
    set (P2 := 2 ^ E2) in *.
    assert (HM20 : 0 <= round_half_even (1000000 * r * P2) (1 * P)).
    { apply rhe_ge; [lia|nia]. }
    assert (HM2u : round_half_even (1000000 * r * P2) (1 * P) <= 1000000 * P2).
    { apply rhe_le; [lia|nia]. }
    set (M2 := round_half_even (1000000 * r * P2) (1 * P)) in *.
    rewrite (modf_neg_exp s M2 E2) by lia.
    rewrite int_of_float_int, fl_add_zero_l by lia. fold P2.
    pose proof (Z.div_mod M2 P2 ltac:(lia)) as Hdm2.
    pose proof (Z.mod_pos_bound M2 P2 ltac:(lia)) as Hl.
    assert (Hq2 : 0 <= M2 / P2 <= 1000000).
    { split; [apply Z.div_pos; lia|]. apply Z.div_le_upper_bound; lia. }
    assert (Hlm : M2 mod P2 <= M2) by (apply Z.mod_le; lia).
    set (q2 := M2 / P2) in *. set (l := M2 mod P2) in *.
    assert (Hfin : forall w, (w = 0 \/ w = 1) -> 2 * Z.abs (w * P2 - l) <= P2 ->
              exists d, microseconds_to_delta (0 + sgn s q * us_per_second + sgn s q2 + sgn s w)
                        = Some d /\
                        Z.abs (d * P - sgn s (1000000 * M)) < P).
    { intros w Hw Hb.
      rewrite microseconds_to_delta_in
        by (unfold min_us, max_us, us_per_second; destruct s; unfold sgn; lia).
      eexists; split; [reflexivity|].
      set (X := (q * 1000000 + q2 + w) * P - 1000000 * M).
      replace ((0 + sgn s q * us_per_second + sgn s q2 + sgn s w) * P - sgn s (1000000 * M))
        with (sgn s X) by (unfold X, us_per_second; destruct s; unfold sgn; ring).
      replace (Z.abs (sgn s X)) with (Z.abs X) by (destruct s; unfold sgn; lia).
      assert (HX : 2 * (P2 * X)
                   = 2 * (M2 * (1 * P) - 1000000 * r * P2) + 2 * (w * P2 - l) * P).
      { unfold X. rewrite Hdm at 1. rewrite Hdm2. ring. }
      assert (HX2 : Z.abs (2 * (P2 * X)) <= P + P2 * P).
      { rewrite HX.
        assert (Z.abs (2 * (w * P2 - l) * P) <= P2 * P).
        { rewrite Z.abs_mul, (Z.abs_eq P) by lia.
          replace (Z.abs (2 * (w * P2 - l))) with (2 * Z.abs (w * P2 - l)) by lia.
          apply Z.mul_le_mono_nonneg_r; lia. }
        lia. }
      destruct (Z_lt_ge_dec (Z.abs X) P) as [|Hbig]; [assumption|exfalso].
      assert (P2 * P <= P2 * Z.abs X) by (apply Z.mul_le_mono_nonneg_l; lia).
      assert (Z.abs (2 * (P2 * X)) = 2 * (P2 * Z.abs X)).
      { rewrite !Z.abs_mul, (Z.abs_eq P2), (Z.abs_eq 2) by lia. reflexivity. }
      assert (8589934592 * P <= P2 * P) by (apply Z.mul_le_mono_nonneg_r; lia).
      lia. }
    destruct (Z.eq_dec l 0) as [Hl0|Hl0].
    + rewrite Hl0.
      replace (nearest_signed false (sgn s 0) P2) with (Ffin false 0 emin)
        by (destruct s; reflexivity).
      unfold round_leftover. rewrite fl_eqb_zero. simpl (0 =? 0). cbv iota.
      destruct (Hfin 0 ltac:(now left) ltac:(lia)) as (d & Hd & Hacc).
      replace (sgn s 0) with 0 in Hd by (destruct s; reflexivity).
      rewrite Z.add_0_r in Hd. rewrite Hd. now exists d.
    + rewrite (nearest_signed_sgn false s l P2) by lia.
      destruct (round_leftover_any s (0 + sgn s q * us_per_second + sgn s q2) l E2
                  ltac:(lia) ltac:(fold P2; lia) ltac:(lia)) as (w & Hw & Hrl & Hb).
      fold P2 in Hrl, Hb. rewrite Hrl.
      destruct (Hfin w Hw Hb) as (d & Hd & Hacc). rewrite Hd. now exists d.
Qed.

Lemma timedelta_seconds_finite (s : bool) (m e : Z) :
  0 <= m -> fnum m e < 2 ^ 33 * fden e ->
  exists d, timedelta_seconds (Ffin s m e) = Some d /\
            Z.abs (d * fden e - sgn s (1000000 * fnum m e)) < fden e.
Proof.
  intros Hm Hlt. destruct (Z_le_gt_dec e 0) as [He|He].
  - replace e with (- - e) in * by lia.
    rewrite fnum_neg, fden_neg in * by lia.
    apply timedelta_seconds_frac; lia.
  - assert (Hd : fden e = 1) by (unfold fden; replace (Z.max 0 (- e)) with 0 by lia; reflexivity).
    rewrite Hd in *. pose proof (fnum_nonneg m e Hm) as Hn.
    unfold timedelta_seconds, accum_float, modf. rewrite Hd.
    rewrite Z.mod_1_r, Z.div_1_r, int_of_float_int, fl_eqb_zero. simpl (0 =? 0). cbv iota.
    unfold round_leftover. change (fl_eqb fl_zero fl_zero) with true. cbv iota.
    change (2 ^ 33) with 8589934592 in *.
    rewrite microseconds_to_delta_in
      by (unfold min_us, max_us, us_per_second; destruct s; unfold sgn; lia).
    eexists; split; [reflexivity|].
    replace ((0 + sgn s (fnum m e) * us_per_second) * 1 - sgn s (1000000 * fnum m e)) with 0
      by (unfold us_per_second; destruct s; unfold sgn; ring).
    simpl Z.abs. lia.
Qed.

(** ** process_time on a finite offset *)

Lemma process_time_finite (h m s f : Z) (neg : bool) (M e : Z) :
  0 <= h < 100 -> 0 <= m < 100 -> 0 <= s < 100 -> 0 <= f < 1000 ->
  0 <= M -> fnum M e < 2 ^ 32 * fden e ->
  exists d r,
    timedelta_seconds (Ffin neg M e) = Some d /\
    Z.abs (d * fden e - sgn neg (1000000 * fnum M e)) < fden e /\
    process_time (stamp "." h m s f) (Ffin neg M e) = Some r /\
    (r = DELETED <-> stamp_us h m s f + d < 0).
Proof.
  intros Hh Hm Hs Hf HM Hlt.
  pose proof (fden_pos e) as HD. pose proof (fnum_nonneg M e HM) as HN.
  change (2 ^ 32) with 4294967296 in Hlt.
  destruct (timedelta_seconds_finite neg M e HM) as (d & Hd & Hacc).
  { change (2 ^ 33) with 8589934592. lia. }
  exists d.
  assert (Hdb : Z.abs d <= 1000000 * 4294967296).
  { destruct (Z_le_gt_dec (Z.abs d) (1000000 * 4294967296)) as [|Hbig]; [assumption|exfalso].
    assert (Hs1 : Z.abs (sgn neg (1000000 * fnum M e)) = 1000000 * fnum M e)
      by (destruct neg; unfold sgn; lia).
    assert (Hs2 : Z.abs (d * fden e) = Z.abs d * fden e)
      by (rewrite Z.abs_mul, (Z.abs_eq (fden e)); lia).
    assert ((1000000 * 4294967296 + 1) * fden e <= Z.abs d * fden e)
      by (apply Z.mul_le_mono_nonneg_r; lia).
    lia. }
  assert (HT : 0 <= stamp_us h m s f < 400000000000).
  { unfold stamp_us, us_per_hour, us_per_minute. lia. }
  rewrite (process_time_stamp h m s f _ d) by assumption.
  assert (Hin : in_delta_range (stamp_us h m s f + d) = true).
  { unfold in_delta_range, min_us, max_us. apply andb_true_iff. split; apply Z.leb_le; lia. }
  rewrite Hin. destruct (Z.leb_spec 0 (stamp_us h m s f + d)) as [Hge|Hneg].
  - destruct (format_time_rounds (stamp_us h m s f + d)) as (H' & Mi & n & Hfmt & _).
    { change (2 ^ 33) with 8589934592. lia. }
    eexists. split; [exact Hd|]. split; [exact Hacc|]. split; [exact Hfmt|].
    split; [|lia]. intros Hbad. exfalso.
    destruct (format_time_head _ _ Hfmt) as (c & r' & Hr & Hc).
    rewrite Hr in Hbad. injection Hbad as Hc' _. now apply Hc.
  - exists DELETED. split; [exact Hd|]. split; [exact Hacc|]. split; [reflexivity|].
    split; [intros _; exact Hneg|reflexivity].
Qed.

(** ** The tag of a finite offset *)

Lemma offset_tag_finite (s : bool) (m e : Z) :
  0 <= m -> (s = true -> 0 < m) ->
  offset_tag (Ffin s m e)
  = tag_text (if s then "-"%char else "+"%char)
             (render_nat (round_half_even (fnum m e * 100) (fden e) / 100))
             (fixed_digits 2 (round_half_even (fnum m e * 100) (fden e) mod 100)).
Proof.
  intros Hm Hs. unfold offset_tag. rewrite fl_geb_zero by assumption.
  unfold fmt_2f, fmt_fixed. change (10 ^ Z.of_nat 2) with 100.
  unfold tag_text, tag_number. destruct s.
  - destruct (Z.eqb_spec m 0) as [->|_]; [specialize (Hs eq_refl); lia|].
    cbn [negb orb sign_str append]. rewrite ?sapp_assoc. reflexivity.
  - cbn [negb orb sign_str append]. rewrite ?sapp_assoc. reflexivity.
Qed.

Lemma digits_val_cs (n : Z) :
  0 <= n ->
  digits_val 0 (render_nat (n / 100) ++ fixed_digits 2 (n mod 100)) = n.
Proof.
  intros Hn.
  destruct (render_nat_spec (n / 100) ltac:(apply Z.div_pos; lia)) as (_ & _ & Hv).
  rewrite digits_val_app, Hv, fixed_digits_2. cbn [digits_val].
  rewrite !digit_val_digit_char by apply mod10_digit.
  pose proof (Z.div_mod n 100 ltac:(lia)) as E1.
  pose proof (Z.mod_pos_bound n 100 ltac:(lia)) as B1.
  set (r := n mod 100) in *.
  assert (r / 10 mod 10 = r / 10) by (apply Z.mod_small; apply div_bounds; lia).
  pose proof (Z.div_mod r 10 ltac:(lia)). lia.
Qed.

(** ** Text files *)

Lemma split_lines_one_line (s : string) :
  Forall (fun l => one_line l = true) (split_lines s).
Proof.
  induction s as [|c s IH]; cbn [split_lines]; [constructor|].
  destruct (Ascii.eqb c lf) eqn:Hc.
  - constructor; [|exact IH]. cbn [one_line]. now rewrite Hc.
  - destruct (split_lines s) as [|l ls].
    + constructor; [|constructor]. cbn [one_line]. now rewrite Hc.
    + inversion IH as [|? ? Hl Hls]; subst. constructor; [|exact Hls].
      cbn [one_line]. now rewrite Hc.
Qed.

Lemma read_lines_not_deleted (text : string) :
  Forall (fun l => l <> DELETED) (read_lines text).
Proof.
  unfold read_lines. eapply Forall_impl; [|apply split_lines_one_line].
  intros l Hl ->. vm_compute in Hl. discriminate.
Qed.

Lemma join_split_lines (s : string) : join_chunks (split_lines s) = s.
Proof.
  induction s as [|c s IH]; cbn [split_lines]; [reflexivity|].
  destruct (Ascii.eqb c lf).
  - cbn [join_chunks append]. now rewrite IH.
  - destruct (split_lines s) as [|l ls]; cbn [join_chunks append] in *; now rewrite IH.
Qed.

Lemma universal_newlines_id (s : string) :
  has_char cr s = false -> universal_newlines s = s.
Proof.
  induction s as [|c s IH]; [reflexivity|]. cbn [has_char universal_newlines].
  intros H. apply orb_false_iff in H. destruct H as (Hc & Hs).
  rewrite Hc. f_equal. now apply IH.
Qed.

Lemma join_read_lines (text : string) :
  has_char cr text = false -> join_chunks (read_lines text) = text.
Proof.
  intros H. unfold read_lines. now rewrite join_split_lines, universal_newlines_id.
Qed.

Lemma newlines_out_lf (s : string) : newlines_out LF s = s.
Proof.
  induction s as [|c s IH]; [reflexivity|]. cbn [newlines_out].
  destruct (Ascii.eqb_spec c lf) as [->|_]; rewrite IH; reflexivity.
Qed.

Lemma newlines_out_app (sep a b : string) :
  newlines_out sep (a ++ b) = (newlines_out sep a ++ newlines_out sep b)%string.
Proof.
  induction a as [|c a IH]; [reflexivity|]. cbn [append newlines_out].
  destruct (Ascii.eqb c lf); rewrite IH; [now rewrite sapp_assoc|reflexivity].
Qed.

Lemma join_chunks_app (l1 l2 : list string) :
  join_chunks (l1 ++ l2) = (join_chunks l1 ++ join_chunks l2)%string.
Proof.
  induction l1 as [|x l1 IH]; [reflexivity|]. cbn [app join_chunks].
  now rewrite IH, sapp_assoc.
Qed.

Lemma written_text_app (sys : platform) (l1 l2 : list string) :
  written_text sys (l1 ++ l2) = (written_text sys l1 ++ written_text sys l2)%string.
Proof. unfold written_text. now rewrite join_chunks_app, newlines_out_app. Qed.

Lemma convert_run (fmt : subtitle_format) (file : list string) (S : float) :
  convert fmt file S
  = match run (step fmt S) conv_init file with
    | Some st => Some (deleted_subs st, written st)
    | None => None
    end.
Proof. reflexivity. Qed.

Lemma convert_file_lines (fmt : subtitle_format) (sys : platform)
      (inputfile outputfile : string) (S : float) :
  convert_file fmt sys inputfile outputfile S
  = match opened_lines sys inputfile outputfile with
    | Some input => convert fmt input S
    | None => None
    end.
Proof. now destruct fmt. Qed.

Lemma opened_lines_other (sys : platform) (inputfile outputfile : string) (i o : Z)
      (text : string) :
  open_r sys inputfile = Some i -> open_w sys outputfile = Some o -> i <> o ->
  text_of sys i = Some text ->
  opened_lines sys inputfile outputfile = Some (read_lines text).
Proof.
  intros Hi Ho Hne Ht. unfold opened_lines. rewrite Hi, Ho. cbn [bind].
  destruct (Z.eqb_spec i o); [contradiction|]. now rewrite Ht.
Qed.

Lemma opened_lines_same (sys : platform) (inputfile outputfile : string) (i : Z) :
  open_r sys inputfile = Some i -> open_w sys outputfile = Some i ->
  opened_lines sys inputfile outputfile = Some [].
Proof.
  intros Hi Ho. unfold opened_lines. rewrite Hi, Ho. cbn [bind].
  now rewrite Z.eqb_refl.
Qed.

(* ================================================================= *)
(** * The claims of the specification *)

(* ----------------------------------------------------------------- *)
(** ** C1: a block whose time line is deleted *)

(** C1, as stated, fails: both converters write the marker text
    ["(DELETED)\n\n"] for the time line of a deleted block.  Here the block
    [1 / 00:00:03.802 --> 00:00:05.314 / Etc. / blank] is shifted by -10.0
    seconds, in the period and in the comma format. *)
Lemma marker_is_written :
  convert VTT ["1" ++ LF; "00:00:03.802 --> 00:00:05.314" ++ LF; "Etc." ++ LF; LF]%string
              (dec (-100) 1)
  = Some (1, ["1" ++ LF; "(DELETED)" ++ LF ++ LF]%string) /\
  convert SRT ["1" ++ LF; "00:00:03,802 --> 00:00:05,314" ++ LF; "Etc." ++ LF; LF]%string
              (dec (-100) 1)
  = Some (1, ["1" ++ LF; "(DELETED)" ++ LF ++ LF]%string).
Proof. split; vm_compute; reflexivity. Qed.

(** C1, amended.  In both formats, for a time line whose two shifted end
    points are negative, followed by any number of text lines (lines that are
    neither time lines nor blank) and by the blank separator line: the
    converter writes the marker text once and nothing else, adds exactly one
    to the count of deleted subtitles, and is back in the copying state after
    the blank line. *)
Theorem deleted_block (fmt : subtitle_format) (S : float) (d : Z) (st : conv)
        (h1 m1 s1 f1 h2 m2 s2 f2 : Z) (rest : string) (texts : list string) :
  valid_fields h1 m1 s1 f1 -> valid_fields h2 m2 s2 f2 ->
  timedelta_seconds S = Some d ->
  stamp_us h1 m1 s1 f1 + d < 0 -> stamp_us h2 m2 s2 f2 + d < 0 ->
  Forall (fun t => is_match (time_line (separator fmt)) t = false /\ t <> LF) texts ->
  run (step fmt S) st
      (range_line (separator fmt) h1 m1 s1 f1 h2 m2 s2 f2 rest :: texts ++ [LF])
  = Some (mkConv (deleted_subs st + 1) false (written st ++ [DELETED])).
Proof.
  intros (A1 & A2 & A3 & A4) (B1 & B2 & B3 & B4) Hd H1 H2 Htexts.
  cbn [run]. rewrite step_time_line by apply is_match_range_line.
  rewrite to_canonical_range_line, process_line_range.
  rewrite (process_time_negative h1 m1 s1 f1 S d), (process_time_negative h2 m2 s2 f2 S d)
    by assumption.
  rewrite !String.eqb_refl. cbn [bind].
  rewrite run_app, (run_suppressed fmt S texts) by assumption.
  cbn [bind run]. rewrite step_other_line by (destruct fmt; reflexivity).
  unfold other_line. cbn [skip deleted_subs written]. rewrite String.eqb_refl. reflexivity.
Qed.

(** A block with two text lines in the comma format, shifted by -10.0. *)
Lemma deleted_block_witness :
  run (step SRT (dec (-100) 1)) conv_init
      (range_line "," 0 0 3 802 0 0 5 314 LF
         :: ["Etc." ++ LF; "second line" ++ LF]%string ++ [LF])
  = Some (mkConv 1 false [DELETED]).
Proof.
  apply (deleted_block SRT (dec (-100) 1) (-10000000) conv_init 0 0 3 802 0 0 5 314 LF).
  - unfold valid_fields; lia.
  - unfold valid_fields; lia.
  - vm_compute; reflexivity.
  - vm_compute; reflexivity.
  - vm_compute; reflexivity.
  - repeat constructor; discriminate.
Defined.

(* ----------------------------------------------------------------- *)
(** ** C2: the end is deleted and the start survives *)

(** C2: on the line [00:00:10.000 --> 00:00:05.000] shifted by -7.0 the
    start survives and the end is negative; [process_line] does not return
    the deletion marker but the start, the arrow and the marker text glued
    together. *)
Theorem end_deleted_start_survives :
  process_line ("00:00:10.000 --> 00:00:05.000" ++ LF) (dec (-70) 1)
  = Some ("00:00:03.000 --> " ++ DELETED ++ LF)%string /\
  process_line ("00:00:10.000 --> 00:00:05.000" ++ LF) (dec (-70) 1) <> Some DELETED.
Proof. split; [vm_compute; reflexivity|vm_compute; discriminate]. Qed.

(* ----------------------------------------------------------------- *)
(** ** C3: naming twice *)







(* ----------------------------------------------------------------- *)
(** ** C4: shifting and shifting back *)

(** C4, as stated, fails.  With the offset 0.0004 the time 00:00:00.000 is
    formatted as 00:00:00.000 again, and shifting that by -0.0004 gives the
    deletion marker.  With the offset 1.0 the time 99:59:59.999 is formatted
    with three digits of hours, and shifting that text back raises. *)
Lemma roundtrip_fails :
  (process_time "00:00:00.000" (dec 4 4) = Some "00:00:00.000"%string /\
   process_time "00:00:00.000" (fl_opp (dec 4 4)) = Some DELETED) /\
  (process_time "99:59:59.999" (dec 10 1) = Some "100:00:00.999"%string /\
   process_time "100:00:00.999" (fl_opp (dec 10 1)) = None).
Proof. repeat split; vm_compute; reflexivity. Qed.

(** C4, amended.  For a fixed-width time [T] (hours below 100, minutes and
    seconds below 60) and an offset of a whole number [d] of milliseconds
    such that [T + d] is not negative and below 100 hours: shifting [T] by
    the offset gives the fixed-width text of [T + d], and shifting that text
    by the negated offset gives [T] again, character for character. *)
Theorem roundtrip_ms (h m s f d : Z) :
  0 <= h < 100 -> 0 <= m < 60 -> 0 <= s < 60 -> 0 <= f < 1000 ->
  0 <= 3600000 * h + 60000 * m + 1000 * s + f + d < 360000000 ->
  exists r,
    process_time (stamp "." h m s f) (dec d 3) = Some r /\
    r = stamp_of_ms "." (3600000 * h + 60000 * m + 1000 * s + f + d) /\
    process_time r (fl_opp (dec d 3)) = Some (stamp "." h m s f).
Proof.
  intros Hh Hm Hs Hf Hk.
  set (k := 3600000 * h + 60000 * m + 1000 * s + f + d) in *.
  assert (Hd : Z.abs d < 1000 * 2 ^ 23) by lia.
  exists (stamp_of_ms "." k). split; [|split; [reflexivity|]].
  - apply (process_time_ms h m s f d (dec d 3)); try lia.
    now apply timedelta_seconds_dec3.
  - destruct (ms_fields k Hk) as (F1 & F2 & F3 & F4 & Fk).
    unfold stamp_of_ms.
    rewrite (process_time_ms _ _ _ _ (- d) (fl_opp (dec d 3))); try lia.
    + rewrite Fk.
      replace (k + - d) with (3600000 * h + 60000 * m + 1000 * s + f) by (unfold k; ring).
      f_equal. apply stamp_of_ms_stamp; lia.
    + now apply timedelta_seconds_opp_dec3.
Qed.

(** 00:00:03.802 shifted by -2.5 and back. *)
Lemma roundtrip_ms_witness :
  process_time "00:00:03.802" (dec (-2500) 3) = Some "00:00:01.302"%string /\
  process_time "00:00:01.302" (fl_opp (dec (-2500) 3)) = Some "00:00:03.802"%string.
Proof.
  destruct (roundtrip_ms 0 0 3 802 (-2500)) as (r & H1 & -> & H2); try lia.
  split; [exact H1|exact H2].
Defined.

(* ----------------------------------------------------------------- *)
(** ** C5: deletion exactly below zero *)

(** C5, as stated, fails: the offset -0.0000004 makes the total of
    00:00:00.000 and the offset negative, but [timedelta] rounds the offset
    to 0 microseconds and [process_time] returns 00:00:00.000, not the
    marker. *)
Lemma negative_total_not_deleted :
  fl_ltb (dec (-4) 7) (float_of_Z 0) = true /\
  timedelta_seconds (dec (-4) 7) = Some 0 /\
  process_time "00:00:00.000" (dec (-4) 7) = Some "00:00:00.000"%string.
Proof. repeat split; vm_compute; reflexivity. Qed.

(** C5, amended.  For a fixed-width time [T] and a finite offset below 2^32
    seconds in magnitude, [timedelta] turns the offset into a whole number
    [d] of microseconds that is less than one microsecond away from it, and
    equal to it when the offset is a whole number of microseconds.
    [process_time] returns the deletion marker if and only if [T + d] is
    negative; when [T + d] is zero it returns 00:00:00.000; and for every
    [T + d] that is not negative it returns a text that is not the marker. *)
Theorem deletion_iff_negative (h m s f : Z) (neg : bool) (M e : Z) :
  valid_fields h m s f -> 0 <= M -> fnum M e < 2 ^ 32 * fden e ->
  exists d,
    timedelta_seconds (Ffin neg M e) = Some d /\
    Z.abs (d * fden e - sgn neg (1000000 * fnum M e)) < fden e /\
    (forall k, sgn neg (1000000 * fnum M e) = k * fden e -> d = k) /\
    (process_time (stamp "." h m s f) (Ffin neg M e) = Some DELETED
     <-> stamp_us h m s f + d < 0) /\
    (stamp_us h m s f + d = 0 ->
     process_time (stamp "." h m s f) (Ffin neg M e) = Some "00:00:00.000"%string) /\
    (0 <= stamp_us h m s f + d ->
     exists r, process_time (stamp "." h m s f) (Ffin neg M e) = Some r /\ r <> DELETED).
Proof.
  intros (A1 & A2 & A3 & A4) HM Hlt.
  destruct (process_time_finite h m s f neg M e A1 A2 A3 A4 HM Hlt)
    as (d & r & Hd & Hacc & Hr & Hiff).
  pose proof (fden_pos e) as HD.
  exists d. split; [exact Hd|]. split; [exact Hacc|]. split; [|split; [|split]].
  - intros k Hk. rewrite Hk in Hacc.
    replace (d * fden e - k * fden e) with ((d - k) * fden e) in Hacc by ring.
    rewrite Z.abs_mul, (Z.abs_eq (fden e)) in Hacc by lia.
    destruct (Z.eq_dec d k) as [|Hne]; [assumption|exfalso].
    assert (1 * fden e <= Z.abs (d - k) * fden e)
      by (apply Z.mul_le_mono_nonneg_r; lia).
    lia.
  - rewrite Hr. split.
    + intros [= ->]. now apply Hiff.
    + intros Hn. f_equal. now apply Hiff.
  - intros H0. rewrite (process_time_stamp h m s f _ d) by assumption.
    rewrite H0. reflexivity.
  - intros Hge. exists r. split; [exact Hr|]. intros Hbad. apply Hiff in Hbad. lia.
Qed.

(** The offset -1.0 cancels 00:00:01.000. *)
Lemma deletion_iff_negative_witness :
  exists d,
    timedelta_seconds (Ffin true 1 0) = Some d /\
    Z.abs (d * fden 0 - sgn true (1000000 * fnum 1 0)) < fden 0 /\
    (forall k, sgn true (1000000 * fnum 1 0) = k * fden 0 -> d = k) /\
    (process_time (stamp "." 0 0 1 0) (Ffin true 1 0) = Some DELETED
     <-> stamp_us 0 0 1 0 + d < 0) /\
    (stamp_us 0 0 1 0 + d = 0 ->
     process_time (stamp "." 0 0 1 0) (Ffin true 1 0) = Some "00:00:00.000"%string) /\
    (0 <= stamp_us 0 0 1 0 + d ->
     exists r, process_time (stamp "." 0 0 1 0) (Ffin true 1 0) = Some r /\ r <> DELETED).
Proof.
  apply (deletion_iff_negative 0 0 1 0 true 1 0).
  - unfold valid_fields; lia.
  - lia.
  - vm_compute. reflexivity.
Defined.

(* ----------------------------------------------------------------- *)
(** ** C6: the forced start *)

(** C6.  For a time line whose shifted start is negative and whose shifted
    end is not, [process_line] returns [00:00:00.000 --> <end>] and a
    newline, where [<end>] is the shifted end, which is not the marker. *)
Theorem forced_start (h1 m1 s1 f1 h2 m2 s2 f2 : Z) (rest : string) (S : float) (d : Z) :
  valid_fields h1 m1 s1 f1 -> valid_fields h2 m2 s2 f2 ->
  timedelta_seconds S = Some d ->
  stamp_us h1 m1 s1 f1 + d < 0 -> 0 <= stamp_us h2 m2 s2 f2 + d ->
  exists e,
    process_time (stamp "." h2 m2 s2 f2) S = Some e /\ e <> DELETED /\
    process_line (range_line "." h1 m1 s1 f1 h2 m2 s2 f2 rest) S
    = Some ("00:00:00.000 --> " ++ e ++ LF)%string.
Proof.
  intros V1 V2 Hd H1 H2.
  pose proof (stamp_us_nonneg _ _ _ _ V1) as T1.
  pose proof (stamp_us_nonneg _ _ _ _ V2) as T2.
  destruct V1 as (A1 & A2 & A3 & A4). destruct V2 as (B1 & B2 & B3 & B4).
  destruct (process_time_survives h2 m2 s2 f2 S d) as (e & He & Hne); try assumption.
  { unfold max_us. lia. }
  exists e. split; [exact He|]. split; [exact Hne|].
  rewrite process_line_range, He, (process_time_negative h1 m1 s1 f1 S d) by assumption.
  rewrite String.eqb_refl.
  destruct (String.eqb_spec e DELETED); [contradiction|reflexivity].
Qed.

(** Scenario 3 of the specification. *)
Lemma forced_start_witness :
  process_line ("00:00:03.802 --> 00:00:15.314" ++ LF) (dec (-100) 1)
  = Some ("00:00:00.000 --> 00:00:05.314" ++ LF)%string.
Proof.
  destruct (forced_start 0 0 3 802 0 0 15 314 LF (dec (-100) 1) (-10000000))
    as (e & He & _ & Hline).
  - unfold valid_fields; lia.
  - unfold valid_fields; lia.
  - vm_compute; reflexivity.
  - vm_compute; reflexivity.
  - vm_compute; discriminate.
  - vm_compute in He. injection He as <-. exact Hline.
Defined.

(* ----------------------------------------------------------------- *)
(** ** C7: the comma of the .srt format *)

(** C7.  For a time line of the comma format and an offset that [timedelta]
    turns into [d] microseconds, [process_line] returns a text [r] for the
    line in period form, and [r] is the marker exactly when both shifted end
    points are negative.  When [r] is the marker, [convert_srt] writes it as
    it is and counts the deletion.  In every other case (both end points
    survive, or the start is forced to 00:00:00.000, or only the end is
    negative) it writes [r] with every period replaced by a comma, a chunk
    that holds no period: [<start> --> <end>] in comma form when both
    survive, [00:00:00,000 --> <end>] with the end in comma form when the
    start is forced. *)
Theorem srt_separator_restored (h1 m1 s1 f1 h2 m2 s2 f2 : Z) (rest : string)
        (S : float) (d : Z) (st : conv) :
  valid_fields h1 m1 s1 f1 -> valid_fields h2 m2 s2 f2 ->
  timedelta_seconds S = Some d ->
  stamp_us h1 m1 s1 f1 + d <= max_us -> stamp_us h2 m2 s2 f2 + d <= max_us ->
  let line := range_line "," h1 m1 s1 f1 h2 m2 s2 f2 rest in
  exists r,
    process_line (range_line "." h1 m1 s1 f1 h2 m2 s2 f2 rest) S = Some r /\
    (r = DELETED <-> stamp_us h1 m1 s1 f1 + d < 0 /\ stamp_us h2 m2 s2 f2 + d < 0) /\
    (r = DELETED ->
     srt_step S st line
     = Some (mkConv (deleted_subs st + 1) true (written st ++ [DELETED]))) /\
    (r <> DELETED ->
     srt_step S st line
     = Some (mkConv (deleted_subs st) (skip st) (written st ++ [str_replace "." "," r])) /\
     has_char "." (str_replace "." "," r) = false) /\
    (0 <= stamp_us h1 m1 s1 f1 + d -> 0 <= stamp_us h2 m2 s2 f2 + d ->
     exists a b,
       process_time (stamp "." h1 m1 s1 f1) S = Some a /\
       process_time (stamp "." h2 m2 s2 f2) S = Some b /\
       r = (a ++ " --> " ++ b ++ LF)%string /\
       str_replace "." "," r
       = (str_replace "." "," a ++ " --> " ++ str_replace "." "," b ++ LF)%string) /\
    (stamp_us h1 m1 s1 f1 + d < 0 -> 0 <= stamp_us h2 m2 s2 f2 + d ->
     exists b,
       process_time (stamp "." h2 m2 s2 f2) S = Some b /\ b <> DELETED /\
       r = ("00:00:00.000 --> " ++ b ++ LF)%string /\
       str_replace "." "," r = ("00:00:00,000 --> " ++ str_replace "." "," b ++ LF)%string).
Proof.
  intros V1 V2 Hd M1 M2 line.
  assert (Hline : srt_step S st line
            = match process_line (range_line "." h1 m1 s1 f1 h2 m2 s2 f2 rest) S with
              | None => None
              | Some r =>
                  if String.eqb r DELETED
                  then Some (mkConv (deleted_subs st + 1) true (written st ++ [DELETED]))
                  else Some (mkConv (deleted_subs st) (skip st)
                               (written st ++ [str_replace "." "," r]))
              end).
  { change (srt_step S st line) with (step SRT S st line). unfold line.
    rewrite (step_time_line SRT) by apply (is_match_range_line ",").
    change (range_line "," h1 m1 s1 f1 h2 m2 s2 f2 rest)
      with (range_line (separator SRT) h1 m1 s1 f1 h2 m2 s2 f2 rest).
    rewrite to_canonical_range_line, !process_line_range. reflexivity. }
  rewrite Hline. clear Hline. rewrite !process_line_range.
  destruct V1 as (A1 & A2 & A3 & A4). destruct V2 as (B1 & B2 & B3 & B4).
  assert (Hrep : forall x y : string,
             str_replace "." "," (x ++ y)
             = (str_replace "." "," x ++ str_replace "." "," y)%string).
  { intros x y. induction x as [|c x IH]; [reflexivity|].
    cbn [append str_replace]. destruct (Ascii.eqb c "."); now rewrite IH. }
  assert (Hpt : forall h m s f, 0 <= h < 100 -> 0 <= m < 100 -> 0 <= s < 100 ->
             0 <= f < 1000 -> stamp_us h m s f + d <= max_us ->
             exists t, process_time (stamp "." h m s f) S = Some t /\
                       (t = DELETED <-> stamp_us h m s f + d < 0)).
  { intros h m s f Hh Hm Hs Hf Hmax.
    destruct (Z_lt_ge_dec (stamp_us h m s f + d) 0) as [Hn|Hp].
    - exists DELETED. split; [now apply (process_time_negative h m s f S d)|]. tauto.
    - destruct (process_time_survives h m s f S d Hh Hm Hs Hf Hd ltac:(lia))
        as (t & Ht & Hnt).
      exists t. split; [exact Ht|]. split; [contradiction|lia]. }
  destruct (Hpt h1 m1 s1 f1 A1 A2 A3 A4 M1) as (a & Ha & HaD).
  destruct (Hpt h2 m2 s2 f2 B1 B2 B3 B4 M2) as (b & Hb & HbD).
  rewrite Ha, Hb.
  destruct (String.eqb_spec a DELETED) as [Ea|Na].
  - destruct (String.eqb_spec b DELETED) as [Eb|Nb].
    + exists DELETED. rewrite String.eqb_refl.
      split; [reflexivity|]. split; [tauto|]. split; [reflexivity|].
      split; [intros Hbad; now contradiction Hbad|].
      split; [intros H1; apply HaD in Ea; lia|].
      intros _ H2. apply HbD in Eb. lia.
    + exists ("00:00:00.000 --> " ++ b ++ LF)%string.
      change (String.eqb ("00:00:00.000 --> " ++ b ++ LF) DELETED) with false.
      split; [reflexivity|].
      split; [split; [discriminate|intros (_ & H2); apply HbD in H2; contradiction]|].
      split; [discriminate|].
      split; [intros _; split; [reflexivity|now apply str_replace_no_char]|].
      split; [intros H1; apply HaD in Ea; lia|].
      intros _ _. exists b. split; [reflexivity|]. split; [exact Nb|].
      split; [reflexivity|].
      change ("00:00:00.000 --> " ++ b ++ LF)%string
        with ("00:00:00.000 --> " ++ (b ++ LF))%string.
      now rewrite Hrep, Hrep.
  - assert (Hne : (a ++ " --> " ++ b ++ LF)%string <> DELETED).
    { destruct (process_time_head _ _ _ Ha) as [|(c & x' & -> & Hc)]; [contradiction|].
      cbn [append]. intros [= Hbad _]. now apply Hc. }
    exists (a ++ " --> " ++ b ++ LF)%string.
    destruct (String.eqb_spec (a ++ " --> " ++ b ++ LF) DELETED); [contradiction|].
    split; [reflexivity|].
    split; [split; [contradiction|intros (H1 & _); apply HaD in H1; contradiction]|].
    split; [contradiction|].
    split; [intros _; split; [reflexivity|now apply str_replace_no_char]|].
    split.
    + intros _ _. exists a, b. split; [reflexivity|]. split; [reflexivity|].
      split; [reflexivity|]. now rewrite Hrep, Hrep, Hrep.
    + intros H1. apply HaD in H1. contradiction.
Qed.

(** Scenario 4 of the specification. *)
Lemma srt_separator_restored_witness :
  srt_step (dec 10 1) conv_init ("00:00:00,243 --> 00:00:02,110" ++ LF)
  = Some (mkConv 0 false ["00:00:01,243 --> 00:00:03,110" ++ LF]%string).
Proof.
  destruct (srt_separator_restored 0 0 0 243 0 0 2 110 LF (dec 10 1) 1000000 conv_init)
    as (r & Hr & _ & _ & Hw & _).
  - unfold valid_fields; lia.
  - unfold valid_fields; lia.
  - vm_compute; reflexivity.
  - vm_compute; discriminate.
  - vm_compute; discriminate.
  - vm_compute in Hr. injection Hr as <-.
    destruct Hw as (Hstep & _); [discriminate|]. exact Hstep.
Defined.

(* ----------------------------------------------------------------- *)
(** ** C8: the other lines *)

(** C8, as stated, fails: the files are opened in text mode.  On a platform
    whose line separator is [\n], the line [Hi] with the line ending [\r\n]
    is read as [Hi\n] and written as [Hi\n], by either converter. *)
Lemma line_ending_not_kept :
  let sys := mkPlatform (fun _ => true)
               (fun p => if String.eqb p "in.sub" then Some 1 else None)
               (fun p => if String.eqb p "out.sub" then Some 2 else None)
               (fun i => if i =? 1 then Some ("Hi" ++ String cr LF)%string else None) LF in
  convert_vtt sys "in.sub" "out.sub" (dec 0 0) = Some (0, ["Hi" ++ LF]%string) /\
  convert_srt sys "in.sub" "out.sub" (dec 0 0) = Some (0, ["Hi" ++ LF]%string) /\
  written_text sys ["Hi" ++ LF]%string = ("Hi" ++ LF)%string /\
  ("Hi" ++ LF)%string <> ("Hi" ++ String cr LF)%string.
Proof. repeat split; try (vm_compute; reflexivity). discriminate. Qed.

(** C8, amended.  In both formats, for an input file and another file as
    output: a line as the file object yields it (the line of the file with
    its line ending handed over as [\n]) that is not a time line and is read
    while no block is being suppressed is written as it is.  The step
    appends exactly that line and changes nothing else; in what the
    converter writes, the line stands behind everything written for the
    lines before it and in front of everything written for the lines after
    it, and in the output file its [\n] is the line separator of the
    platform.  So the line is copied character for character when the file
    holds no [\r] and the separator of the platform is [\n]: then the lines
    read are the lines of the file, and the characters written are the
    chunks. *)
Theorem other_lines_copied (fmt : subtitle_format) (sys : platform)
        (inputfile outputfile : string) (seconds : float) (i o : Z) (text : string)
        (pre post : list string) (line : string) (st1 : conv) :
  open_r sys inputfile = Some i -> open_w sys outputfile = Some o -> i <> o ->
  text_of sys i = Some text ->
  read_lines text = pre ++ line :: post ->
  run (step fmt seconds) conv_init pre = Some st1 ->
  skip st1 = false ->
  is_match (time_line (separator fmt)) line = false ->
  step fmt seconds st1 line
  = Some (mkConv (deleted_subs st1) false (written st1 ++ [line])) /\
  (forall n out, convert_file fmt sys inputfile outputfile seconds = Some (n, out) ->
     exists later, out = written st1 ++ line :: later /\
       written_text sys out
       = (written_text sys (written st1) ++ newlines_out (linesep sys) line
          ++ written_text sys later)%string) /\
  (has_char cr text = false ->
   text = (join_chunks pre ++ line ++ join_chunks post)%string) /\
  (linesep sys = LF -> newlines_out (linesep sys) line = line).
Proof.
  intros Hi Ho Hio Ht Hlines Hpre Hskip Hm.
  assert (Hstep : step fmt seconds st1 line
                  = Some (mkConv (deleted_subs st1) false (written st1 ++ [line]))).
  { rewrite step_other_line by assumption. unfold other_line, write.
    rewrite Hskip. reflexivity. }
  split; [exact Hstep|]. split; [|split].
  - intros n out Hc.
    rewrite convert_file_lines, (opened_lines_other sys _ _ i o text) in Hc by assumption.
    rewrite Hlines, convert_run, run_app, Hpre in Hc. cbn [bind run] in Hc.
    rewrite Hstep in Hc. cbn [bind] in Hc.
    destruct (run (step fmt seconds)
                  (mkConv (deleted_subs st1) false (written st1 ++ [line])) post)
      as [st2|] eqn:H2; [|discriminate].
    injection Hc as _ <-.
    destruct (run_written _ _ _ _ _ H2) as (later & Hl). cbn [written] in Hl.
    exists later. rewrite Hl, <- app_assoc. split; [reflexivity|].
    change ([line] ++ later)%list with (line :: later).
    change (line :: later) with ([line] ++ later)%list.
    rewrite !written_text_app. f_equal. f_equal.
    unfold written_text. cbn [join_chunks]. now rewrite sapp_nil_r.
  - intros Hcr. rewrite <- (join_read_lines text Hcr), Hlines, join_chunks_app.
    reflexivity.
  - intros ->. apply newlines_out_lf.
Qed.

(** The index line of the first block of a .vtt file with [\n] line endings,
    on a platform whose separator is [\n]. *)
Lemma other_lines_copied_witness :
  let sys := mkPlatform (fun _ => true)
               (fun p => if String.eqb p "a.vtt" then Some 1 else None)
               (fun p => if String.eqb p "b.vtt" then Some 2 else None)
               (fun i => if i =? 1
                         then Some ("WEBVTT" ++ LF ++ LF ++ "1" ++ LF
                                    ++ "00:00:00.243 --> 00:00:02.110" ++ LF)%string
                         else None) LF in
  step VTT (dec 50 1) (mkConv 0 false ["WEBVTT" ++ LF; LF]%string) ("1" ++ LF)
  = Some (mkConv 0 false (["WEBVTT" ++ LF; LF]%string ++ ["1" ++ LF]%string)) /\
  newlines_out (linesep sys) ("1" ++ LF) = ("1" ++ LF)%string.
Proof.
  intros sys.
  destruct (other_lines_copied VTT sys "a.vtt" "b.vtt" (dec 50 1) 1 2
              ("WEBVTT" ++ LF ++ LF ++ "1" ++ LF ++ "00:00:00.243 --> 00:00:02.110" ++ LF)
              ["WEBVTT" ++ LF; LF]%string
              ["00:00:00.243 --> 00:00:02.110" ++ LF]%string ("1" ++ LF)%string
              (mkConv 0 false ["WEBVTT" ++ LF; LF]%string))
    as (H1 & _ & _ & H4).
  - reflexivity.
  - reflexivity.
  - lia.
  - reflexivity.
  - vm_compute; reflexivity.
  - vm_compute; reflexivity.
  - reflexivity.
  - vm_compute; reflexivity.
  - split; [exact H1|]. apply H4. reflexivity.
Defined.

(* ----------------------------------------------------------------- *)
(** ** C9: the seconds field *)

(** C9: with the offset 59.9996 the time 00:00:00.000 is formatted with the
    seconds field 60.000: the seconds are rounded to three digits after the
    split into hours, minutes and seconds, and the carry is lost. *)
Theorem seconds_field_reaches_60 :
  process_time "00:00:00.000" (dec 599996 4) = Some "00:00:60.000"%string.
Proof. vm_compute. reflexivity. Qed.

(* ----------------------------------------------------------------- *)
(** ** C10: braces in the file name *)

(** C10: [name_output] raises [KeyError] on the name [a{b}.srt] and
    [ValueError] on [a{.srt], and on [a{{b}}.srt] it returns a name in which
    the doubled braces have become single ones. *)
Theorem name_output_braces :
  name_output "a{b}.srt" (dec 10 1) = Raise KeyError /\
  name_output "a{.srt" (dec 10 1) = Raise ValueError /\
  name_output "a{{b}}.srt" (dec 10 1) = Ok "{+1.00_Sec}_a{b}.srt".
Proof. repeat split; vm_compute; reflexivity. Qed.

(* ================================================================= *)
(** * Further properties of the program *)

(** X1.  For a fixed-width time field and an offset that [timedelta] turns
    into [d] microseconds, with a total [T + d] that is not negative and
    below 2^33 seconds: [process_time] returns hours, a two-digit minute
    below 60 and a seconds field of [n] thousandths with [n <= 60000], and
    the time shown differs from the exact total by at most 500 microseconds,
    half a millisecond. *)
Theorem process_time_rounds (h m s f d : Z) (S : float) :
  valid_fields h m s f ->
  timedelta_seconds S = Some d ->
  0 <= stamp_us h m s f + d < 1000000 * 2 ^ 33 ->
  exists H Mi n,
    process_time (stamp "." h m s f) S
    = Some (fmt_02d H ++ ":" ++ fixed_digits 2 Mi ++ ":" ++ fixed_digits 2 (n / 1000)
            ++ String "." (fixed_digits 3 (n mod 1000)))%string /\
    0 <= H /\ 0 <= Mi < 60 /\ 0 <= n <= 60000 /\
    Z.abs (1000 * (3600000 * H + 60000 * Mi + n) - (stamp_us h m s f + d)) <= 500.
Proof.
  intros (Hh & Hm & Hs & Hf) HS Hr.
  rewrite (process_time_stamp h m s f S d) by assumption.
  assert (Hin : in_delta_range (stamp_us h m s f + d) = true).
  { unfold in_delta_range, min_us, max_us. apply andb_true_iff. split; apply Z.leb_le; lia. }
  rewrite Hin. destruct (Z.leb_spec 0 (stamp_us h m s f + d)); [|lia].
  apply format_time_rounds. exact Hr.
Qed.

Lemma process_time_rounds_witness :
  exists H Mi n,
    process_time (stamp "." 0 0 1 0) (dec 5 4)
    = Some (fmt_02d H ++ ":" ++ fixed_digits 2 Mi ++ ":" ++ fixed_digits 2 (n / 1000)
            ++ String "." (fixed_digits 3 (n mod 1000)))%string /\
    0 <= H /\ 0 <= Mi < 60 /\ 0 <= n <= 60000 /\
    Z.abs (1000 * (3600000 * H + 60000 * Mi + n) - (stamp_us 0 0 1 0 + 500)) <= 500.
Proof.
  apply (process_time_rounds 0 0 1 0 500 (dec 5 4)).
  - unfold valid_fields. lia.
  - vm_compute. reflexivity.
  - vm_compute. split; [discriminate|reflexivity].
Defined.

(** X2.  Offsets of whole milliseconds compose.  For a fixed-width time [T]
    and two offsets of [d1] and [d2] milliseconds such that [T + d1] and
    [T + d1 + d2] are not negative and below 100 hours: shifting [T] by the
    first offset and the result by the second gives what one shift by
    [d1 + d2] milliseconds gives, the fixed-width text of [T + d1 + d2]. *)
Theorem process_time_additive (h m s f d1 d2 : Z) :
  valid_fields h m s f ->
  0 <= 3600000 * h + 60000 * m + 1000 * s + f + d1 < 360000000 ->
  0 <= 3600000 * h + 60000 * m + 1000 * s + f + d1 + d2 < 360000000 ->
  exists r,
    process_time (stamp "." h m s f) (dec d1 3) = Some r /\
    process_time r (dec d2 3) = process_time (stamp "." h m s f) (dec (d1 + d2) 3) /\
    process_time r (dec d2 3)
    = Some (stamp_of_ms "." (3600000 * h + 60000 * m + 1000 * s + f + d1 + d2)).
Proof.
  intros (Hh & Hm & Hs & Hf) H1 H2.
  set (T := 3600000 * h + 60000 * m + 1000 * s + f) in *.
  assert (HT : 0 <= T < 400000000) by (unfold T; lia).
  exists (stamp_of_ms "." (T + d1)).
  assert (E1 : process_time (stamp "." h m s f) (dec d1 3) = Some (stamp_of_ms "." (T + d1))).
  { apply process_time_ms; try assumption.
    apply timedelta_seconds_dec3. lia. }
  assert (E12 : process_time (stamp "." h m s f) (dec (d1 + d2) 3)
                = Some (stamp_of_ms "." (T + d1 + d2))).
  { replace (T + d1 + d2) with (T + (d1 + d2)) by ring.
    apply process_time_ms; try assumption; try (apply timedelta_seconds_dec3; lia);
      fold T; lia. }
  assert (E2 : process_time (stamp_of_ms "." (T + d1)) (dec d2 3)
               = Some (stamp_of_ms "." (T + d1 + d2))).
  { destruct (ms_fields (T + d1) H1) as (B1 & B2 & B3 & B4 & Hk).
    unfold stamp_of_ms at 1.
    rewrite <- Hk at 5.
    apply process_time_ms; try lia; try (apply timedelta_seconds_dec3; lia);
      rewrite Hk; lia. }
  split; [exact E1|]. split; [now rewrite E2, E12|exact E2].
Qed.

Lemma process_time_additive_witness :
  exists r,
    process_time (stamp "." 0 1 2 500) (dec (-3000) 3) = Some r /\
    process_time r (dec 1250 3) = process_time (stamp "." 0 1 2 500) (dec (-3000 + 1250) 3) /\
    process_time r (dec 1250 3)
    = Some (stamp_of_ms "." (3600000 * 0 + 60000 * 1 + 1000 * 2 + 500 + -3000 + 1250)).
Proof.
  apply (process_time_additive 0 1 2 500 (-3000) 1250).
  - unfold valid_fields. lia.
  - lia.
  - lia.
Defined.

(** X3.  What follows the end time on a time line (cue settings of a .vtt
    file, blanks, a missing newline) has no effect: both converters treat
    the line as the same two times followed by a newline. *)
Theorem text_after_end_time_dropped (fmt : subtitle_format) (S : float) (st : conv)
        (h1 m1 s1 f1 h2 m2 s2 f2 : Z) (rest : string) :
  step fmt S st (range_line (separator fmt) h1 m1 s1 f1 h2 m2 s2 f2 rest)
  = step fmt S st (range_line (separator fmt) h1 m1 s1 f1 h2 m2 s2 f2 LF).
Proof.
  rewrite !step_time_line by apply is_match_range_line.
  rewrite !to_canonical_range_line, !process_line_range.
  reflexivity.
Qed.

(** ** The converters on whole files *)

Lemma stamp_not_deleted (sep : ascii) (h m s f : Z) (rest : string) :
  (stamp sep h m s f ++ rest)%string <> DELETED.
Proof.
  unfold stamp. rewrite fixed_digits_2. cbn [append]. intros Hc.
  apply (f_equal (fun t => match t with String c _ => is_digit c | EmptyString => false end)) in Hc.
  rewrite (is_digit_digit_char _ (mod10_digit (h / 10))) in Hc. discriminate.
Qed.

Lemma process_time_zero (h m s f : Z) :
  0 <= h < 100 -> 0 <= m < 60 -> 0 <= s < 60 -> 0 <= f < 1000 ->
  process_time (stamp "." h m s f) (dec 0 3) = Some (stamp "." h m s f).
Proof.
  intros Hh Hm Hs Hf.
  rewrite (process_time_ms h m s f 0 (dec 0 3)); try lia.
  - rewrite Z.add_0_r. now rewrite stamp_of_ms_stamp by lia.
  - apply timedelta_seconds_dec3. lia.
Qed.

Lemma from_canonical_range_line (fmt : subtitle_format) (h1 m1 s1 f1 h2 m2 s2 f2 : Z) :
  from_canonical fmt (stamp "." h1 m1 s1 f1 ++ " --> " ++ stamp "." h2 m2 s2 f2 ++ LF)
  = range_line (separator fmt) h1 m1 s1 f1 h2 m2 s2 f2 LF.
Proof.
  rewrite from_canonical_stamp. unfold range_line. f_equal.
  replace (from_canonical fmt (" --> " ++ stamp "." h2 m2 s2 f2 ++ LF))
    with (" --> " ++ from_canonical fmt (stamp "." h2 m2 s2 f2 ++ LF))%string
    by (destruct fmt; reflexivity).
  rewrite from_canonical_stamp. now destruct fmt.
Qed.

Lemma run_zero_offset (fmt : subtitle_format) (file : list string) :
  Forall (canonical_line fmt) file ->
  forall (n : Z) (out : list string),
    run (step fmt (dec 0 3)) (mkConv n false out) file = Some (mkConv n false (out ++ file)).
Proof.
  induction 1 as [|line file Hl _ IH]; intros n out.
  - cbn [run]. now rewrite app_nil_r.
  - cbn [run]. destruct Hl as [h1 m1 s1 f1 h2 m2 s2 f2 A1 A2 A3 A4 B1 B2 B3 B4|line Hn].
    + rewrite step_range_line, !process_time_zero by assumption.
      destruct (String.eqb_spec (stamp "." h1 m1 s1 f1) DELETED) as [Hbad|_].
      { exfalso. apply (stamp_not_deleted "." h1 m1 s1 f1 EmptyString).
        now rewrite sapp_nil_r. }
      cbn [bind deleted_subs skip written]. rewrite from_canonical_range_line, IH.
      now rewrite <- app_assoc.
    + rewrite step_other_line by assumption. unfold other_line, write.
      cbn [bind deleted_subs skip written]. rewrite IH. now rewrite <- app_assoc.
Qed.

(** X4.  With the offset 0.0, a file whose time lines are written as the
    program writes them (minutes and seconds below 60, the newline right
    behind the end time) is copied chunk for chunk, and no subtitle is
    counted as deleted. *)
Theorem zero_offset_copies (fmt : subtitle_format) (file : list string) :
  Forall (canonical_line fmt) file ->
  convert fmt file (dec 0 3) = Some (0, file).
Proof.
  intros Hf. pose proof (run_zero_offset fmt file Hf 0 []) as Hr.
  rewrite convert_run. change conv_init with (mkConv 0 false []).
  rewrite Hr. reflexivity.
Qed.

Lemma zero_offset_copies_witness :
  convert SRT ["1" ++ LF; range_line "," 0 0 1 500 0 0 3 0 LF; "Hello" ++ LF; LF]%string (dec 0 3)
  = Some (0, ["1" ++ LF; range_line "," 0 0 1 500 0 0 3 0 LF; "Hello" ++ LF; LF]%string).
Proof.
  apply (zero_offset_copies SRT).
  apply Forall_cons; [apply canonical_text; reflexivity|].
  apply Forall_cons; [apply (canonical_range SRT 0 0 1 500 0 0 3 0); lia|].
  apply Forall_cons; [apply canonical_text; reflexivity|].
  apply Forall_cons; [apply canonical_text; reflexivity|].
  apply Forall_nil.
Defined.

Lemma run_nonneg_offset (fmt : subtitle_format) (S : float) (d : Z) (file : list string) :
  timedelta_seconds S = Some d -> 0 <= d <= max_us - 400000000000 ->
  Forall (file_line fmt) file ->
  forall (n : Z) (out : list string),
    exists out', run (step fmt S) (mkConv n false out) file = Some (mkConv n false out') /\
                 List.length out' = (List.length out + List.length file)%nat.
Proof.
  intros HS Hd. induction 1 as [|line file Hl _ IH]; intros n out.
  - exists out. cbn [run List.length]. split; [reflexivity|lia].
  - cbn [run]. destruct Hl as [h1 m1 s1 f1 h2 m2 s2 f2 rest V1 V2|line Hn].
    + destruct V1 as (A1 & A2 & A3 & A4), V2 as (B1 & B2 & B3 & B4).
      assert (U : forall h m s f, 0 <= h < 100 -> 0 <= m < 100 -> 0 <= s < 100 ->
                    0 <= f < 1000 -> 0 <= stamp_us h m s f + d <= max_us).
      { intros. unfold stamp_us, us_per_hour, us_per_minute, max_us in *. lia. }
      destruct (process_time_survives h1 m1 s1 f1 S d A1 A2 A3 A4 HS (U _ _ _ _ A1 A2 A3 A4))
        as (a & Ha & Hna).
      destruct (process_time_survives h2 m2 s2 f2 S d B1 B2 B3 B4 HS (U _ _ _ _ B1 B2 B3 B4))
        as (b & Hb & Hnb).
      rewrite step_range_line, Ha, Hb.
      destruct (String.eqb_spec a DELETED); [contradiction|].
      cbn [bind deleted_subs skip written].
      destruct (IH n (out ++ [from_canonical fmt (a ++ " --> " ++ b ++ LF)])) as (out' & -> & Hlen).
      exists out'. split; [reflexivity|]. rewrite Hlen, List.length_app. cbn [List.length]. lia.
    + rewrite step_other_line by assumption. unfold other_line, write.
      cbn [bind deleted_subs skip written].
      destruct (IH n (out ++ [line])) as (out' & -> & Hlen).
      exists out'. split; [reflexivity|]. rewrite Hlen, List.length_app. cbn [List.length]. lia.
Qed.

(** X5.  An offset that is not negative deletes nothing: on a file whose
    lines are time lines with valid fields or lines the pattern does not
    match, the converter returns the count 0 and writes exactly one chunk
    for every line. *)
Theorem nonnegative_offset_deletes_nothing (fmt : subtitle_format) (S : float) (d : Z)
        (file : list string) :
  timedelta_seconds S = Some d -> 0 <= d <= max_us - 400000000000 ->
  Forall (file_line fmt) file ->
  exists out, convert fmt file S = Some (0, out) /\ List.length out = List.length file.
Proof.
  intros HS Hd Hf.
  destruct (run_nonneg_offset fmt S d file HS Hd Hf 0 []) as (out & Hr & Hlen).
  exists out. split; [|exact Hlen].
  rewrite convert_run. change conv_init with (mkConv 0 false []).
  rewrite Hr. reflexivity.
Qed.

Lemma nonnegative_offset_deletes_nothing_witness :
  exists out,
    convert VTT ["1" ++ LF; range_line "." 0 0 1 500 0 0 3 0 (" align:start" ++ LF); "Hello" ++ LF]%string
            (dec 125 2) = Some (0, out) /\
    List.length out = List.length ["1" ++ LF; range_line "." 0 0 1 500 0 0 3 0 (" align:start" ++ LF); "Hello" ++ LF]%string.
Proof.
  apply (nonnegative_offset_deletes_nothing VTT (dec 125 2) 1250000).
  - vm_compute. reflexivity.
  - unfold max_us. lia.
  - apply Forall_cons; [apply other_text; reflexivity|].
    apply Forall_cons; [apply (time_range VTT 0 0 1 500 0 0 3 0); unfold valid_fields; lia|].
    apply Forall_cons; [apply other_text; reflexivity|].
    apply Forall_nil.
Defined.

Lemma count_markers_app (out : list string) (chunk : string) :
  count_markers (out ++ [chunk])
  = count_markers out + (if String.eqb chunk DELETED then 1 else 0).
Proof.
  induction out as [|c out IH]; cbn [count_markers app]; [lia|rewrite IH; lia].
Qed.

Lemma str_replace_inv (a b : ascii) (r t : string) :
  str_replace a b r = t -> has_char b t = false -> r = t.
Proof.
  revert t. induction r as [|c r IH]; intros t Ht Hb.
  - exact Ht.
  - cbn [str_replace] in Ht. destruct t as [|c' t']; [destruct (Ascii.eqb c a); discriminate|].
    cbn [has_char] in Hb. apply orb_false_iff in Hb. destruct Hb as (Hc & Hb).
    destruct (Ascii.eqb c a) eqn:Hca; injection Ht as Hh Htl.
    + subst c'. now rewrite Ascii.eqb_refl in Hc.
    + subst c'. f_equal. now apply IH.
Qed.

Lemma from_canonical_not_deleted (fmt : subtitle_format) (r : string) :
  r <> DELETED -> from_canonical fmt r <> DELETED.
Proof.
  intros Hr Heq. apply Hr. destruct fmt; [exact Heq|].
  apply (str_replace_inv "." "," r DELETED Heq). reflexivity.
Qed.

Lemma step_count (fmt : subtitle_format) (S : float) (st st' : conv) (line : string) :
  line <> DELETED -> step fmt S st line = Some st' ->
  deleted_subs st = count_markers (written st) ->
  deleted_subs st' = count_markers (written st').
Proof.
  intros Hl Hs Hinv.
  destruct (is_match (time_line (separator fmt)) line) eqn:Hm.
  - rewrite step_time_line in Hs by assumption.
    destruct (process_line (to_canonical fmt line) S) as [r|]; [|discriminate].
    destruct (String.eqb_spec r DELETED) as [Hr|Hr]; injection Hs as <-;
      cbn [deleted_subs written]; rewrite count_markers_app.
    + rewrite String.eqb_refl. lia.
    + destruct (String.eqb_spec (from_canonical fmt r) DELETED) as [Hbad|_]; [|lia].
      now apply from_canonical_not_deleted in Hbad.
  - rewrite step_other_line in Hs by assumption. injection Hs as <-.
    unfold other_line, write. destruct (skip st).
    + now destruct (String.eqb line LF).
    + cbn [deleted_subs written]. rewrite count_markers_app.
      destruct (String.eqb_spec line DELETED); [contradiction|lia].
Qed.

Lemma run_count (fmt : subtitle_format) (S : float) (lines : list string) :
  Forall (fun l => l <> DELETED) lines ->
  forall st st', run (step fmt S) st lines = Some st' ->
    deleted_subs st = count_markers (written st) ->
    deleted_subs st' = count_markers (written st').
Proof.
  induction 1 as [|line lines Hl _ IH]; intros st st' Hr Hinv.
  - injection Hr as <-. exact Hinv.
  - cbn [run] in Hr. destruct (step fmt S st line) as [st1|] eqn:Hs; [|discriminate].
    cbn [bind] in Hr. apply (IH st1 st' Hr). exact (step_count fmt S st st1 line Hl Hs Hinv).
Qed.

(** X6.  The number a converter returns is the number of marker chunks in
    what it wrote, for every offset and every input whose lines are not
    themselves the marker text (a line read from a file holds one newline
    at most). *)
Theorem deleted_count_is_marker_count (fmt : subtitle_format) (S : float)
        (file out : list string) (n : Z) :
  Forall (fun l => l <> DELETED) file ->
  convert fmt file S = Some (n, out) ->
  n = count_markers out.
Proof.
  intros Hf Hc. rewrite convert_run in Hc.
  destruct (run (step fmt S) conv_init file) as [st|] eqn:Hr; [|discriminate].
  injection Hc as <- <-. apply (run_count fmt S file Hf conv_init st Hr). reflexivity.
Qed.

Lemma deleted_count_is_marker_count_witness :
  1 = count_markers ["1" ++ LF; DELETED; "2" ++ LF; range_line "," 0 0 1 0 0 0 5 0 LF]%string.
Proof.
  apply (deleted_count_is_marker_count SRT (dec (-100) 1)
           ["1" ++ LF; range_line "," 0 0 1 0 0 0 3 0 LF; "Gone" ++ LF; LF;
            "2" ++ LF; range_line "," 0 0 11 0 0 0 15 0 LF]%string).
  - repeat (apply Forall_cons; [discriminate|]). apply Forall_nil.
  - vm_compute. reflexivity.
Defined.

(** ** Time lines the pattern of the format does not accept *)

Lemma is_match_other_mark (fmt : subtitle_format) (sep : ascii) (h m s f : Z) (rest : string) :
  Ascii.eqb sep (separator fmt) = false ->
  is_match (time_line (separator fmt)) (stamp sep h m s f ++ rest) = false.
Proof.
  intros Hsep. unfold stamp. rewrite !fixed_digits_2, !fixed_digits_3.
  cbn [append]. unfold is_match, time_line. cbn [re_match].
  rewrite !(fun x => is_digit_digit_char _ (mod10_digit x)).
  change (Ascii.eqb ":" ":") with true. rewrite Hsep. reflexivity.
Qed.

(** X7.  A time line whose decimal mark is not the one of the format is
    not recognised as a time line: while lines are being copied, the
    converter copies it unshifted. *)
Theorem other_decimal_mark_copied (fmt : subtitle_format) (S : float) (st : conv)
        (sep : ascii) (h1 m1 s1 f1 h2 m2 s2 f2 : Z) (rest : string) :
  Ascii.eqb sep (separator fmt) = false -> skip st = false ->
  step fmt S st (range_line sep h1 m1 s1 f1 h2 m2 s2 f2 rest)
  = Some (write st (range_line sep h1 m1 s1 f1 h2 m2 s2 f2 rest)).
Proof.
  intros Hsep Hsk. rewrite step_other_line by now apply is_match_other_mark.
  unfold other_line. now rewrite Hsk.
Qed.

Lemma other_decimal_mark_copied_witness :
  step VTT (dec 25 1) conv_init (range_line "," 0 0 1 0 0 0 3 0 LF)
  = Some (write conv_init (range_line "," 0 0 1 0 0 0 3 0 LF)).
Proof.
  apply (other_decimal_mark_copied VTT (dec 25 1) conv_init ","); reflexivity.
Defined.

Lemma substring_short (s : string) (n m : nat) :
  (String.length s <= n)%nat -> substring n m s = EmptyString.
Proof.
  revert n m. induction s as [|c s IH]; intros n m Hn.
  - now destruct n, m.
  - destruct n as [|n]; cbn [String.length] in Hn; [lia|].
    cbn [substring]. apply IH. lia.
Qed.

Lemma str_replace_length (a b : ascii) (s : string) :
  String.length (str_replace a b s) = String.length s.
Proof.
  induction s as [|c s IH]; [reflexivity|].
  cbn [str_replace]. destruct (Ascii.eqb c a); cbn [String.length]; now rewrite IH.
Qed.

Lemma process_line_truncated (h m s f : Z) (rest : string) (S : float) :
  (String.length rest <= 5)%nat ->
  process_line (stamp "." h m s f ++ rest) S = None.
Proof.
  intros Hlen. unfold process_line.
  assert (He : py_slice 17 29 (stamp "." h m s f ++ rest) = EmptyString).
  { unfold py_slice, stamp. rewrite !fixed_digits_2, !fixed_digits_3.
    cbn [append Nat.sub substring]. now apply substring_short. }
  rewrite He.
  destruct (process_time (py_slice 0 12 (stamp "." h m s f ++ rest)) S); reflexivity.
Qed.

Lemma step_truncated (fmt : subtitle_format) (S : float) (st : conv)
      (h m s f : Z) (rest : string) :
  (String.length rest <= 5)%nat ->
  step fmt S st (stamp (separator fmt) h m s f ++ rest) = None.
Proof.
  intros Hlen. rewrite step_time_line by apply is_match_stamp.
  assert (Hc : exists rest', to_canonical fmt (stamp (separator fmt) h m s f ++ rest)
                    = (stamp "." h m s f ++ rest')%string /\ (String.length rest' <= 5)%nat).
  { destruct fmt.
    - now exists rest.
    - exists (str_replace "," "." rest). split.
      + unfold to_canonical, separator. now rewrite str_replace_stamp.
      + now rewrite str_replace_length. }
  destruct Hc as (rest' & -> & Hlen'). now rewrite process_line_truncated.
Qed.

(** X8.  A line that starts with a time of the format and has at most five
    characters behind it, so that the slice for the end time is empty, makes
    the conversion of the whole file fail ([int('')] raises), whatever
    stands before and after it. *)
Theorem truncated_time_line_aborts (fmt : subtitle_format) (S : float)
        (h m s f : Z) (rest : string) (before after : list string) :
  (String.length rest <= 5)%nat ->
  convert fmt (before ++ (stamp (separator fmt) h m s f ++ rest)%string :: after) S = None.
Proof.
  intros Hlen. rewrite convert_run, run_app.
  destruct (run (step fmt S) conv_init before) as [st|]; [|reflexivity].
  cbn [bind run]. now rewrite step_truncated.
Qed.

Lemma truncated_time_line_aborts_witness :
  convert VTT (["1" ++ LF]%string ++ (stamp (separator VTT) 0 0 1 0 ++ " -->" ++ LF)%string
                 :: ["Hello" ++ LF]%string) (dec 25 1) = None.
Proof.
  apply (truncated_time_line_aborts VTT (dec 25 1) 0 0 1 0 (" -->" ++ LF)).
  cbn. lia.
Defined.

(** ** name_output on names that carry a tag *)

(** X9.  The next run continues from the text of the tag.  For a fresh name
    [F] and a finite offset [y] that is not a negative zero, [name_output]
    on [F] tagged with [y] and a new offset [x] returns what it returns on
    [F] with the offset [v + x], where [v] is the two-decimal number printed
    in the tag, not [y] itself. *)
Theorem rerun_continues_from_printed_value (F : string) (s : bool) (m e : Z) (x : float) :
  re_match proc_regex F = None -> 0 <= m -> (s = true -> 0 < m) ->
  name_output (offset_tag (Ffin s m e) ++ F) x
  = name_output F (fl_add (nearest s (round_half_even (fnum m e * 100) (fden e)) 100) x).
Proof.
  intros Hfresh Hm Hs. rewrite offset_tag_finite by assumption.
  set (n := round_half_even (fnum m e * 100) (fden e)).
  assert (Hn : 0 <= n).
  { apply rhe_ge; [apply fden_pos|]. pose proof (fnum_nonneg m e Hm). lia. }
  destruct (render_nat_spec (n / 100) ltac:(apply Z.div_pos; lia)) as (Ha & Hne & _).
  rewrite name_output_tagged; auto.
  - rewrite digits_val_cs by assumption. rewrite fixed_digits_2.
    cbn [String.length]. change (10 ^ Z.of_nat 2) with 100.
    now destruct s.
  - now destruct s.
  - rewrite fixed_digits_2. cbn [all_digits].
    now rewrite !is_digit_digit_char by apply mod10_digit.
  - rewrite fixed_digits_2. discriminate.
Qed.

Lemma rerun_continues_from_printed_value_witness :
  name_output (offset_tag (Ffin false 1029 (-10)) ++ "movie.srt") (dec 1 0)
  = name_output "movie.srt"
      (fl_add (nearest false (round_half_even (fnum 1029 (-10) * 100) (fden (-10))) 100) (dec 1 0)).
Proof.
  apply (rerun_continues_from_printed_value "movie.srt" false 1029 (-10) (dec 1 0)).
  - reflexivity.
  - lia.
  - discriminate.
Defined.

(** X10.  A tag the pattern accepts is replaced, never stacked, whatever the
    number of its digits: for a sign, two non-empty digit strings and a
    fresh name [F] without braces, [name_output] on the tagged name returns
    [F] behind the one tag of the sum of the number in the tag and the
    offset. *)
Theorem tagged_name_is_retagged (sg : ascii) (ip fp F : string) (x : float) :
  is_sign sg = true -> all_digits ip = true -> ip <> EmptyString ->
  all_digits fp = true -> fp <> EmptyString ->
  re_match proc_regex F = None -> no_brace F = true ->
  name_output (tag_text sg ip fp ++ F) x
  = Ok (offset_tag (fl_add (nearest (Ascii.eqb sg "-") (digits_val 0 (ip ++ fp))
                                    (10 ^ Z.of_nat (String.length fp))) x) ++ F)%string.
Proof.
  intros Hsg Hip Hip' Hfp Hfp' Hfresh Hb.
  rewrite name_output_tagged by assumption. now apply name_output_fresh.
Qed.

Lemma tagged_name_is_retagged_witness :
  name_output (tag_text "+" "1" "5" ++ "movie.srt") (dec (-4) 0)
  = Ok (offset_tag (fl_add (nearest (Ascii.eqb "+" "-") (digits_val 0 ("1" ++ "5"))
                                    (10 ^ Z.of_nat (String.length "5"))) (dec (-4) 0))
        ++ "movie.srt")%string.
Proof.
  apply (tagged_name_is_retagged "+" "1" "5" "movie.srt" (dec (-4) 0));
    try reflexivity; discriminate.
Defined.

(** ** The extension of the output name *)

Lemma drop_add_app (p q : string) (k : nat) :
  drop (String.length p + k) (p ++ q) = drop k q.
Proof.
  induction p as [|c p IH]; [reflexivity|]. cbn [String.length Nat.add append drop]. exact IH.
Qed.

Lemma ends_with_tagged (p F ext : string) :
  ext = ".srt"%string \/ ext = ".vtt"%string ->
  ends_with ((p ++ "_Sec}_") ++ F) ext = ends_with F ext.
Proof.
  intros Hext. unfold ends_with.
  assert (HL : String.length ext = 4%nat) by (destruct Hext as [->| ->]; reflexivity).
  rewrite HL, sapp_assoc, !slength_app.
  destruct (Nat.leb_spec 4 (String.length F)) as [H4|H4].
  - replace (4 <=? String.length p + (String.length "_Sec}_" + String.length F))%nat with true
      by (symmetry; apply Nat.leb_le; lia).
    replace (String.length p + (String.length "_Sec}_" + String.length F) - 4)%nat
      with (String.length p + (6 + (String.length F - 4)))%nat
      by (change (String.length "_Sec}_") with 6%nat; lia).
    rewrite drop_add_app. reflexivity.
  - change (String.length "_Sec}_") with 6%nat.
    replace (4 <=? String.length p + (6 + String.length F))%nat with true
      by (symmetry; apply Nat.leb_le; lia).
    replace (String.length p + (6 + String.length F) - 4)%nat
      with (String.length p + (2 + String.length F))%nat by lia.
    rewrite drop_add_app. cbn [andb].
    destruct F as [|a [|b [|c [|d F]]]]; cbn [String.length] in H4; try lia;
      destruct Hext as [->| ->]; reflexivity.
Qed.

Lemma format_of_name_tagged (x : float) (F : string) :
  format_of_name (offset_tag x ++ F) = format_of_name F.
Proof.
  unfold format_of_name, offset_tag.
  replace ("{" ++ (if fl_geb x (float_of_Z 0) then "+" else "") ++ fmt_2f x ++ "_Sec}_")%string
    with (("{" ++ (if fl_geb x (float_of_Z 0) then "+" else "") ++ fmt_2f x) ++ "_Sec}_")%string
    by (now rewrite !sapp_assoc).
  rewrite !ends_with_tagged by auto. reflexivity.
Qed.

(** X11.  The output name keeps the format of the input name: for a fresh
    name without braces and any offset, also an infinite one or NaN,
    [name_output] returns a name from which [submod] chooses the same
    converter (or the same refusal) as from the input name. *)
Theorem output_name_keeps_extension (F : string) (x : float) :
  re_match proc_regex F = None -> no_brace F = true ->
  exists G, name_output F x = Ok G /\ format_of_name G = format_of_name F.
Proof.
  intros Hfresh Hb. exists (offset_tag x ++ F)%string.
  split; [now apply name_output_fresh|apply format_of_name_tagged].
Qed.

Lemma output_name_keeps_extension_witness :
  exists G, name_output "a.vtt" (Finf false) = Ok G /\ format_of_name G = format_of_name "a.vtt".
Proof.
  apply (output_name_keeps_extension "a.vtt" (Finf false)); reflexivity.
Defined.

(** ** Offsets that are not finite *)

Lemma process_time_nonfinite (t : string) (x : float) :
  x = Fnan \/ (exists s, x = Finf s) -> process_time t x = None.
Proof.
  intros Hx. unfold process_time.
  destruct (py_int2 (py_slice 0 2 t)) as [hrs|]; [|reflexivity].
  destruct (py_int2 (py_slice 3 5 t)) as [mins|]; [|reflexivity].
  destruct (py_float (py_slice 6 12 t)) as [secs|]; [|reflexivity].
  cbn [bind]. destruct (timedelta_hms hrs mins secs) as [time|]; [|reflexivity].
  cbn [bind]. destruct Hx as [->|(s & ->)]; [reflexivity|destruct s; reflexivity].
Qed.

(** X12.  With an offset that is infinite or not a number the conversion
    fails at the first line the pattern of the format matches
    ([timedelta] raises), whatever stands before and after it. *)
Theorem nonfinite_offset_aborts (fmt : subtitle_format) (x : float) (line : string)
        (before after : list string) :
  x = Fnan \/ (exists s, x = Finf s) ->
  is_match (time_line (separator fmt)) line = true ->
  convert fmt (before ++ line :: after) x = None.
Proof.
  intros Hx Hm. rewrite convert_run, run_app.
  destruct (run (step fmt x) conv_init before) as [st|]; [|reflexivity].
  cbn [bind run]. rewrite step_time_line by assumption.
  unfold process_line. now rewrite process_time_nonfinite.
Qed.

Lemma nonfinite_offset_aborts_witness :
  convert SRT (["1" ++ LF]%string ++ range_line "," 0 0 1 0 0 0 3 0 LF :: ["Hello" ++ LF]%string)
          (Finf false) = None.
Proof.
  apply (nonfinite_offset_aborts SRT (Finf false)).
  - right. exists false. reflexivity.
  - reflexivity.
Defined.

(** ** submod from the name of the input file to the status text *)

Lemma opened_lines_read (sys : platform) (inputfile outputfile : string)
      (input : list string) :
  opened_lines sys inputfile outputfile = Some input ->
  exists text, input = read_lines text.
Proof.
  unfold opened_lines.
  destruct (open_r sys inputfile) as [i|]; [|discriminate].
  destruct (open_w sys outputfile) as [o|]; [|discriminate]. cbn [bind].
  destruct (if i =? o then Some EmptyString else text_of sys i) as [text|]; [|discriminate].
  intros [= <-]. now exists text.
Qed.

(** X13.  When [submod] completes, what it prints is the status text for
    the number of marker chunks in the file it wrote and for the name of
    that file, whatever the platform, the input file and the offset. *)
Theorem submod_reports_marker_count (sys : platform) (F : string) (S : float)
        (G : string) (out : list string) (printed : string) :
  submod sys F S = Completed G out printed ->
  printed = status (count_markers out) G.
Proof.
  intros Hs. unfold submod in Hs.
  destruct (isfile sys F); [|discriminate]. cbn [negb] in Hs.
  destruct (format_of_name F) as [fmt|]; [|discriminate].
  destruct (name_output F S) as [G'| |]; try discriminate.
  rewrite convert_file_lines in Hs.
  destruct (opened_lines sys F G') as [input|] eqn:Ho; [|discriminate].
  destruct (opened_lines_read _ _ _ _ Ho) as (text & ->).
  rewrite convert_run in Hs.
  destruct (run (step fmt S) conv_init (read_lines text)) as [st|] eqn:Hr; [|discriminate].
  injection Hs as <- <- <-.
  now rewrite (run_count fmt S _ (read_lines_not_deleted text) conv_init st Hr eq_refl).
Qed.

Lemma submod_reports_marker_count_witness :
  ("Success." ++ LF ++ "One subtitle was deleted at the beginning of the file." ++ LF
   ++ "Filename = {-10.00_Sec}_movie.srt" ++ LF)%string
  = status (count_markers ["1" ++ LF; DELETED]%string) "{-10.00_Sec}_movie.srt".
Proof.
  apply (submod_reports_marker_count
           (mkPlatform (fun p => String.eqb p "movie.srt")
              (fun p => if String.eqb p "movie.srt" then Some 1 else None)
              (fun p => Some 2)
              (fun i => Some ("1" ++ LF ++ "00:00:01,000 --> 00:00:03,000" ++ LF
                              ++ "Gone" ++ LF ++ LF)%string) LF)
           "movie.srt" (dec (-100) 1)).
  vm_compute. reflexivity.
Defined.

(** X14.  [submod] from end to end for an offset that is not negative.  For
    an existing file with a fresh name [F] without braces that ends in .srt
    or .vtt, that can be opened and read, whose lines are time lines with
    valid fields or lines the pattern does not match, and for which the
    name [F] behind the tag of the offset can be opened for writing and
    leads to another file: [submod] writes one chunk for every line under
    that name and prints [Success.] and the name, without a notice of
    deletion. *)
Theorem submod_nonnegative_offset (fmt : subtitle_format) (sys : platform)
        (F : string) (S : float) (d : Z) (i o : Z) (text : string) :
  re_match proc_regex F = None -> no_brace F = true ->
  format_of_name F = Some fmt ->
  isfile sys F = true -> open_r sys F = Some i ->
  open_w sys (offset_tag S ++ F) = Some o -> i <> o ->
  text_of sys i = Some text ->
  Forall (file_line fmt) (read_lines text) ->
  timedelta_seconds S = Some d -> 0 <= d <= max_us - 400000000000 ->
  exists out,
    submod sys F S
    = Completed (offset_tag S ++ F) out
        ("Success." ++ LF ++ "Filename = " ++ (offset_tag S ++ F) ++ LF) /\
    List.length out = List.length (read_lines text).
Proof.
  intros Hfresh Hb Hfmt Hisf Hi Ho Hio Ht Hc HS Hd.
  destruct (run_nonneg_offset fmt S d _ HS Hd Hc 0 []) as (out & Hr & Hlen).
  exists out. split; [|exact Hlen].
  unfold submod. rewrite Hisf. cbn [negb]. rewrite Hfmt, name_output_fresh by assumption.
  rewrite convert_file_lines, (opened_lines_other sys _ _ i o text) by assumption.
  rewrite convert_run. change conv_init with (mkConv 0 false []). rewrite Hr.
  reflexivity.
Qed.

Lemma submod_nonnegative_offset_witness :
  let sys := mkPlatform (fun p => String.eqb p "movie.vtt")
               (fun p => if String.eqb p "movie.vtt" then Some 1 else None)
               (fun p => if String.eqb p "{+1.25_Sec}_movie.vtt" then Some 2 else None)
               (fun i => Some ("1" ++ LF ++ "00:00:01.500 --> 00:00:03.000" ++ LF
                               ++ "Hello" ++ LF)%string) LF in
  exists out,
    submod sys "movie.vtt" (dec 125 2)
    = Completed (offset_tag (dec 125 2) ++ "movie.vtt") out
        ("Success." ++ LF ++ "Filename = " ++ (offset_tag (dec 125 2) ++ "movie.vtt") ++ LF) /\
    List.length out
    = List.length (read_lines ("1" ++ LF ++ "00:00:01.500 --> 00:00:03.000" ++ LF
                               ++ "Hello" ++ LF)).
Proof.
  intros sys.
  apply (submod_nonnegative_offset VTT sys "movie.vtt" (dec 125 2) 1250000 1 2).
  - reflexivity.
  - reflexivity.
  - reflexivity.
  - reflexivity.
  - reflexivity.
  - vm_compute. reflexivity.
  - lia.
  - reflexivity.
  - change (read_lines ("1" ++ LF ++ "00:00:01.500 --> 00:00:03.000" ++ LF ++ "Hello" ++ LF))
      with ["1" ++ LF; range_line "." 0 0 1 500 0 0 3 0 LF; "Hello" ++ LF]%string.
    apply Forall_cons; [apply other_text; reflexivity|].
    apply Forall_cons; [apply (time_range VTT 0 0 1 500 0 0 3 0); unfold valid_fields; lia|].
    apply Forall_cons; [apply other_text; reflexivity|].
    apply Forall_nil.
  - vm_compute. reflexivity.
  - unfold max_us. lia.
Defined.

(** ** Bounds on what a conversion writes *)

Lemma step_bounds (fmt : subtitle_format) (S : float) (st st' : conv) (line : string) :
  step fmt S st line = Some st' ->
  (List.length (written st') <= List.length (written st) + 1)%nat /\
  deleted_subs st <= deleted_subs st' <= deleted_subs st + 1.
Proof.
  intros Hs. destruct (is_match (time_line (separator fmt)) line) eqn:Hm.
  - rewrite step_time_line in Hs by assumption.
    destruct (process_line (to_canonical fmt line) S) as [r|]; [|discriminate].
    destruct (String.eqb r DELETED); injection Hs as <-; cbn [deleted_subs written];
      rewrite List.length_app; cbn [List.length]; lia.
  - rewrite step_other_line in Hs by assumption. injection Hs as <-.
    unfold other_line, write. destruct (skip st).
    + destruct (String.eqb line LF); cbn [deleted_subs written]; lia.
    + cbn [deleted_subs written]. rewrite List.length_app. cbn [List.length]. lia.
Qed.

Lemma run_bounds (fmt : subtitle_format) (S : float) (lines : list string) :
  forall st st', run (step fmt S) st lines = Some st' ->
    (List.length (written st') <= List.length (written st) + List.length lines)%nat /\
    deleted_subs st <= deleted_subs st' <= deleted_subs st + Z.of_nat (List.length lines).
Proof.
  induction lines as [|line lines IH]; intros st st' Hr.
  - injection Hr as <-. cbn [List.length]. lia.
  - cbn [run] in Hr. destruct (step fmt S st line) as [st1|] eqn:Hs; [|discriminate].
    cbn [bind] in Hr. destruct (step_bounds fmt S st st1 line Hs) as (B1 & B2).
    destruct (IH st1 st' Hr) as (B3 & B4). cbn [List.length]. lia.
Qed.

(** X15.  A conversion never writes more chunks than it reads lines, and
    its count of deleted subtitles lies between 0 and the number of
    lines. *)
Theorem conversion_bounds (fmt : subtitle_format) (S : float) (file out : list string) (n : Z) :
  convert fmt file S = Some (n, out) ->
  (List.length out <= List.length file)%nat /\ 0 <= n <= Z.of_nat (List.length file).
Proof.
  intros Hc. rewrite convert_run in Hc.
  destruct (run (step fmt S) conv_init file) as [st|] eqn:Hr; [|discriminate].
  injection Hc as <- <-. destruct (run_bounds fmt S file conv_init st Hr) as (B1 & B2).
  cbn [conv_init written deleted_subs List.length] in B1, B2. split; lia.
Qed.

Lemma conversion_bounds_witness :
  (List.length ["1" ++ LF; DELETED]%string
   <= List.length ["1" ++ LF; range_line "," 0 0 1 0 0 0 3 0 LF; "Gone" ++ LF; LF]%string)%nat /\
  0 <= 1 <= Z.of_nat (List.length ["1" ++ LF; range_line "," 0 0 1 0 0 0 3 0 LF; "Gone" ++ LF; LF]%string).
Proof.
  apply (conversion_bounds SRT (dec (-100) 1)). vm_compute. reflexivity.
Defined.

(** ** A time line while text is being dropped *)

(** X16.  Text keeps being dropped across a time line.  While the converter
    drops the text of a deleted subtitle (no blank line has ended it yet), a
    time line that survives the shift is written, but the converter stays in
    the dropping state and the text line after it is lost. *)
Theorem text_lost_after_unfinished_deletion (fmt : subtitle_format) (S : float) (d : Z)
        (n : Z) (out : list string) (h1 m1 s1 f1 h2 m2 s2 f2 : Z) (rest text : string) :
  valid_fields h1 m1 s1 f1 -> valid_fields h2 m2 s2 f2 ->
  timedelta_seconds S = Some d ->
  0 <= stamp_us h1 m1 s1 f1 + d <= max_us -> 0 <= stamp_us h2 m2 s2 f2 + d <= max_us ->
  is_match (time_line (separator fmt)) text = false -> text <> LF ->
  exists chunk,
    run (step fmt S) (mkConv n true out)
        [range_line (separator fmt) h1 m1 s1 f1 h2 m2 s2 f2 rest; text]
    = Some (mkConv n true (out ++ [chunk])) /\ chunk <> DELETED.
Proof.
  intros (A1 & A2 & A3 & A4) (B1 & B2 & B3 & B4) HS U1 U2 Ht Htl.
  destruct (process_time_survives h1 m1 s1 f1 S d A1 A2 A3 A4 HS U1) as (a & Ha & Hna).
  destruct (process_time_survives h2 m2 s2 f2 S d B1 B2 B3 B4 HS U2) as (b & Hb & Hnb).
  exists (from_canonical fmt (a ++ " --> " ++ b ++ LF)).
  cbn [run]. rewrite step_range_line, Ha, Hb.
  destruct (String.eqb_spec a DELETED); [contradiction|].
  cbn [bind deleted_subs skip written]. rewrite step_other_line by assumption.
  unfold other_line. cbn [skip bind deleted_subs written].
  destruct (String.eqb_spec text LF); [contradiction|].
  split; [reflexivity|]. apply from_canonical_not_deleted.
  destruct (process_time_head _ _ _ Ha) as [|(c & a' & -> & Hc)]; [contradiction|].
  cbn [append]. intros [= Hbad _]. now apply Hc.
Qed.

Lemma text_lost_after_unfinished_deletion_witness :
  exists chunk,
    run (step VTT (dec (-2) 0)) (mkConv 1 true ["1" ++ LF; DELETED]%string)
        [range_line (separator VTT) 0 0 5 0 0 0 7 0 LF; "Kept?" ++ LF]%string
    = Some (mkConv 1 true (["1" ++ LF; DELETED]%string ++ [chunk])) /\ chunk <> DELETED.
Proof.
  apply (text_lost_after_unfinished_deletion VTT (dec (-2) 0) (-2000000)).
  - unfold valid_fields. lia.
  - unfold valid_fields. lia.
  - vm_compute. reflexivity.
  - vm_compute. split; discriminate.
  - vm_compute. split; discriminate.
  - reflexivity.
  - discriminate.
Defined.

(** ** Finite offsets never make a well-formed file fail *)

(** X17.  [process_time] does not raise on a fixed-width time field and a
    finite offset below 2^32 seconds in magnitude: [timedelta] turns the
    offset into a whole number [d] of microseconds that is less than one
    microsecond away from it, [process_time] returns a text, and that text
    is the marker exactly when the total [T + d] is negative. *)
Theorem process_time_never_raises (h m s f : Z) (neg : bool) (M e : Z) :
  valid_fields h m s f -> 0 <= M -> fnum M e < 2 ^ 32 * fden e ->
  exists d r,
    timedelta_seconds (Ffin neg M e) = Some d /\
    Z.abs (d * fden e - sgn neg (1000000 * fnum M e)) < fden e /\
    process_time (stamp "." h m s f) (Ffin neg M e) = Some r /\
    (r = DELETED <-> stamp_us h m s f + d < 0).
Proof.
  intros (Hh & Hm & Hs & Hf). now apply process_time_finite.
Qed.

Lemma process_time_never_raises_witness :
  exists d r,
    timedelta_seconds (Ffin true 1 (-7)) = Some d /\
    Z.abs (d * fden (-7) - sgn true (1000000 * fnum 1 (-7))) < fden (-7) /\
    process_time (stamp "." 0 0 1 0) (Ffin true 1 (-7)) = Some r /\
    (r = DELETED <-> stamp_us 0 0 1 0 + d < 0).
Proof.
  apply (process_time_never_raises 0 0 1 0 true 1 (-7)).
  - unfold valid_fields. lia.
  - lia.
  - vm_compute. reflexivity.
Defined.

Lemma step_finite (fmt : subtitle_format) (neg : bool) (M e : Z) (st : conv) (line : string) :
  0 <= M -> fnum M e < 2 ^ 32 * fden e -> file_line fmt line ->
  exists st', step fmt (Ffin neg M e) st line = Some st'.
Proof.
  intros HM Hlt Hl.
  destruct Hl as [h1 m1 s1 f1 h2 m2 s2 f2 rest (A1 & A2 & A3 & A4) (B1 & B2 & B3 & B4)|line Hn].
  - rewrite step_range_line.
    destruct (process_time_finite h1 m1 s1 f1 neg M e A1 A2 A3 A4 HM Hlt)
      as (d1 & a & _ & _ & -> & _).
    destruct (process_time_finite h2 m2 s2 f2 neg M e B1 B2 B3 B4 HM Hlt)
      as (d2 & b & _ & _ & -> & _).
    destruct (String.eqb a DELETED); [destruct (String.eqb b DELETED)|]; eauto.
  - rewrite step_other_line by assumption. eauto.
Qed.

Lemma run_finite (fmt : subtitle_format) (neg : bool) (M e : Z) (file : list string) :
  0 <= M -> fnum M e < 2 ^ 32 * fden e -> Forall (file_line fmt) file ->
  forall st, exists st', run (step fmt (Ffin neg M e)) st file = Some st'.
Proof.
  intros HM Hlt. induction 1 as [|line file Hl _ IH]; intros st.
  - exists st. reflexivity.
  - cbn [run]. destruct (step_finite fmt neg M e st line HM Hlt Hl) as (st1 & ->).
    cbn [bind]. apply IH.
Qed.

(** X18.  [submod] completes on every well-formed input that the platform
    lets it open.  For an existing file with a fresh name [F] without braces
    that ends in .srt or .vtt, that can be opened and read, whose lines are
    time lines with valid fields or lines the pattern does not match, for a
    finite offset below 2^32 seconds in magnitude, and when the name [F]
    behind the tag of the offset can be opened for writing and leads to
    another file: the loop of the converter returns a count and the chunks,
    and [submod] writes those chunks under that name and prints the status
    for that count and name. *)
Theorem submod_completes (fmt : subtitle_format) (sys : platform) (F : string)
        (neg : bool) (M e : Z) (i o : Z) (text : string) :
  re_match proc_regex F = None -> no_brace F = true ->
  format_of_name F = Some fmt ->
  isfile sys F = true -> open_r sys F = Some i ->
  open_w sys (offset_tag (Ffin neg M e) ++ F) = Some o -> i <> o ->
  text_of sys i = Some text ->
  Forall (file_line fmt) (read_lines text) ->
  0 <= M -> fnum M e < 2 ^ 32 * fden e ->
  exists n out,
    convert fmt (read_lines text) (Ffin neg M e) = Some (n, out) /\
    submod sys F (Ffin neg M e)
    = Completed (offset_tag (Ffin neg M e) ++ F) out
                (status n (offset_tag (Ffin neg M e) ++ F)).
Proof.
  intros Hfresh Hb Hfmt Hisf Hi Ho Hio Ht Hc HM Hlt.
  destruct (run_finite fmt neg M e _ HM Hlt Hc conv_init) as (st & Hr).
  exists (deleted_subs st), (written st).
  unfold submod. rewrite Hisf. cbn [negb]. rewrite Hfmt, name_output_fresh by assumption.
  rewrite convert_file_lines, (opened_lines_other sys _ _ i o text) by assumption.
  rewrite convert_run, Hr. split; reflexivity.
Qed.

Lemma submod_completes_witness :
  let sys := mkPlatform (fun p => String.eqb p "movie.srt")
               (fun p => if String.eqb p "movie.srt" then Some 1 else None)
               (fun p => if String.eqb p "{-1.50_Sec}_movie.srt" then Some 2 else None)
               (fun i => Some ("1" ++ LF ++ "00:00:01,500 --> 00:00:03,000" ++ LF
                               ++ "Hello" ++ LF)%string) LF in
  exists n out,
    convert SRT (read_lines ("1" ++ LF ++ "00:00:01,500 --> 00:00:03,000" ++ LF
                             ++ "Hello" ++ LF)) (Ffin true 3 (-1)) = Some (n, out) /\
    submod sys "movie.srt" (Ffin true 3 (-1))
    = Completed (offset_tag (Ffin true 3 (-1)) ++ "movie.srt") out
                (status n (offset_tag (Ffin true 3 (-1)) ++ "movie.srt")).
Proof.
  intros sys.
  apply (submod_completes SRT sys "movie.srt" true 3 (-1) 1 2).
  - reflexivity.
  - reflexivity.
  - reflexivity.
  - reflexivity.
  - reflexivity.
  - vm_compute. reflexivity.
  - lia.
  - reflexivity.
  - change (read_lines ("1" ++ LF ++ "00:00:01,500 --> 00:00:03,000" ++ LF ++ "Hello" ++ LF))
      with ["1" ++ LF; range_line "," 0 0 1 500 0 0 3 0 LF; "Hello" ++ LF]%string.
    apply Forall_cons; [apply other_text; reflexivity|].
    apply Forall_cons; [apply (time_range SRT 0 0 1 500 0 0 3 0); unfold valid_fields; lia|].
    apply Forall_cons; [apply other_text; reflexivity|].
    apply Forall_nil.
  - lia.
  - vm_compute. reflexivity.
Defined.

(** ** process_line on a subtitle that starts before it ends *)

(** X19.  On a subtitle that does not end before it starts, [process_line]
    returns one of three texts and never a time glued to the marker.  For
    two fixed-width times [T1 <= T2] and an offset that [timedelta] turns
    into [d] microseconds: the marker when [T2 + d] is negative; the start
    [00:00:00.000] and the shifted end when only [T1 + d] is negative; the
    two shifted times otherwise, neither of them the marker. *)
Theorem ordered_times_never_glued (h1 m1 s1 f1 h2 m2 s2 f2 : Z) (rest : string)
        (S : float) (d : Z) :
  valid_fields h1 m1 s1 f1 -> valid_fields h2 m2 s2 f2 ->
  stamp_us h1 m1 s1 f1 <= stamp_us h2 m2 s2 f2 ->
  timedelta_seconds S = Some d -> stamp_us h2 m2 s2 f2 + d <= max_us ->
  exists r,
    process_line (range_line "." h1 m1 s1 f1 h2 m2 s2 f2 rest) S = Some r /\
    ((stamp_us h2 m2 s2 f2 + d < 0 /\ r = DELETED) \/
     (stamp_us h1 m1 s1 f1 + d < 0 <= stamp_us h2 m2 s2 f2 + d /\
      exists b, process_time (stamp "." h2 m2 s2 f2) S = Some b /\ b <> DELETED /\
                r = ("00:00:00.000 --> " ++ b ++ LF)%string) \/
     (0 <= stamp_us h1 m1 s1 f1 + d /\
      exists a b, process_time (stamp "." h1 m1 s1 f1) S = Some a /\ a <> DELETED /\
                  process_time (stamp "." h2 m2 s2 f2) S = Some b /\ b <> DELETED /\
                  r = (a ++ " --> " ++ b ++ LF)%string)).
Proof.
  intros (A1 & A2 & A3 & A4) (B1 & B2 & B3 & B4) Hord HS Hmax.
  rewrite process_line_range.
  destruct (Z_lt_ge_dec (stamp_us h2 m2 s2 f2 + d) 0) as [Hn2|Hp2].
  - rewrite (process_time_negative h1 m1 s1 f1 S d) by (assumption || lia).
    rewrite (process_time_negative h2 m2 s2 f2 S d) by (assumption || lia).
    exists DELETED. rewrite !String.eqb_refl. split; [reflexivity|]. left. now split.
  - destruct (process_time_survives h2 m2 s2 f2 S d B1 B2 B3 B4 HS ltac:(lia))
      as (b & Hb & Hnb).
    rewrite Hb.
    destruct (Z_lt_ge_dec (stamp_us h1 m1 s1 f1 + d) 0) as [Hn1|Hp1].
    + rewrite (process_time_negative h1 m1 s1 f1 S d) by (assumption || lia).
      rewrite String.eqb_refl.
      destruct (String.eqb_spec b DELETED); [contradiction|].
      eexists. split; [reflexivity|]. right. left. split; [lia|].
      exists b. auto.
    + destruct (process_time_survives h1 m1 s1 f1 S d A1 A2 A3 A4 HS ltac:(lia))
        as (a & Ha & Hna).
      rewrite Ha. destruct (String.eqb_spec a DELETED); [contradiction|].
      eexists. split; [reflexivity|]. right. right. split; [lia|].
      exists a, b. auto.
Qed.

Lemma ordered_times_never_glued_witness :
  exists r,
    process_line (range_line "." 0 0 1 0 0 0 3 0 LF) (dec (-2) 0) = Some r /\
    ((stamp_us 0 0 3 0 + -2000000 < 0 /\ r = DELETED) \/
     (stamp_us 0 0 1 0 + -2000000 < 0 <= stamp_us 0 0 3 0 + -2000000 /\
      exists b, process_time (stamp "." 0 0 3 0) (dec (-2) 0) = Some b /\ b <> DELETED /\
                r = ("00:00:00.000 --> " ++ b ++ LF)%string) \/
     (0 <= stamp_us 0 0 1 0 + -2000000 /\
      exists a b, process_time (stamp "." 0 0 1 0) (dec (-2) 0) = Some a /\ a <> DELETED /\
                  process_time (stamp "." 0 0 3 0) (dec (-2) 0) = Some b /\ b <> DELETED /\
                  r = (a ++ " --> " ++ b ++ LF)%string)).
Proof.
  apply (ordered_times_never_glued 0 0 1 0 0 0 3 0 LF (dec (-2) 0) (-2000000)).
  - unfold valid_fields. lia.
  - unfold valid_fields. lia.
  - vm_compute. discriminate.
  - vm_compute. reflexivity.
  - vm_compute. discriminate.
Defined.

(** ** The output name leads to the input file *)

(** X20.  When the output name leads to the file that is read, the
    subtitles are lost: the output is opened and emptied before the first
    line is read, so [submod] reads no line, writes nothing and prints the
    status of a run without deletions.  This happens for a name that carries
    a tag and an offset that leaves the two decimals of the tag unchanged,
    as 0.0, where [name_output] returns the name of the input file. *)
Theorem same_file_is_emptied (fmt : subtitle_format) (sys : platform) (F G : string)
        (S : float) (i : Z) :
  isfile sys F = true -> format_of_name F = Some fmt ->
  name_output F S = Ok G ->
  open_r sys F = Some i -> open_w sys G = Some i ->
  submod sys F S = Completed G [] (status 0 G) /\
  written_text sys [] = EmptyString.
Proof.
  intros Hisf Hfmt Hname Hi Ho. split; [|reflexivity].
  unfold submod. rewrite Hisf. cbn [negb]. rewrite Hfmt, Hname.
  rewrite convert_file_lines, (opened_lines_same sys F G i) by assumption.
  reflexivity.
Qed.

(** A file that carries the tag of 1.0 second, run with the offset 0.0:
    [name_output] returns the name of the input file. *)
Lemma same_file_is_emptied_witness :
  let sys := mkPlatform (fun p => String.eqb p "{+1.00_Sec}_a.srt")
               (fun p => if String.eqb p "{+1.00_Sec}_a.srt" then Some 1 else None)
               (fun p => if String.eqb p "{+1.00_Sec}_a.srt" then Some 1 else Some 2)
               (fun i => Some ("1" ++ LF ++ "00:00:01,500 --> 00:00:03,000" ++ LF
                               ++ "Hello" ++ LF)%string) LF in
  submod sys "{+1.00_Sec}_a.srt" (dec 0 0)
  = Completed "{+1.00_Sec}_a.srt" [] (status 0 "{+1.00_Sec}_a.srt") /\
  written_text sys [] = EmptyString.
Proof.
  intros sys.
  apply (same_file_is_emptied SRT sys "{+1.00_Sec}_a.srt" "{+1.00_Sec}_a.srt" (dec 0 0) 1).
  - reflexivity.
  - reflexivity.
  - vm_compute. reflexivity.
  - reflexivity.
  - reflexivity.
Defined.
